(** * Proposal generator (proposta.py): parameter derivation, financial
      figures, chart geometry, currency formatting and the webhook driver.

    The numeric code of [proposta.py] is embedded once, over an interface
    [PyFloat] of the operations Python applies to its [float] values, and
    read at two number systems:

    - [float] (IEEE 754 binary64, round to nearest even), the numbers
      the program really computes with;
    - [Qc] (canonical rationals), the exact arithmetic the binary64 results
      approximate.

    Strings are [string]s whose characters are read as the code points
    0..255 (Latin-1). *)

From Stdlib Require Import ZArith QArith Qcanon Floats Bool List String Ascii Lia.
Import ListNotations.

Local Open Scope Z_scope.

(** ** Exceptions and results *)

Inductive exn_kind :=
| ValueError | TypeError | OverflowError | IndexError | OSError | KeyError
| PlainException.

(** An exception object: its class and [str(e)]. *)
Record exn := MkExn { exn_class : exn_kind; exn_str : string }.

Inductive result (A : Type) :=
| Ok (a : A)
| Raise (e : exn).
Arguments Ok {A} a.
Arguments Raise {A} e.

Definition rbind {A B} (r : result A) (k : A -> result B) : result B :=
  match r with
  | Ok a => k a
  | Raise e => Raise e
  end.

Declare Scope py_scope.
Delimit Scope py_scope with py.
Notation "x <- c ;; k" := (rbind c (fun x => k))
  (at level 61, c at next level, right associativity) : py_scope.
Notation "' pat <- c ;; k" := (rbind c (fun x => match x with pat => k end))
  (at level 61, pat pattern, c at next level, right associativity) : py_scope.

(** ** Integer helpers shared by both number systems *)

(** [n / d] rounded to the nearest integer, ties to the even one: what
    Python's [round(x)] returns for a finite [x = n / d]. *)
Definition Z_round_half_even (n : Z) (d : positive) : Z :=
  let q := n / Zpos d in
  let r := n mod Zpos d in
  match 2 * r ?= Zpos d with
  | Lt => q
  | Gt => q + 1
  | Eq => if Z.even q then q else q + 1
  end.

(** Smallest integer not below [n / d]. *)
Definition Z_ceil (n : Z) (d : positive) : Z := - ((- n) / Zpos d).

(** [n / d] truncated towards zero, Python's [int(x)]. *)
Definition Z_trunc (n : Z) (d : positive) : Z := Z.quot n (Zpos d).

Definition pow10 (k : nat) : positive := Z.to_pos (10 ^ Z.of_nat k).

(** ** The operations on Python floats used by the program *)

Class PyFloat (F : Type) := {
  fadd : F -> F -> F;
  fsub : F -> F -> F;
  fmul : F -> F -> F;
  fdiv : F -> F -> F;            (* only ever applied to a non-zero constant divisor *)
  fleb : F -> F -> bool;         (* x <= y *)
  fltb : F -> F -> bool;         (* x < y  *)
  feqb : F -> F -> bool;         (* x == y *)
  dec : Z -> nat -> F;           (* the literal  m * 10^-k  *)
  float_of_int : Z -> result F;  (* float(n) for a Python int *)
  py_round : F -> result Z;      (* round(x) *)
  py_int : F -> result Z;        (* int(x) *)
  np_ceil : F -> F               (* numpy.ceil(x) *)
}.

Declare Scope pyfloat_scope.
Delimit Scope pyfloat_scope with pf.
Infix "+" := fadd : pyfloat_scope.
Infix "-" := fsub : pyfloat_scope.
Infix "*" := fmul : pyfloat_scope.
Infix "/" := fdiv : pyfloat_scope.
Infix "<=?" := fleb : pyfloat_scope.
Infix "<?" := fltb : pyfloat_scope.
Infix "==?" := feqb (at level 70) : pyfloat_scope.
Notation "x >? y" := (fltb y x) : pyfloat_scope.

(** *** Exact rationals *)

Definition Qc_of_Z (z : Z) : Qc := Q2Qc (inject_Z z).

#[export] Instance Exact : PyFloat Qc := {
  fadd := Qcplus;
  fsub := Qcminus;
  fmul := Qcmult;
  fdiv := Qcdiv;
  fleb x y := Qle_bool x y;
  fltb x y := negb (Qle_bool y x);
  feqb x y := Qeq_bool x y;
  dec m k := Q2Qc (m # pow10 k);
  float_of_int z := Ok (Qc_of_Z z);
  py_round x := Ok (Z_round_half_even (Qnum x) (Qden x));
  py_int x := Ok (Z_trunc (Qnum x) (Qden x));
  np_ceil x := Qc_of_Z (Z_ceil (Qnum x) (Qden x))
}.

(** *** IEEE 754 binary64 *)

Module B64.

(** The quotient of two positive integers, rounded once to binary64. *)
Definition SF_of_ratio (s : bool) (n d : positive) : spec_float :=
  let '(mz, ez, lz) := SFdiv_core_binary prec emax (Zpos n) 0 (Zpos d) 0 in
  binary_round_aux prec emax s mz ez lz.

Definition of_ratio (n : Z) (d : positive) : float :=
  match n with
  | Z0 => PrimFloat.zero
  | Zpos p => SF2Prim (SF_of_ratio false p d)
  | Zneg p => SF2Prim (SF_of_ratio true p d)
  end.

(** The exact value of a finite float as a fraction. *)
Definition to_ratio (x : float) : option (Z * positive) :=
  match Prim2SF x with
  | S754_zero _ => Some (0, 1%positive)
  | S754_finite s m e =>
      let zm := if s then Zneg m else Zpos m in
      match e with
      | Zneg p => Some (zm, Z.to_pos (2 ^ Zpos p))
      | _ => Some (zm * 2 ^ e, 1%positive)
      end
  | S754_infinity _ | S754_nan => None
  end.

(** CPython's messages for the conversions that cannot be done. *)
Definition cannot_convert (x : float) : exn :=
  if PrimFloat.is_nan x
  then MkExn ValueError "cannot convert float NaN to integer"
  else MkExn OverflowError "cannot convert float infinity to integer".

Definition to_int (f : Z -> positive -> Z) (x : float) : result Z :=
  match to_ratio x with
  | Some (n, d) => Ok (f n d)
  | None => Raise (cannot_convert x)
  end.

Definition of_int (z : Z) : result float :=
  match binary_normalize prec emax z 0 false with
  | S754_infinity _ =>
      Raise (MkExn OverflowError "int too large to convert to float")
  | sf => Ok (SF2Prim sf)
  end.

(** numpy.ceil: the integer-valued float not below [x]; signed zeros,
    infinities and NaN are returned as they are, and a result that rounds
    up to zero from below keeps the minus sign. *)
Definition ceil (x : float) : float :=
  match to_ratio x with
  | Some (n, d) =>
      let c := Z_ceil n d in
      if (c =? 0) then (if PrimFloat.get_sign x then PrimFloat.neg_zero else PrimFloat.zero)
      else SF2Prim (binary_normalize prec emax c 0 false)
  | None => x
  end.

End B64.

#[export] Instance Binary64 : PyFloat float := {
  fadd := PrimFloat.add;
  fsub := PrimFloat.sub;
  fmul := PrimFloat.mul;
  fdiv := PrimFloat.div;
  fleb := PrimFloat.leb;
  fltb := PrimFloat.ltb;
  feqb := PrimFloat.eqb;
  dec m k := B64.of_ratio m (pow10 k);
  float_of_int := B64.of_int;
  py_round := B64.to_int Z_round_half_even;
  py_int := B64.to_int Z_trunc;
  np_ceil := B64.ceil
}.

(** ** The numeric core of [proposta.py] *)

Set Implicit Arguments.

(** The dictionary returned by [calcular_parametros_automaticos]. *)
Record Parametros (F : Type) := MkParametros {
  p_nome : string;
  p_endereco : string;
  p_consumo : Z;
  p_taxa_iluminacao_publica : F;
  p_consumo_minimo : Z;
  p_valor_fatura_original : F
}.

(** The module-level variables that carry the current request. *)
Record Globals (F : Type) := MkGlobals {
  NOME : string;
  ENDERECO : string;
  CONSUMO : Z;
  TAXA_ILUMINACAO_PUBLICA : F;
  CONSUMO_MINIMO : Z
}.

(** The dictionary returned by [calcular_valores_financeiros]. *)
Record Valores (F : Type) := MkValores {
  tax_ilu_pub : F;
  cmc_total : F;
  consumo_minimo : F;
  desconto : F;
  tarifa_energisa : F;
  tarifa_energisa_com_desconto : F;
  energia_energia_a : F;
  valor_fatura : F;
  valor_total_fatura : F;
  valor_fatura_sem_imposto : F;
  fatura_distribuidora : F;
  fatura_geradora : F;
  total_fatura_energia_a : F;
  energia_compensada : F;
  consumo_minimo_energisa : F;
  total_sem_desconto : F;
  valor_desconto : F;
  total_com_desconto : F;
  total_fatura_energisa_para_pagar : F;
  fatura_locacao : F;
  total_a_pagar_CGS : F;
  economia_ano : F;
  economia_5ano : F;
  economia_incidencia_bandeira_amarela : F;
  economia_incidencia_bandeira_vermelha_patamar_1 : F;
  economia_incidencia_bandeira_vermelha_patamar_2 : F;
  economia_incidencia_bandeira_escassez_hibrida : F;
  economia_anual_incidencia_bandeira_amarela : F;
  economia_anual_incidencia_bandeira_vermelha_patamar_1 : F;
  economia_anual_incidencia_bandeira_vermelha_patamar_2 : F;
  economia_anual_incidencia_bandeira_escassez_hibrida : F;
  economia_5ano_incidencia_bandeira_amarela : F;
  economia_5ano_incidencia_bandeira_vermelha_patamar_1 : F;
  economia_5ano_incidencia_bandeira_vermelha_patamar_2 : F;
  economia_5ano_incidencia_bandeira_escassez_hibrida : F
}.

(** One stacked bar as [ax.bar] draws it: the three heights from the bottom
    up; each segment's [bottom] is the sum of the heights below it. *)
Record Barra (F : Type) := MkBarra {
  seg_iluminacao : F;
  seg_consumo_minimo : F;
  seg_topo : F
}.

Unset Implicit Arguments.

Section Numeric.
Context {F : Type} {PF : PyFloat F}.
Local Open Scope pyfloat_scope.
Local Open Scope py_scope.

Definition DESCONTO_CONTRATO : F := dec 200 1.
Definition TARIFA_ENERGISA : F := dec 1138131 6.

(** Lines 61-67: the minimum-consumption tier. *)
Definition tier (valor_fatura : F) : Z :=
  if valor_fatura <=? dec 300 0 then 30
  else if valor_fatura <=? dec 500 0 then 50
  else 100.

(** Line 71: the fee subtracted from the bill before the division. *)
Definition base_fee (valor_fatura : F) : F :=
  if valor_fatura >? dec 500 0 then dec 9251 2
  else if valor_fatura >? dec 300 0 then dec 6167 2
  else dec 4290 2.

(** Lines 61-90 of [calcular_parametros_automaticos], from the parsed
    bill amount on. *)
Definition parametros_de_valor (nome_usar endereco_usar : string) (valor_fatura : F)
  : result (Parametros F) :=
  let consumo_minimo := tier valor_fatura in
  let valor_atualizado_estimado := valor_fatura - base_fee valor_fatura in
  let consumo_estimado := valor_atualizado_estimado / TARIFA_ENERGISA in
  consumo_total <- py_round consumo_estimado ;;
  consumo_float <- float_of_int consumo_total ;;
  let valor_consumo_medio_exato := consumo_float * TARIFA_ENERGISA in
  let taxa_iluminacao_ajustada := valor_fatura - valor_consumo_medio_exato in
  Ok {| p_nome := nome_usar;
        p_endereco := endereco_usar;
        p_consumo := consumo_total;
        p_taxa_iluminacao_publica := taxa_iluminacao_ajustada;
        p_consumo_minimo := consumo_minimo;
        p_valor_fatura_original := valor_fatura |}.

(** [calcular_valores_financeiros], reading the module-level variables. *)
Definition calcular_valores_financeiros (g : Globals F) : result (Valores F) :=
  let tax_ilu_pub := TAXA_ILUMINACAO_PUBLICA g in
  cmc_total <- float_of_int (CONSUMO g) ;;
  consumo_minimo <- float_of_int (CONSUMO_MINIMO g) ;;
  let desconto := DESCONTO_CONTRATO in
  let tarifa_energisa := TARIFA_ENERGISA in
  let tarifa_energisa_com_desconto := tarifa_energisa * (dec 1 0 - desconto / dec 100 0) in
  let tarifa_bandeira_amarela := dec 24181 6 in
  let tarifa_bandeira_vermelha_patamar_1 := dec 57252 6 in
  let tarifa_bandeira_vermelha_patamar_2 := dec 101047 6 in
  let tarifa_bandeira_escassez_hibrida := dec 182160 6 in
  let energia_energia_a := cmc_total - consumo_minimo in
  let valor_fatura := tarifa_energisa * cmc_total in
  let valor_total_fatura := valor_fatura + tax_ilu_pub in
  let valor_fatura_sem_imposto := tarifa_energisa * energia_energia_a in
  let fatura_distribuidora := valor_total_fatura - valor_fatura_sem_imposto in
  let fatura_geradora := tarifa_energisa_com_desconto * energia_energia_a in
  let total_fatura_energia_a := fatura_distribuidora + fatura_geradora in
  let energia_compensada := (cmc_total - consumo_minimo) * tarifa_energisa in
  let consumo_minimo_energisa := consumo_minimo * tarifa_energisa in
  let total_sem_desconto := valor_fatura + tax_ilu_pub in
  let valor_desconto := total_sem_desconto - total_fatura_energia_a in
  let total_com_desconto := (valor_fatura - valor_desconto) + tax_ilu_pub in
  let total_fatura_energisa_para_pagar := valor_fatura - energia_compensada in
  let fatura_locacao := total_fatura_energisa_para_pagar + energia_compensada - valor_desconto in
  let total_a_pagar_CGS := consumo_minimo_energisa + tax_ilu_pub in
  let economia_ano := valor_desconto * dec 12 0 in
  let economia_5ano := economia_ano * dec 5 0 in
  let economia_incidencia_bandeira_amarela :=
    valor_desconto + energia_energia_a * tarifa_bandeira_amarela in
  let economia_incidencia_bandeira_vermelha_patamar_1 :=
    valor_desconto + energia_energia_a * tarifa_bandeira_vermelha_patamar_1 in
  let economia_incidencia_bandeira_vermelha_patamar_2 :=
    valor_desconto + energia_energia_a * tarifa_bandeira_vermelha_patamar_2 in
  let economia_incidencia_bandeira_escassez_hibrida :=
    valor_desconto + energia_energia_a * tarifa_bandeira_escassez_hibrida in
  let economia_anual_incidencia_bandeira_amarela :=
    economia_incidencia_bandeira_amarela * dec 12 0 in
  let economia_anual_incidencia_bandeira_vermelha_patamar_1 :=
    economia_incidencia_bandeira_vermelha_patamar_1 * dec 12 0 in
  let economia_anual_incidencia_bandeira_vermelha_patamar_2 :=
    economia_incidencia_bandeira_vermelha_patamar_2 * dec 12 0 in
  let economia_anual_incidencia_bandeira_escassez_hibrida :=
    economia_incidencia_bandeira_escassez_hibrida * dec 12 0 in
  let economia_5ano_incidencia_bandeira_amarela :=
    economia_anual_incidencia_bandeira_amarela * dec 5 0 in
  let economia_5ano_incidencia_bandeira_vermelha_patamar_1 :=
    economia_anual_incidencia_bandeira_vermelha_patamar_1 * dec 5 0 in
  let economia_5ano_incidencia_bandeira_vermelha_patamar_2 :=
    economia_anual_incidencia_bandeira_vermelha_patamar_2 * dec 5 0 in
  let economia_5ano_incidencia_bandeira_escassez_hibrida :=
    economia_anual_incidencia_bandeira_escassez_hibrida * dec 5 0 in
  Ok (MkValores
        tax_ilu_pub cmc_total consumo_minimo desconto tarifa_energisa
        tarifa_energisa_com_desconto energia_energia_a valor_fatura
        valor_total_fatura valor_fatura_sem_imposto fatura_distribuidora
        fatura_geradora total_fatura_energia_a energia_compensada
        consumo_minimo_energisa total_sem_desconto valor_desconto
        total_com_desconto total_fatura_energisa_para_pagar fatura_locacao
        total_a_pagar_CGS economia_ano economia_5ano
        economia_incidencia_bandeira_amarela
        economia_incidencia_bandeira_vermelha_patamar_1
        economia_incidencia_bandeira_vermelha_patamar_2
        economia_incidencia_bandeira_escassez_hibrida
        economia_anual_incidencia_bandeira_amarela
        economia_anual_incidencia_bandeira_vermelha_patamar_1
        economia_anual_incidencia_bandeira_vermelha_patamar_2
        economia_anual_incidencia_bandeira_escassez_hibrida
        economia_5ano_incidencia_bandeira_amarela
        economia_5ano_incidencia_bandeira_vermelha_patamar_1
        economia_5ano_incidencia_bandeira_vermelha_patamar_2
        economia_5ano_incidencia_bandeira_escassez_hibrida).

(** *** Chart geometry ([gerar_grafico], lines 183-259) *)

(** The builtin [max] of two numbers: the first unless the second is
    greater. *)
Definition py_max (a b : F) : F := if b >? a then b else a.

(** [numpy.arange(start, stop, step)] on floats: [ceil((stop - start) / step)]
    elements [start + i * step]; none when that count is not positive.  A
    count that is NaN, infinite or outside the index range (of a 64-bit
    platform) is an error. *)
Definition np_arange (start stop step : F) : result (list F) :=
  match py_int (np_ceil ((stop - start) / step)) with
  | Raise e => Raise (MkExn (exn_class e) "arange: cannot compute length")
  | Ok n =>
      if ((n <? - 2 ^ 63) || (2 ^ 63 <? n))%Z
      then Raise (MkExn OverflowError "arange: overflow while computing length")
      else Ok (map (fun i => start + dec (Z.of_nat i) 0 * step) (seq 0 (Z.to_nat n)))
  end.

(** Lines 191-205: the upper limit of the y axis and the tick values. *)
Definition eixo_y (max_value : F) : result (F * list F) :=
  if max_value <? dec 300 0 then
    let y_max := np_ceil (max_value / dec 50 0) * dec 50 0 in
    y_ticks <- np_arange (dec 0 0) (y_max + dec 50 0) (dec 50 0) ;;
    Ok (y_max, y_ticks)
  else if max_value <? dec 400 0 then
    Ok (dec 400 0,
        [dec 0 0; dec 6650 2; dec 13300 2; dec 20050 2; dec 26700 2; dec 33350 2; dec 40000 2])
  else if max_value <? dec 600 0 then
    Ok (dec 600 0,
        [dec 0 0; dec 10000 2; dec 20000 2; dec 30000 2; dec 40000 2; dec 50000 2; dec 60000 2])
  else
    let y_max := np_ceil (max_value / dec 100 0) * dec 100 0 in
    let intervalo := y_max / dec 6 0 in
    Ok (y_max, map (fun i => dec (Z.of_nat i) 0 * intervalo) (seq 0 7)).

(** Lines 219-225. *)
Definition ajustar_altura_visual (valor valor_maximo : F) : F :=
  if valor ==? dec 0 0 then dec 0 0
  else
    let altura_minima := valor_maximo * dec 5 2 in
    if valor <? altura_minima then altura_minima else valor.

(** Lines 228-237 and 250-259: the heights drawn for a bar whose true total
    is [total]; both bars go through the same computation, the first with
    [sem_geracao], the second with [com_geracao]. *)
Definition barra_visual (total consumo_minimo_energisa tax_ilu_pub max_value : F) : Barra F :=
  let altura_iluminacao := tax_ilu_pub in
  let altura_consumo_minimo := consumo_minimo_energisa in
  let altura_iluminacao_visual := ajustar_altura_visual altura_iluminacao max_value in
  let altura_consumo_minimo_visual := ajustar_altura_visual altura_consumo_minimo max_value in
  let ajuste_total :=
    (altura_iluminacao_visual - altura_iluminacao)
    + (altura_consumo_minimo_visual - altura_consumo_minimo) in
  let altura_topo := total - altura_iluminacao - altura_consumo_minimo in
  let altura_topo_visual := altura_topo - ajuste_total in
  MkBarra altura_iluminacao_visual altura_consumo_minimo_visual altura_topo_visual.

(** The true (labelled) values of a bar's three segments. *)
Definition barra_real (total consumo_minimo_energisa tax_ilu_pub : F) : Barra F :=
  MkBarra tax_ilu_pub consumo_minimo_energisa
          (total - tax_ilu_pub - consumo_minimo_energisa).

Definition barra_soma (b : Barra F) : F :=
  seg_iluminacao b + seg_consumo_minimo b + seg_topo b.

(** Lines 96-100 and 1008-1012: the module-level variables set from a
    parameter dictionary. *)
Definition globals_de (p : Parametros F) : Globals F :=
  {| NOME := p_nome p;
     ENDERECO := p_endereco p;
     CONSUMO := p_consumo p;
     TAXA_ILUMINACAO_PUBLICA := p_taxa_iluminacao_publica p;
     CONSUMO_MINIMO := p_consumo_minimo p |}.

End Numeric.

(** ** Strings *)

Local Open Scope string_scope.

Module Str.

Definition code (c : ascii) : nat := nat_of_ascii c.

Definition between (lo hi : nat) (c : ascii) : bool :=
  (lo <=? code c)%nat && (code c <=? hi)%nat.

(** [str.isspace], the regular expression class [\s] and the characters
    removed by [str.strip()], below code point 256. *)
Definition is_space (c : ascii) : bool :=
  between 9 13 c || between 28 32 c || (code c =? 133)%nat || (code c =? 160)%nat.

Definition is_digit (c : ascii) : bool := between 48 57 c.

Definition is_empty (s : string) : bool :=
  match s with EmptyString => true | String _ _ => false end.

Fixpoint filter (p : ascii -> bool) (s : string) : string :=
  match s with
  | EmptyString => EmptyString
  | String c r => if p c then String c (filter p r) else filter p r
  end.

Fixpoint map (f : ascii -> ascii) (s : string) : string :=
  match s with
  | EmptyString => EmptyString
  | String c r => String (f c) (map f r)
  end.

Fixpoint contains (a : ascii) (s : string) : bool :=
  match s with
  | EmptyString => false
  | String c r => Ascii.eqb c a || contains a r
  end.

Fixpoint count (a : ascii) (s : string) : nat :=
  match s with
  | EmptyString => O
  | String c r => ((if Ascii.eqb c a then 1 else 0) + count a r)%nat
  end.

(** [s.replace(a, b)] for one-character [a] and [b]. *)
Definition replace (a b : ascii) (s : string) : string :=
  map (fun c => if Ascii.eqb c a then b else c) s.

Fixpoint lstrip (p : ascii -> bool) (s : string) : string :=
  match s with
  | EmptyString => EmptyString
  | String c r => if p c then lstrip p r else s
  end.

Fixpoint rstrip (p : ascii -> bool) (s : string) : string :=
  match s with
  | EmptyString => EmptyString
  | String c r =>
      let r' := rstrip p r in
      if p c && is_empty r' then EmptyString else String c r'
  end.

Definition strip_by (p : ascii -> bool) (s : string) : string := rstrip p (lstrip p s).

(** [s.strip()] *)
Definition strip (s : string) : string := strip_by is_space s.

(** The longest prefix of characters satisfying [p], and the rest. *)
Fixpoint span (p : ascii -> bool) (s : string) : string * string :=
  match s with
  | EmptyString => (EmptyString, EmptyString)
  | String c r =>
      if p c then let '(a, b) := span p r in (String c a, b)
      else (EmptyString, s)
  end.

(** [s.split(a)] *)
Fixpoint split (a : ascii) (s : string) : list string :=
  match s with
  | EmptyString => [EmptyString]
  | String c r =>
      match split a r with
      | [] => []
      | h :: t => if Ascii.eqb c a then EmptyString :: h :: t else String c h :: t
      end
  end.

(** [s[:n]] *)
Fixpoint take (n : nat) (s : string) : string :=
  match n, s with
  | S n', String c r => String c (take n' r)
  | _, _ => EmptyString
  end.

(** [re.sub(p+, b, s)] for a character class [p]: every maximal run of
    characters of the class becomes one [b].  [in_run] tells that the
    previous character was in the class. *)
Fixpoint sub_runs_from (p : ascii -> bool) (b : ascii) (in_run : bool) (s : string) : string :=
  match s with
  | EmptyString => EmptyString
  | String c r =>
      if p c then
        if in_run then sub_runs_from p b true r
        else String b (sub_runs_from p b true r)
      else String c (sub_runs_from p b false r)
  end.

Definition sub_runs (p : ascii -> bool) (b : ascii) (s : string) : string :=
  sub_runs_from p b false s.

(** The decimal digits of a natural number. *)
Definition digit (n : N) : ascii := ascii_of_N (48 + n).

Fixpoint digits_aux (fuel : nat) (n : N) (acc : string) : string :=
  match fuel with
  | O => acc
  | S f =>
      let acc' := String (digit (n mod 10)) acc in
      if (n / 10 =? 0)%N then acc' else digits_aux f (n / 10) acc'
  end.

Definition digits (n : N) : string := digits_aux (S (N.to_nat (N.log2 n))) n EmptyString.

Fixpoint rev_onto (s acc : string) : string :=
  match s with
  | EmptyString => acc
  | String c r => rev_onto r (String c acc)
  end.

Definition rev (s : string) : string := rev_onto s EmptyString.

(** Groups of three, counted from the left of [s], separated by [sep]. *)
Fixpoint group_from_left (sep : ascii) (k : nat) (s : string) : string :=
  match s with
  | EmptyString => EmptyString
  | String c r =>
      match k with
      | O => String sep (String c (group_from_left sep 2 r))
      | S k' => String c (group_from_left sep k' r)
      end
  end.

(** The digits [s] with [sep] between groups of three counted from the
    right: the thousands grouping of the format specification [,]. *)
Definition group3 (sep : ascii) (s : string) : string :=
  rev (group_from_left sep 3 (rev s)).

End Str.

(** ** Python's [float(...)] and float formatting, at binary64 *)

(** The Python values the formatting helpers are applied to. *)
Inductive pyval :=
| VNone
| VInt (z : Z)
| VFloat (x : float)
| VStr (s : string).

Module PyFloatStr.

(** What a float literal denotes before it is rounded to binary64:
    [LitDec neg m fl e] is [(-1)^neg * m * 10^(e - fl)], where [m] is the
    number written by the digits before and after the point and [fl] is
    the number of digits after the point. *)
Inductive literal :=
| LitInf (neg : bool)
| LitNan
| LitDec (neg : bool) (m : N) (fl : nat) (e : Z).

(** The characters [float] strips from both ends of its argument. *)
Definition is_float_space (c : ascii) : bool :=
  Str.between 9 13 c || (Str.code c =? 32)%nat || (Str.code c =? 133)%nat
  || (Str.code c =? 160)%nat.

Definition is_underscore (c : ascii) : bool := Ascii.eqb c "_".

(** Underscores are accepted between two digits only, and are dropped.
    [prev] is the previous character of the text. *)
Fixpoint drop_underscores (prev : ascii) (s : string) : option string :=
  match s with
  | EmptyString => if is_underscore prev then None else Some EmptyString
  | String c r =>
      if is_underscore c then
        if Str.is_digit prev then drop_underscores c r else None
      else if is_underscore prev && negb (Str.is_digit c) then None
      else option_map (String c) (drop_underscores c r)
  end.

Definition parse_sign (s : string) : bool * string :=
  match s with
  | String "-" r => (true, r)
  | String "+" r => (false, r)
  | _ => (false, s)
  end.

Definition lower (c : ascii) : ascii :=
  if Str.between 65 90 c then ascii_of_nat (Str.code c + 32) else c.

Fixpoint digits_value (acc : N) (s : string) : N :=
  match s with
  | EmptyString => acc
  | String c r => digits_value (10 * acc + (N.of_nat (Str.code c) - 48)) r
  end.

(** The exponent part: nothing, or [e] or [E], an optional sign and at
    least one digit, up to the end of the text. *)
Definition parse_exponent (s : string) : option Z :=
  match s with
  | EmptyString => Some 0
  | String c r =>
      if Ascii.eqb (lower c) "e" then
        let '(neg, r1) := parse_sign r in
        let '(ds, r2) := Str.span Str.is_digit r1 in
        if negb (Str.is_empty ds) && Str.is_empty r2
        then Some (let v := Z.of_N (digits_value 0 ds) in if neg then - v else v)
        else None
      else None
  end.

Definition parse_number (neg : bool) (s : string) : option literal :=
  let '(ip, r1) := Str.span Str.is_digit s in
  let '(fp, r2) :=
    match r1 with
    | String "." r => Str.span Str.is_digit r
    | _ => (EmptyString, r1)
    end in
  if Str.is_empty ip && Str.is_empty fp then None
  else
    match parse_exponent r2 with
    | Some e => Some (LitDec neg (digits_value 0 (ip ++ fp)) (String.length fp) e)
    | None => None
    end.

Definition parse_literal (u : string) : option literal :=
  let '(neg, r) := parse_sign u in
  let l := Str.map lower r in
  if String.eqb l "inf" || String.eqb l "infinity" then Some (LitInf neg)
  else if String.eqb l "nan" then Some LitNan
  else parse_number neg r.

(** The binary64 number nearest to the literal. *)
Definition float_of_literal (l : literal) : float :=
  match l with
  | LitInf neg => if neg then PrimFloat.neg_infinity else PrimFloat.infinity
  | LitNan => PrimFloat.nan
  | LitDec neg m fl e =>
      match m with
      | N0 => if neg then PrimFloat.neg_zero else PrimFloat.zero
      | Npos p =>
          let zm := if neg then Zneg p else Zpos p in
          let e10 := e - Z.of_nat fl in
          match e10 with
          | Zneg k => B64.of_ratio zm (Z.to_pos (10 ^ Zpos k))
          | _ => B64.of_ratio (zm * 10 ^ e10) 1
          end
      end
  end.

Definition could_not_convert : exn :=
  MkExn ValueError "could not convert string to float".

(** [float(s)] for a string. *)
Definition float_of_str (s : string) : result float :=
  match drop_underscores "000" (Str.strip_by is_float_space s) with
  | None => Raise could_not_convert
  | Some u =>
      match parse_literal u with
      | None => Raise could_not_convert
      | Some l => Ok (float_of_literal l)
      end
  end.

(** [float(v)] *)
Definition py_float (v : pyval) : result float :=
  match v with
  | VNone =>
      Raise (MkExn TypeError "float() argument must be a string or a real number, not 'NoneType'")
  | VInt z => B64.of_int z
  | VFloat x => Ok x
  | VStr s => float_of_str s
  end.

Definition two_digits (n : N) : string :=
  String (Str.digit (n / 10)) (String (Str.digit (n mod 10)) EmptyString).

(** [f"{x:,.2f}"] with the separator [sep] between thousands and [point]
    before the two decimals; Python's own output has [sep = ","] and
    [point = "."]. *)
Definition format_2f (sep point : ascii) (x : float) : string :=
  match B64.to_ratio x with
  | Some (n, d) =>
      let cents := Z.to_N (Z_round_half_even (100 * Z.abs n) d) in
      (if PrimFloat.get_sign x then "-" else "")
      ++ Str.group3 sep (Str.digits (cents / 100))
      ++ String point (two_digits (cents mod 100))
  | None =>
      if PrimFloat.is_nan x then "nan"
      else if PrimFloat.get_sign x then "-inf" else "inf"
  end.

(** [str(n)] for an int. *)
Definition str_of_int (z : Z) : string :=
  match z with
  | Zneg p => String "-" (Str.digits (Npos p))
  | _ => Str.digits (Z.to_N z)
  end.

End PyFloatStr.

(** ** The string-facing functions of [proposta.py] *)

(** [extrair_valor_monetario] *)
Definition extrair_valor_monetario (valor_str : string) : result float :=
  let valor_limpo :=
    Str.filter (fun c => negb (Ascii.eqb c "R" || Ascii.eqb c "$" || Str.is_space c)) valor_str in
  let valor_limpo :=
    if Str.contains "," valor_limpo then Str.replace "," "." valor_limpo else valor_limpo in
  PyFloatStr.float_of_str valor_limpo.

Definition list_index {A} (l : list A) (i : nat) : result A :=
  match nth_error l i with
  | Some a => Ok a
  | None => Raise (MkExn IndexError "list index out of range")
  end.

(** [formatar_moeda]: the [try] body, then the handler for [ValueError] and
    [TypeError]; any other exception leaves the function. *)
Definition formatar_moeda (valor : pyval) : result string :=
  let corpo :=
    (x <- PyFloatStr.py_float valor ;;
     let partes :=
       Str.split ","
         (Str.replace "X" "." (Str.replace "." "," (Str.replace "," "X"
            (PyFloatStr.format_2f "," "." x)))) in
     p0 <- list_index partes 0 ;;
     p1 <- list_index partes 1 ;;
     Ok (p0 ++ "," ++ p1))%py in
  match corpo with
  | Ok s => Ok s
  | Raise e =>
      match exn_class e with
      | ValueError | TypeError => Ok "0,00"
      | _ => Raise e
      end
  end.

(** [sanitizar_nome_arquivo] *)
Definition caractere_invalido (c : ascii) : bool :=
  let n := Str.code c in
  (* the class of  < > : double-quote / backslash | ? and the star *)
  existsb (Nat.eqb n) [60; 62; 58; 34; 47; 92; 124; 63; 42]%nat.

Definition sanitizar_nome_arquivo (nome : string) : string :=
  let nome_sanitizado :=
    Str.map (fun c => if caractere_invalido c then "_"%char else c) nome in
  let nome_sanitizado := Str.sub_runs Str.is_space "_" (Str.strip nome_sanitizado) in
  let nome_sanitizado := Str.sub_runs (Ascii.eqb "_") "_" nome_sanitizado in
  let nome_sanitizado := Str.strip_by (Ascii.eqb "_") nome_sanitizado in
  if (50 <? String.length nome_sanitizado)%nat
  then Str.take 50 nome_sanitizado
  else nome_sanitizado.

(** [validar_nome_completo], for a string argument.  The class
    [a-zA-ZÀ-ÿ] is the code points 97-122, 65-90 and 192-255. *)
Definition tem_letra (s : string) : bool :=
  negb (Str.is_empty
          (Str.filter (fun c => Str.between 97 122 c || Str.between 65 90 c
                                || Str.between 192 255 c) s)).

Definition validar_nome_completo (nome : string) : result string :=
  if Str.is_empty nome then
    Raise (MkExn ValueError "Nome completo é obrigatório e deve ser uma string")
  else
    let nome := Str.strip nome in
    if (String.length nome <? 3)%nat then
      Raise (MkExn ValueError "Nome completo deve ter pelo menos 3 caracteres")
    else if (100 <? String.length nome)%nat then
      Raise (MkExn ValueError "Nome completo não pode ter mais de 100 caracteres")
    else if negb (tem_letra nome) then
      Raise (MkExn ValueError "Nome completo deve conter pelo menos uma letra")
    else Ok nome.

(** The module-level inputs of [proposta.py]. *)
Definition NOME_COMPLETO : string := "Marcos da Silva Santos Odete".
Definition ENDERECO_COMPLETO : string := "Rua das Flores, 124 - Centro - Campo Grande/MS".
Definition VALOR_FATURA_CLIENTE : string := "439.85".

(** [a or b] for an optional string [a]. *)
Definition str_or (a : option string) (b : string) : string :=
  match a with
  | Some s => if Str.is_empty s then b else s
  | None => b
  end.

(** [calcular_parametros_automaticos] *)
Definition calcular_parametros_automaticos
    (nome_completo endereco_completo valor_fatura_cliente : option string)
  : result (Parametros float) :=
  let nome_usar := str_or nome_completo NOME_COMPLETO in
  let endereco_usar := str_or endereco_completo ENDERECO_COMPLETO in
  let valor_usar := str_or valor_fatura_cliente VALOR_FATURA_CLIENTE in
  (valor_fatura <- extrair_valor_monetario valor_usar ;;
   parametros_de_valor nome_usar endereco_usar valor_fatura)%py.

(** ** State and effects *)

(** What the program can change: its module-level variables, the PDF files
    it has written (newest first) and the chart images it has saved. *)
Record World := MkWorld {
  globals : Globals float;
  pdfs : list string;
  graficos : list string
}.

Definition IO (A : Type) : Type := World -> result A * World.

Definition ret {A} (a : A) : IO A := fun w => (Ok a, w).

Definition raise {A} (e : exn) : IO A := fun w => (Raise e, w).

Definition bind {A B} (m : IO A) (k : A -> IO B) : IO B :=
  fun w =>
    match m w with
    | (Ok a, w') => k a w'
    | (Raise e, w') => (Raise e, w')
    end.

Definition lift {A} (r : result A) : IO A := fun w => (r, w).

(** [try: m  except Exception as e: h e] *)
Definition try_except {A} (m : IO A) (h : exn -> IO A) : IO A :=
  fun w =>
    match m w with
    | (Ok a, w') => (Ok a, w')
    | (Raise e, w') => h e w'
    end.

(** [try: m  finally: f], for a [finally] block that cannot fail. *)
Definition try_finally {A} (m : IO A) (f : World -> World) : IO A :=
  fun w => let '(r, w') := m w in (r, f w').

Definition get_globals : IO (Globals float) := fun w => (Ok (globals w), w).

Definition set_globals (g : Globals float) : World -> World :=
  fun w => MkWorld g (pdfs w) (graficos w).

(** An external call that either does its work or raises. *)
Definition chamada (o : option exn) : IO unit :=
  match o with
  | None => ret tt
  | Some e => raise e
  end.

Declare Scope io_scope.
Delimit Scope io_scope with io.
Notation "x <- c ;; k" := (bind c (fun x => k))
  (at level 61, c at next level, right associativity) : io_scope.
Notation "' pat <- c ;; k" := (bind c (fun x => match x with pat => k end))
  (at level 61, pat pattern, c at next level, right associativity) : io_scope.
Notation "c ;;; k" := (bind c (fun _ => k))
  (at level 61, right associativity) : io_scope.

Fixpoint result_map {A B} (f : A -> result B) (l : list A) : result (list B) :=
  match l with
  | [] => Ok []
  | a :: r => (b <- f a ;; bs <- result_map f r ;; Ok (b :: bs))%py
  end.

(** What [gerar_grafico] hands to matplotlib. *)
Record Grafico := MkGrafico {
  g_y_max : float;
  g_linhas : list (float * string);        (* tick lines and their labels *)
  g_barra_sem : Barra float;               (* heights drawn, first bar *)
  g_barra_com : Barra float;               (* heights drawn, second bar *)
  g_totais : string * string;              (* labels under the bars *)
  g_desconto : string;                     (* the headline percentage *)
  g_rotulos : list (option (string * Z))   (* segment labels and font sizes *)
}.

(** What [criar_proposta_pdf] hands to the PDF canvas. *)
Record Documento := MkDocumento {
  d_nome : string;
  d_endereco : string;
  d_moedas : list string;
  d_inteiros : list Z;
  d_valores : Valores float;
  d_caminho : string
}.

(** The final response of the webhook: the success dictionary, or the
    failure dictionary, whose ['arquivo_path'] is [None]. *)
Inductive Resposta :=
| Sucesso (arquivo_path : string) (dados_processados : Parametros float) (message : string)
| Falha (erro : string).

Definition modify (f : World -> World) : IO unit := fun w => (Ok tt, f w).

(** [try: r  except ValueError: raise e'] *)
Definition except_ValueError {A} (r : result A) (e' : exn) : result A :=
  match r with
  | Ok a => Ok a
  | Raise e =>
      match exn_class e with
      | ValueError => Raise e'
      | _ => Raise e
      end
  end.

(** Lines 310-327: the label [autolabel] writes in a segment, with its font
    size; nothing when the value is not positive. *)
Definition autolabel (val : float) : result (option (string * Z)) :=
  if (val >? dec 0 0)%pf then
    let font_size :=
      if (val >? dec 99999 0)%pf then 16
      else if (val >? dec 9999 0)%pf then 17
      else 18 in
    (s <- formatar_moeda (VFloat val) ;; Ok (Some ("R$ " ++ s, font_size)))%py
  else Ok None.

(** Lines 208-216: the label of a tick line. *)
Definition add_value_line (y_value : float) : result (float * string) :=
  (i <- py_int y_value ;;
   s <- formatar_moeda (VInt i) ;;
   Ok (y_value, "R$ " ++ s))%py.

(** Lines 180-336 of [gerar_grafico]: everything computed before the image
    is saved. *)
Definition montar_grafico
    (sem_geracao com_geracao economia consumo_minimo_energisa tax_ilu_pub desconto : float)
  : result Grafico :=
  let max_value := py_max sem_geracao com_geracao in
  ('(y_max, y_ticks) <- eixo_y max_value ;;
   linhas <- result_map add_value_line y_ticks ;;
   let real_sem := barra_real sem_geracao consumo_minimo_energisa tax_ilu_pub in
   let real_com := barra_real com_geracao consumo_minimo_energisa tax_ilu_pub in
   let barra_sem := barra_visual sem_geracao consumo_minimo_energisa tax_ilu_pub max_value in
   let barra_com := barra_visual com_geracao consumo_minimo_energisa tax_ilu_pub max_value in
   total_sem <- formatar_moeda (VFloat sem_geracao) ;;
   total_com <- formatar_moeda (VFloat com_geracao) ;;
   pct <- py_int desconto ;;
   rotulos <- result_map autolabel
     [seg_iluminacao real_sem; seg_consumo_minimo real_sem; seg_topo real_sem;
      seg_iluminacao real_com; seg_consumo_minimo real_com; seg_topo real_com] ;;
   Ok (MkGrafico y_max linhas barra_sem barra_com
         ("R$ " ++ total_sem, "R$ " ++ total_com)
         (PyFloatStr.str_of_int pct ++ "%") rotulos))%py.

(** Lines 559-588 of [criar_proposta_pdf]: the formatted amounts and the
    integers printed in the tables. *)
Definition formatar_documento (v : Valores float) : result (list string * list Z) :=
  (valor_fatura_fmt <- formatar_moeda (VFloat (valor_fatura v)) ;;
   desconto_fmt <- py_int (desconto v) ;;
   moedas1 <- result_map (fun x => formatar_moeda (VFloat x))
     [tax_ilu_pub v; valor_total_fatura v; valor_desconto v; total_fatura_energia_a v;
      economia_ano v; economia_5ano v] ;;
   cmc_total_fmt <- py_int (cmc_total v) ;;
   energia_energia_a_fmt <- py_int (energia_energia_a v) ;;
   valor_fatura_sem_imposto_fmt <- formatar_moeda (VFloat (valor_fatura_sem_imposto v)) ;;
   consumo_minimo_fmt <- py_int (consumo_minimo v) ;;
   moedas2 <- result_map (fun x => formatar_moeda (VFloat x))
     [total_a_pagar_CGS v; fatura_geradora v;
      economia_incidencia_bandeira_amarela v;
      economia_incidencia_bandeira_vermelha_patamar_1 v;
      economia_incidencia_bandeira_vermelha_patamar_2 v;
      economia_incidencia_bandeira_escassez_hibrida v;
      economia_anual_incidencia_bandeira_amarela v;
      economia_anual_incidencia_bandeira_vermelha_patamar_1 v;
      economia_anual_incidencia_bandeira_vermelha_patamar_2 v;
      economia_anual_incidencia_bandeira_escassez_hibrida v;
      economia_5ano_incidencia_bandeira_amarela v;
      economia_5ano_incidencia_bandeira_vermelha_patamar_1 v;
      economia_5ano_incidencia_bandeira_vermelha_patamar_2 v;
      economia_5ano_incidencia_bandeira_escassez_hibrida v] ;;
   Ok (valor_fatura_fmt :: moedas1 ++ valor_fatura_sem_imposto_fmt :: moedas2,
       [desconto_fmt; cmc_total_fmt; energia_energia_a_fmt; consumo_minimo_fmt]))%py.

Section Webhook.

(** The surroundings of one run: directories, the clock, and the outcome
    of each call that leaves the program (the file system, matplotlib,
    reportlab).  [None] is a call that returns, [Some e] one that raises
    [e], an exception of a class derived from [Exception].  Logging and
    printing are left out. *)
Variable OUTPUT_DIR IMG_DIR : string.
Variable agora : Z.
Variable prepara_grafico : option exn.
Variable desenha_grafico : Grafico -> option exn.
Variable desenha_pdf : Documento -> option exn.
Variable grava_pdf : string -> option exn.
Variable cria_diretorio : option exn.
Variable existe : string -> bool.

Local Open Scope io_scope.

(** [gerar_grafico]: every exception is raised again as a plain
    [Exception] with the prefixed message. *)
Definition gerar_grafico
    (sem_geracao com_geracao economia consumo_minimo_energisa tax_ilu_pub desconto : float)
  : IO string :=
  try_except
    (chamada prepara_grafico ;;;
     let caminho_imagem := IMG_DIR ++ "/grafico.png" in
     g <- lift (montar_grafico sem_geracao com_geracao economia
                  consumo_minimo_energisa tax_ilu_pub desconto) ;;
     chamada (desenha_grafico g) ;;;
     modify (fun w => MkWorld (globals w) (pdfs w) (caminho_imagem :: graficos w)) ;;;
     ret (caminho_imagem ++ "?t=" ++ PyFloatStr.str_of_int agora))
    (fun e => raise (MkExn PlainException ("Erro ao gerar gráfico: " ++ exn_str e))).

(** [criar_proposta_pdf]: the path of the file written, or [None] after
    any exception.  [registrar_fontes], the locale and the date are left
    out: they raise nothing and change nothing here (a font that is missing
    shows as a failure of [desenha_pdf]).  [grava_pdf] is the opening and
    the writing of the file, as one step. *)
Definition criar_proposta_pdf : IO (option string) :=
  try_except
    (g <- get_globals ;;
     nome_validado <- lift (validar_nome_completo (NOME g)) ;;
     valores <- lift (calcular_valores_financeiros g) ;;
     imagem <- gerar_grafico (total_sem_desconto valores) (total_fatura_energia_a valores)
                 (valor_desconto valores) (consumo_minimo_energisa valores)
                 (tax_ilu_pub valores) (desconto valores) ;;
     '(moedas, inteiros) <- lift (formatar_documento valores) ;;
     let nome_sanitizado := sanitizar_nome_arquivo (NOME g) in
     let nome_arquivo := "simulacao_" ++ nome_sanitizado ++ ".pdf" in
     let caminho_arquivo := OUTPUT_DIR ++ "/" ++ nome_arquivo in
     chamada (desenha_pdf (MkDocumento (NOME g) (ENDERECO g) moedas inteiros valores
                             caminho_arquivo)) ;;;
     chamada (grava_pdf caminho_arquivo) ;;;
     modify (fun w => MkWorld (globals w) (caminho_arquivo :: pdfs w) (graficos w)) ;;;
     ret (Some caminho_arquivo))
    (fun _ => ret None).

(** The checks at the top of [processar_proposta_webhook]. *)
Definition validar_entrada (nome_completo endereco valor_fatura : string) : result unit :=
  if Str.is_empty nome_completo || (String.length (Str.strip nome_completo) <? 3)%nat then
    Raise (MkExn ValueError "Nome completo deve ter pelo menos 3 caracteres")
  else if Str.is_empty endereco || (String.length (Str.strip endereco) <? 10)%nat then
    Raise (MkExn ValueError "Endereço deve ter pelo menos 10 caracteres")
  else if Str.is_empty valor_fatura then
    Raise (MkExn ValueError "Valor da fatura é obrigatório")
  else
    except_ValueError
      (valor_float <- PyFloatStr.float_of_str valor_fatura ;;
       if (valor_float <=? dec 0 0)%pf
       then Raise (MkExn ValueError "Valor da fatura deve ser maior que zero")
       else Ok tt)%py
      (MkExn ValueError "Valor da fatura deve ser um número válido").

(** [processar_proposta_webhook] *)
Definition processar_proposta_webhook (nome_completo endereco valor_fatura : string)
  : IO Resposta :=
  try_except
    (lift (validar_entrada nome_completo endereco valor_fatura) ;;;
     parametros_webhook <- lift (calcular_parametros_automaticos
                                   (Some (Str.strip nome_completo))
                                   (Some (Str.strip endereco))
                                   (Some valor_fatura)) ;;
     originais <- get_globals ;;
     try_finally
       (modify (set_globals (globals_de parametros_webhook)) ;;;
        chamada cria_diretorio ;;;
        arquivo_path <- criar_proposta_pdf ;;
        match arquivo_path with
        | None => raise (MkExn PlainException "Falha na criação do arquivo PDF")
        | Some caminho =>
            if existe caminho then
              ret (Sucesso caminho parametros_webhook "Proposta gerada com sucesso")
            else raise (MkExn PlainException "Arquivo PDF não foi criado corretamente")
        end)
       (set_globals originais))
    (fun e => ret (Falha ("Erro ao processar proposta: " ++ exn_str e))).

End Webhook.

(** ** Predicates on texts, for the statements below *)

(** Every character of [s] satisfies [p]. *)
Fixpoint all_chars (p : ascii -> bool) (s : string) : bool :=
  match s with
  | EmptyString => true
  | String c r => p c && all_chars p r
  end.

(** The characters [extrair_valor_monetario] removes: [R], [$] and
    whitespace (the class [[R$\s]]). *)
Definition removivel (c : ascii) : bool :=
  Ascii.eqb c "R" || Ascii.eqb c "$" || Str.is_space c.

(** The characters a text accepted by [float] is written with, spaces at
    its ends apart: digits, the point, the exponent mark, the signs, the
    underscore and the letters of [inf], [infinity] and [nan]. *)
Definition literal_char (c : ascii) : bool :=
  Str.is_digit c
  || existsb (Ascii.eqb (PyFloatStr.lower c))
       ["."; "e"; "+"; "-"; "_"; "i"; "n"; "f"; "t"; "y"; "a"]%char.

(** No two underscores side by side. *)
Fixpoint sem_sublinhado_duplo (s : string) : bool :=
  match s with
  | String a ((String b _) as r) =>
      negb (Ascii.eqb a "_" && Ascii.eqb b "_") && sem_sublinhado_duplo r
  | _ => true
  end.

Definition primeiro (s : string) : option ascii :=
  match s with
  | EmptyString => None
  | String c _ => Some c
  end.

Fixpoint ultimo (s : string) : option ascii :=
  match s with
  | EmptyString => None
  | String c EmptyString => Some c
  | String _ r => ultimo r
  end.

(** A character a sanitized file name may hold: outside the class of
    [sanitizar_nome_arquivo] and no whitespace. *)
Definition limpo (c : ascii) : bool := negb (caractere_invalido c) && negb (Str.is_space c).

(** The class [[a-zA-ZÀ-ÿ]] of [validar_nome_completo]. *)
Definition letra (c : ascii) : bool :=
  Str.between 97 122 c || Str.between 65 90 c || Str.between 192 255 c.

(** ** The validators of [app.py] (class [WebhookData]) *)

(** [str.isdigit] below code point 256: the decimal digits and the
    superscripts 2, 3 and 1. *)
Definition isdigit (c : ascii) : bool :=
  Str.is_digit c || existsb (Nat.eqb (Str.code c)) [178; 179; 185]%nat.

(** [validate_nome_completo] *)
Definition validate_nome_completo (v : string) : result string :=
  if Str.is_empty v || (String.length (Str.strip v) <? 3)%nat then
    Raise (MkExn ValueError "Nome completo deve ter pelo menos 3 caracteres")
  else Ok (Str.strip v).

(** [validate_endereco] *)
Definition validate_endereco (v : string) : result string :=
  if Str.is_empty v || (String.length (Str.strip v) <? 10)%nat then
    Raise (MkExn ValueError "Endereço deve ter pelo menos 10 caracteres")
  else Ok (Str.strip v).

(** The characters [validate_valor_fatura] keeps. *)
Definition mantido (c : ascii) : bool := isdigit c || Ascii.eqb c "." || Ascii.eqb c ",".

Section Validadores.

(** [str(x)] for a float, the shortest text that reads back as [x], is
    not computed here: it is a parameter. *)
Variable str_float : float -> string.

(** [validate_valor_fatura] *)
Definition validate_valor_fatura (v : string) : result string :=
  if Str.is_empty v then Raise (MkExn ValueError "Valor da fatura é obrigatório")
  else
    let valor_limpo := Str.filter mantido v in
    if Str.is_empty valor_limpo then
      Raise (MkExn ValueError "Valor da fatura deve conter números")
    else
      let valor_limpo :=
        if Str.contains "," valor_limpo then Str.replace "," "." valor_limpo
        else valor_limpo in
      except_ValueError
        (valor_float <- PyFloatStr.float_of_str valor_limpo ;;
         if (valor_float <=? dec 0 0)%pf then
           Raise (MkExn ValueError "Valor da fatura deve ser maior que zero")
         else if (valor_float >? dec 9999999 2)%pf then
           Raise (MkExn ValueError "Valor da fatura muito alto")
         else Ok (str_float valor_float))%py
        (MkExn ValueError "Valor da fatura deve ser um número válido").

End Validadores.

(** ** [main] of [proposta.py] *)

Section Main.

Variable OUTPUT_DIR IMG_DIR : string.
Variable agora : Z.
Variable prepara_grafico : option exn.
Variable desenha_grafico : Grafico -> option exn.
Variable desenha_pdf : Documento -> option exn.
Variable grava_pdf : string -> option exn.
Variable cria_diretorio : option exn.

(** [main]: the directory, then the PDF.  What it prints, before and
    after, is left out; it returns nothing. *)
Definition main : IO unit :=
  (chamada cria_diretorio ;;;
   arquivo_criado <- criar_proposta_pdf OUTPUT_DIR IMG_DIR agora prepara_grafico
                       desenha_grafico desenha_pdf grava_pdf ;;
   ret tt)%io.

End Main.

(** * Proofs *)

Local Close Scope string_scope.

(** * Rounding *)

Lemma Z_round_half_even_near (n : Z) (d : positive) :
  Z.abs (2 * (Zpos d * Z_round_half_even n d - n)) <= Zpos d.
Proof.
  unfold Z_round_half_even.
  pose proof (Z.div_mod n (Zpos d) ltac:(lia)) as Hn.
  pose proof (Z.mod_pos_bound n (Zpos d) ltac:(lia)) as Hr.
  set (q := n / Zpos d) in *. set (r := n mod Zpos d) in *.
  destruct (Z.compare_spec (2 * r) (Zpos d)) as [H|H|H];
    [destruct (Z.even q)| |]; lia.
Qed.

Lemma Z_ceil_spec (n : Z) (d : positive) :
  Zpos d * (Z_ceil n d - 1) < n <= Zpos d * Z_ceil n d.
Proof.
  unfold Z_ceil.
  pose proof (Z.div_mod (- n) (Zpos d) ltac:(lia)).
  pose proof (Z.mod_pos_bound (- n) (Zpos d) ltac:(lia)).
  lia.
Qed.

Lemma Z_ceil_one (z : Z) : Z_ceil z 1 = z.
Proof. unfold Z_ceil. rewrite Z.div_1_r. lia. Qed.

Lemma Z_trunc_one (z : Z) : Z_trunc z 1 = z.
Proof. unfold Z_trunc. apply Z.quot_1_r. Qed.

(** * Exact arithmetic *)

Lemma Qc_of_Z_this (z : Z) : this (Qc_of_Z z) = inject_Z z.
Proof. unfold Qc_of_Z, Q2Qc, this. apply Qred_identity. cbn. apply Z.gcd_1_r. Qed.

Lemma Qc_of_Z_add a b : (Qc_of_Z a + Qc_of_Z b)%Qc = Qc_of_Z (a + b).
Proof.
  apply Qc_is_canon. unfold Qc_of_Z, Qcplus, Q2Qc, this.
  rewrite !Qred_correct. now rewrite inject_Z_plus.
Qed.

Lemma Qc_of_Z_mul a b : (Qc_of_Z a * Qc_of_Z b)%Qc = Qc_of_Z (a * b).
Proof.
  apply Qc_is_canon. unfold Qc_of_Z, Qcmult, Q2Qc, this.
  rewrite !Qred_correct. now rewrite inject_Z_mult.
Qed.

Lemma Qc_of_Z_sub a b : (Qc_of_Z a - Qc_of_Z b)%Qc = Qc_of_Z (a - b).
Proof.
  apply Qc_is_canon. unfold Qc_of_Z, Qcminus, Qcplus, Qcopp, Q2Qc, this.
  rewrite !Qred_correct. unfold Z.sub. now rewrite inject_Z_plus, inject_Z_opp.
Qed.

Lemma Qle_bool_false (x y : Q) : Qle_bool x y = false -> (y < x)%Q.
Proof.
  intros H. apply Qnot_le_lt. intro Hle. apply Qle_bool_iff in Hle. congruence.
Qed.

Lemma this_plus (x y : Qc) : (this (x + y)%Qc == this x + this y)%Q.
Proof. unfold Qcplus, Q2Qc, this at 1. apply Qred_correct. Qed.

Lemma this_minus (x y : Qc) : (this (x - y)%Qc == this x - this y)%Q.
Proof.
  unfold Qcminus, Qcplus, Qcopp, Q2Qc. cbn [this]. rewrite !Qred_correct. reflexivity.
Qed.

Lemma this_half : (this (Q2Qc (1 # 2)) == 1 # 2)%Q.
Proof. reflexivity. Qed.

(** [round(x)] in exact arithmetic is within one half of [x]. *)
Lemma py_round_exact_near (x : Qc) (c : Z) :
  py_round x = Ok c ->
  (x - Q2Qc (1 # 2) <= Qc_of_Z c)%Qc /\ (Qc_of_Z c <= x + Q2Qc (1 # 2))%Qc.
Proof.
  cbn. intros [= <-].
  pose proof (Z_round_half_even_near (Qnum x) (Qden x)) as H.
  set (c := Z_round_half_even (Qnum x) (Qden x)) in *.
  unfold Qcle. rewrite this_plus, this_minus, this_half, Qc_of_Z_this.
  destruct x as [[n d] Hx]. cbn [this Qnum Qden] in *.
  unfold Qle; cbn. split; nia.
Qed.

(** * C1 *)

Section ParametrosGenericos.
Context {F : Type} {PF : PyFloat F}.
Local Open Scope pyfloat_scope.

Lemma parametros_de_valor_inv (nome_usar endereco_usar : string) (B : F) (p : Parametros F) :
  parametros_de_valor nome_usar endereco_usar B = Ok p ->
  exists c,
    py_round ((B - base_fee B) / TARIFA_ENERGISA) = Ok (p_consumo p)
    /\ float_of_int (p_consumo p) = Ok c
    /\ p_taxa_iluminacao_publica p = B - c * TARIFA_ENERGISA
    /\ p_consumo_minimo p = tier B
    /\ p_valor_fatura_original p = B
    /\ p_nome p = nome_usar /\ p_endereco p = endereco_usar.
Proof.
  unfold parametros_de_valor.
  destruct (py_round _) as [z|e] eqn:Hr; cbn [rbind]; [|discriminate].
  destruct (float_of_int z) as [c|e] eqn:Hc; cbn [rbind]; [|discriminate].
  intros [= <-]. cbn. exists c. repeat split; assumption.
Qed.

End ParametrosGenericos.

Lemma parametros_de_valor_exact_total (nome_usar endereco_usar : string) (B : Qc) :
  exists p, parametros_de_valor nome_usar endereco_usar B = Ok p.
Proof. unfold parametros_de_valor. cbn. eauto. Qed.

(** * Tick selection in exact arithmetic *)

Lemma fltb_exact_true (x y : Qc) : (x <? y)%pf = true <-> (x < y)%Qc.
Proof.
  cbn. rewrite negb_true_iff. split.
  - apply Qle_bool_false.
  - intros H. destruct (Qle_bool y x) eqn:E; [|reflexivity].
    apply Qle_bool_iff in E. exfalso. exact (Qlt_not_le _ _ H E).
Qed.

Lemma fltb_exact_false (x y : Qc) : (x <? y)%pf = false <-> (y <= x)%Qc.
Proof.
  cbn. rewrite negb_false_iff. apply Qle_bool_iff.
Qed.

Lemma Qc_of_Z_le a b : (Qc_of_Z a <= Qc_of_Z b)%Qc <-> a <= b.
Proof. unfold Qcle. rewrite !Qc_of_Z_this, <- Zle_Qle. reflexivity. Qed.

Lemma Qc_of_Z_lt a b : (Qc_of_Z a < Qc_of_Z b)%Qc <-> a < b.
Proof. unfold Qclt. rewrite !Qc_of_Z_this, <- Zlt_Qlt. reflexivity. Qed.

(** [numpy.ceil] in exact arithmetic: the least integer not below [x]. *)
Lemma np_ceil_exact (x : Qc) :
  exists k : Z,
    np_ceil x = Qc_of_Z k /\ (Qc_of_Z (k - 1) < x)%Qc /\ (x <= Qc_of_Z k)%Qc.
Proof.
  exists (Z_ceil (Qnum x) (Qden x)). split; [reflexivity|].
  pose proof (Z_ceil_spec (Qnum x) (Qden x)) as [H1 H2].
  unfold Qclt, Qcle. rewrite !Qc_of_Z_this.
  unfold Qlt, Qle. cbn. lia.
Qed.

Lemma np_ceil_exact_int (z : Z) : np_ceil (Qc_of_Z z) = Qc_of_Z z.
Proof.
  change (np_ceil (Qc_of_Z z))
    with (Qc_of_Z (Z_ceil (Qnum (this (Qc_of_Z z))) (Qden (this (Qc_of_Z z))))).
  rewrite Qc_of_Z_this. cbn [inject_Z Qnum Qden]. now rewrite Z_ceil_one.
Qed.

Lemma py_int_exact_int (z : Z) : py_int (Qc_of_Z z) = Ok z.
Proof.
  change (py_int (Qc_of_Z z))
    with (Ok (Z_trunc (Qnum (this (Qc_of_Z z))) (Qden (this (Qc_of_Z z))))).
  rewrite Qc_of_Z_this. cbn [inject_Z Qnum Qden]. now rewrite Z_trunc_one.
Qed.

Lemma Qc_of_Z_div_exact (a b : Z) :
  a <> 0 -> (Qc_of_Z (a * b) / Qc_of_Z a)%Qc = Qc_of_Z b.
Proof.
  intros Ha. rewrite <- Qc_of_Z_mul. field.
  intros H. apply (f_equal this) in H. rewrite Qc_of_Z_this in H.
  cbn in H. injection H as H. contradiction.
Qed.

Lemma this_div (x y : Qc) : (this (x / y)%Qc == this x / this y)%Q.
Proof.
  unfold Qcdiv, Qcmult, Qcinv, Q2Qc. cbn [this]. rewrite !Qred_correct. reflexivity.
Qed.

Lemma inject_Z_pos (a : Z) : 0 < a -> (0 < inject_Z a)%Q.
Proof. intros H. change 0%Q with (inject_Z 0). now rewrite <- Zlt_Qlt. Qed.

Lemma Qc_div_pos_le (x : Qc) (a b : Z) :
  0 < a -> (x <= Qc_of_Z (a * b))%Qc -> (x / Qc_of_Z a <= Qc_of_Z b)%Qc.
Proof.
  unfold Qcle. rewrite this_div, !Qc_of_Z_this. intros Ha H.
  apply Qle_shift_div_r; [now apply inject_Z_pos|].
  rewrite <- inject_Z_mult, Z.mul_comm. exact H.
Qed.

Lemma Qc_div_pos_ge (x : Qc) (a b : Z) :
  0 < a -> (Qc_of_Z (a * b) <= x)%Qc -> (Qc_of_Z b <= x / Qc_of_Z a)%Qc.
Proof.
  unfold Qcle. rewrite this_div, !Qc_of_Z_this. intros Ha H.
  apply Qle_shift_div_l; [now apply inject_Z_pos|].
  rewrite <- inject_Z_mult, Z.mul_comm. exact H.
Qed.

Lemma Qc_div_pos_lt (x : Qc) (a b : Z) :
  0 < a -> (x < Qc_of_Z (a * b))%Qc -> (x / Qc_of_Z a < Qc_of_Z b)%Qc.
Proof.
  unfold Qclt. rewrite this_div, !Qc_of_Z_this. intros Ha H.
  apply Qlt_shift_div_r; [now apply inject_Z_pos|].
  rewrite <- inject_Z_mult, Z.mul_comm. exact H.
Qed.

(** The ticks below 300: the multiples of 50 from 0 to the maximum rounded
    up to a multiple of 50. *)
Lemma eixo_y_exact_lt_300 (max_value : Qc) :
  (Qc_of_Z 0 <= max_value)%Qc -> (max_value < Qc_of_Z 300)%Qc ->
  exists k : Z,
    (Qc_of_Z (k - 1) < max_value / Qc_of_Z 50)%Qc
    /\ (max_value / Qc_of_Z 50 <= Qc_of_Z k)%Qc
    /\ eixo_y max_value
       = Ok (Qc_of_Z (50 * k),
             map (fun i => Qc_of_Z (50 * Z.of_nat i)) (seq 0 (Z.to_nat (k + 1)))).
Proof.
  intros H0 H300.
  destruct (np_ceil_exact (max_value / Qc_of_Z 50)%Qc) as (k & Hk & Hlo & Hhi).
  exists k. split; [exact Hlo|]. split; [exact Hhi|].
  assert (Hk0 : 0 <= k).
  { apply Qc_of_Z_le. eapply Qcle_trans; [|exact Hhi].
    apply (Qc_div_pos_ge max_value 50 0); [lia|exact H0]. }
  assert (Hk6 : k <= 6).
  { assert (k - 1 < 6); [|lia]. apply Qc_of_Z_lt.
    eapply Qclt_trans; [exact Hlo|].
    apply (Qc_div_pos_lt max_value 50 6); [lia|exact H300]. }
  unfold eixo_y.
  replace (max_value <? dec 300 0)%pf with true
    by (symmetry; apply fltb_exact_true; exact H300).
  change (np_ceil (max_value / dec 50 0)%pf) with (np_ceil (max_value / Qc_of_Z 50)%Qc).
  rewrite Hk.
  change (Qc_of_Z k * dec 50 0)%pf with (Qc_of_Z k * Qc_of_Z 50)%Qc.
  rewrite Qc_of_Z_mul.
  unfold np_arange.
  change ((Qc_of_Z (k * 50) + dec 50 0 - dec 0 0) / dec 50 0)%pf
    with ((Qc_of_Z (k * 50) + Qc_of_Z 50 - Qc_of_Z 0) / Qc_of_Z 50)%Qc.
  rewrite Qc_of_Z_add, Qc_of_Z_sub.
  replace (k * 50 + 50 - 0) with (50 * (k + 1)) by lia.
  rewrite Qc_of_Z_div_exact by lia.
  rewrite np_ceil_exact_int, py_int_exact_int.
  replace ((k + 1 <? - 2 ^ 63) || (2 ^ 63 <? k + 1)) with false
    by (symmetry; apply orb_false_iff; split; apply Z.ltb_ge; lia).
  cbn [rbind]. replace (k * 50) with (50 * k) by lia.
  do 2 f_equal. apply map_ext. intros i.
  change (dec 0 0 + dec (Z.of_nat i) 0 * dec 50 0)%pf
    with (Qc_of_Z 0 + Qc_of_Z (Z.of_nat i) * Qc_of_Z 50)%Qc.
  rewrite Qc_of_Z_mul, Qc_of_Z_add. f_equal. lia.
Qed.

(** The ticks from 600 on: seven values, from 0 to the maximum rounded up
    to a multiple of 100, six equal steps apart. *)
Lemma eixo_y_exact_ge_600 (max_value : Qc) :
  (Qc_of_Z 600 <= max_value)%Qc ->
  exists k : Z,
    (Qc_of_Z (k - 1) < max_value / Qc_of_Z 100)%Qc
    /\ (max_value / Qc_of_Z 100 <= Qc_of_Z k)%Qc
    /\ eixo_y max_value
       = Ok (Qc_of_Z (100 * k),
             map (fun i => (Qc_of_Z (Z.of_nat i) * (Qc_of_Z (100 * k) / Qc_of_Z 6))%Qc)
                 (seq 0 7)).
Proof.
  intros H600.
  destruct (np_ceil_exact (max_value / Qc_of_Z 100)%Qc) as (k & Hk & Hlo & Hhi).
  exists k. split; [exact Hlo|]. split; [exact Hhi|].
  unfold eixo_y.
  replace (max_value <? dec 300 0)%pf with false.
  2:{ symmetry. apply fltb_exact_false. eapply Qcle_trans; [|exact H600].
      change (dec 300 0) with (Qc_of_Z 300). apply Qc_of_Z_le. lia. }
  replace (max_value <? dec 400 0)%pf with false.
  2:{ symmetry. apply fltb_exact_false. eapply Qcle_trans; [|exact H600].
      change (dec 400 0) with (Qc_of_Z 400). apply Qc_of_Z_le. lia. }
  replace (max_value <? dec 600 0)%pf with false
    by (symmetry; apply fltb_exact_false; exact H600).
  change (np_ceil (max_value / dec 100 0)%pf) with (np_ceil (max_value / Qc_of_Z 100)%Qc).
  rewrite Hk.
  change (Qc_of_Z k * dec 100 0)%pf with (Qc_of_Z k * Qc_of_Z 100)%Qc.
  rewrite Qc_of_Z_mul. replace (k * 100) with (100 * k) by lia.
  reflexivity.
Qed.

(** * Binary64 comparisons against the two thresholds *)

(** 300 and 500 lie in the same binade, so they have the same exponent. *)
Lemma Prim2SF_300 : Prim2SF (dec 300 0) = S754_finite false 5277655813324800 (-44).
Proof. vm_compute. reflexivity. Qed.

Lemma Prim2SF_500 : Prim2SF (dec 500 0) = S754_finite false 8796093022208000 (-44).
Proof. vm_compute. reflexivity. Qed.

(** How a float compares with two positive bounds of one binade, [lo]
    having the smaller mantissa: it is NaN and every test is false, or it is
    in exactly one of the three bands. *)
Lemma faixa_total (lo hi B : float) (mlo mhi : positive) (e : Z) :
  Prim2SF lo = S754_finite false mlo e ->
  Prim2SF hi = S754_finite false mhi e ->
  (mlo < mhi)%positive ->
  let le_lo := PrimFloat.leb B lo in
  let gt_lo := PrimFloat.ltb lo B in
  let le_hi := PrimFloat.leb B hi in
  let gt_hi := PrimFloat.ltb hi B in
  (Prim2SF B = S754_nan
   /\ le_lo = false /\ gt_lo = false /\ le_hi = false /\ gt_hi = false)
  \/ (le_lo = true /\ gt_lo = false /\ le_hi = true /\ gt_hi = false)
  \/ (le_lo = false /\ gt_lo = true /\ le_hi = true /\ gt_hi = false)
  \/ (le_lo = false /\ gt_lo = true /\ le_hi = false /\ gt_hi = true).
Proof.
  intros Hlo Hhi Hm. cbn zeta.
  rewrite !leb_spec, !ltb_spec, Hlo, Hhi.
  destruct (Prim2SF B) as [s|s| |s m eB].
  - right; left. cbn. auto.
  - destruct s; cbn; auto 10.
  - left. cbn. auto.
  - destruct s; [right; left; cbn; auto|].
    unfold SFleb, SFltb, SFcompare.
    rewrite (Z.compare_antisym eB e).
    destruct (Z.compare eB e); cbn [CompOpp]; auto 10.
    change (Pos.compare_cont Eq) with Pos.compare.
    rewrite (Pos.compare_antisym m mlo), (Pos.compare_antisym m mhi).
    destruct (Pos.compare_spec m mlo); destruct (Pos.compare_spec m mhi);
      cbn [CompOpp]; auto 10; lia.
Qed.

Lemma faixa_300_500 (B : float) :
  (Prim2SF B = S754_nan
   /\ (B <=? dec 300 0)%pf = false /\ (B >? dec 300 0)%pf = false
   /\ (B <=? dec 500 0)%pf = false /\ (B >? dec 500 0)%pf = false)
  \/ ((B <=? dec 300 0)%pf = true /\ (B >? dec 300 0)%pf = false
      /\ (B <=? dec 500 0)%pf = true /\ (B >? dec 500 0)%pf = false)
  \/ ((B <=? dec 300 0)%pf = false /\ (B >? dec 300 0)%pf = true
      /\ (B <=? dec 500 0)%pf = true /\ (B >? dec 500 0)%pf = false)
  \/ ((B <=? dec 300 0)%pf = false /\ (B >? dec 300 0)%pf = true
      /\ (B <=? dec 500 0)%pf = false /\ (B >? dec 500 0)%pf = true).
Proof.
  exact (faixa_total (dec 300 0) (dec 500 0) B _ _ _ Prim2SF_300 Prim2SF_500 eq_refl).
Qed.

(** NaN goes through the subtraction and the division, and [round] rejects
    it. *)
Lemma py_round_nan (B fee : float) :
  Prim2SF B = S754_nan ->
  exists e, py_round ((B - fee) / TARIFA_ENERGISA)%pf = Raise e.
Proof.
  intros HB.
  change (py_round ((B - fee) / TARIFA_ENERGISA)%pf)
    with (B64.to_int Z_round_half_even ((B - fee) / TARIFA_ENERGISA)%float).
  unfold B64.to_int, B64.to_ratio.
  rewrite div_spec, sub_spec, HB. cbn [SF64div SFdiv SF64sub SFsub]. eauto.
Qed.

Lemma tier_base_fee_binary64 (B : float) :
  ((B <=? dec 300 0)%pf = true -> tier B = 30 /\ base_fee B = dec 4290 2)
  /\ ((B >? dec 300 0)%pf = true -> (B <=? dec 500 0)%pf = true ->
      tier B = 50 /\ base_fee B = dec 6167 2)
  /\ ((B >? dec 500 0)%pf = true -> tier B = 100 /\ base_fee B = dec 9251 2).
Proof.
  unfold tier, base_fee.
  destruct (faixa_300_500 B)
    as [(_ & -> & -> & -> & ->)|[(-> & -> & -> & ->)|[(-> & -> & -> & ->)|(-> & -> & -> & ->)]]];
    repeat split; intros; try discriminate; reflexivity.
Qed.

Local Open Scope string_scope.

Lemma calcular_parametros_automaticos_inv
    (nome_completo endereco_completo valor_fatura_cliente : option string)
    (p : Parametros float) :
  calcular_parametros_automaticos nome_completo endereco_completo valor_fatura_cliente = Ok p ->
  extrair_valor_monetario (str_or valor_fatura_cliente VALOR_FATURA_CLIENTE)
  = Ok (p_valor_fatura_original p)
  /\ parametros_de_valor (str_or nome_completo NOME_COMPLETO)
       (str_or endereco_completo ENDERECO_COMPLETO) (p_valor_fatura_original p) = Ok p.
Proof.
  unfold calcular_parametros_automaticos.
  destruct (extrair_valor_monetario _) as [B|e]; cbn [rbind]; [|discriminate].
  intros H. destruct (parametros_de_valor_inv _ _ _ _ H) as (_ & _ & _ & _ & _ & -> & _).
  auto.
Qed.

(** * C1 and C2: the derived parameters *)



(** The module's own run (bill 439.85) reconciles without any rounding
    error: 332 kWh, and [332 * 1.138131 + taxa] is the bill again. *)
Example reconciliacao_binary64_439_85 :
  exists p v,
    calcular_parametros_automaticos None None None = Ok p
    /\ p_consumo p = 332
    /\ p_valor_fatura_original p = 0x1.b7d999999999ap+8%float
    /\ p_taxa_iluminacao_publica p = 0x1.efec8f7553698p+5%float
    /\ calcular_valores_financeiros (globals_de p) = Ok v
    /\ valor_total_fatura v = p_valor_fatura_original p.
Proof.
  do 2 eexists. repeat (split; [vm_compute; reflexivity|]). vm_compute; reflexivity.
Qed.

(** The decimal literals of the program, as binary64 numbers. *)
Example literais_binary64 :
  TARIFA_ENERGISA = 0x1.235c8d9f9053ap+0%float
  /\ dec 5 2 = 0x1.999999999999ap-5%float
  /\ dec 4290 2 = 0x1.5733333333333p+5%float
  /\ dec 6167 2 = 0x1.ed5c28f5c28f6p+5%float
  /\ dec 9251 2 = 0x1.720a3d70a3d71p+6%float.
Proof. repeat split; vm_compute; reflexivity. Qed.

(** Bills from 10 to 99999.99 across the three bands: at binary64
    [consumo * 1.138131 + taxa_iluminacao_publica] is the bill again, bit for
    bit. *)
Example reconciliacao_binary64_amostras :
  forallb
    (fun s =>
       match calcular_parametros_automaticos None None (Some s) with
       | Ok p =>
           match float_of_int (p_consumo p) with
           | Ok c =>
               (c * TARIFA_ENERGISA + p_taxa_iluminacao_publica p
                ==? p_valor_fatura_original p)%pf
           | Raise _ => false
           end
       | Raise _ => false
       end)
    ["10"; "78.18"; "250"; "300"; "300.01"; "439.85"; "450"; "500"; "500.01"; "550.75";
     "800"; "2500"; "99999.99"]
  = true.
Proof. vm_compute. reflexivity. Qed.

(** C2. At binary64, for every bill amount [B]: [B <= 300] gives the tier 30
    and the base fee 42.90, [300 < B <= 500] gives 50 and 61.67, [B > 500]
    gives 100 and 92.51.  Whenever [calcular_parametros_automaticos] returns
    a dictionary, its bill amount is in one of these three bands (it is not
    NaN), [consumo_minimo] is the tier of the band and [consumo] is
    [round((B - base_fee) / 1.138131)] with the base fee of the same band.
    The bills 250, 450 and 800 give 30, 50 and 100. *)
Theorem C2_faixas :
  (forall B : float,
      ((B <=? dec 300 0)%pf = true -> tier B = 30 /\ base_fee B = dec 4290 2)
      /\ ((B >? dec 300 0)%pf = true -> (B <=? dec 500 0)%pf = true ->
          tier B = 50 /\ base_fee B = dec 6167 2)
      /\ ((B >? dec 500 0)%pf = true -> tier B = 100 /\ base_fee B = dec 9251 2))
  /\ (forall (nome_completo endereco_completo valor_fatura_cliente : option string)
             (p : Parametros float),
        calcular_parametros_automaticos nome_completo endereco_completo valor_fatura_cliente
        = Ok p ->
        let B := p_valor_fatura_original p in
        ((B <=? dec 300 0)%pf = true /\ p_consumo_minimo p = 30
         /\ py_round ((B - dec 4290 2) / TARIFA_ENERGISA)%pf = Ok (p_consumo p))
        \/ ((B >? dec 300 0)%pf = true /\ (B <=? dec 500 0)%pf = true
            /\ p_consumo_minimo p = 50
            /\ py_round ((B - dec 6167 2) / TARIFA_ENERGISA)%pf = Ok (p_consumo p))
        \/ ((B >? dec 500 0)%pf = true /\ p_consumo_minimo p = 100
            /\ py_round ((B - dec 9251 2) / TARIFA_ENERGISA)%pf = Ok (p_consumo p)))
  /\ (exists p, calcular_parametros_automaticos None None (Some "250") = Ok p
                /\ p_consumo_minimo p = 30)
  /\ (exists p, calcular_parametros_automaticos None None (Some "450") = Ok p
                /\ p_consumo_minimo p = 50)
  /\ (exists p, calcular_parametros_automaticos None None (Some "800") = Ok p
                /\ p_consumo_minimo p = 100).
Proof.
  split; [exact tier_base_fee_binary64|]. split.
  - intros n e s p H. cbn zeta.
    apply calcular_parametros_automaticos_inv in H as [_ H].
    destruct (parametros_de_valor_inv _ _ _ _ H) as (c & Hr & _ & _ & Ht & _).
    set (B := p_valor_fatura_original p) in *.
    unfold tier, base_fee in *.
    destruct (faixa_300_500 B)
      as [(Hnan & _)|[(H1 & H2 & H3 & H4)|[(H1 & H2 & H3 & H4)|(H1 & H2 & H3 & H4)]]].
    + destruct (py_round_nan B (base_fee B) Hnan) as [x Hx].
      unfold base_fee in Hx. rewrite Hx in Hr. discriminate.
    + rewrite H1 in Ht. rewrite H2, H4 in Hr. left. auto.
    + rewrite H1, H3 in Ht. rewrite H2, H4 in Hr. right; left. auto.
    + rewrite H1, H3 in Ht. rewrite H4 in Hr. right; right. auto.
  - repeat split; eexists; (split; [vm_compute; reflexivity|reflexivity]).
Qed.

(** The band of the module's own bill, 439.85. *)
Lemma C2_faixas_witness :
  tier (F:=float) (dec 43985 2) = 50 /\ base_fee (F:=float) (dec 43985 2) = dec 6167 2.
Proof.
  apply (proj1 (proj2 (proj1 C2_faixas (dec 43985 2)))); vm_compute; reflexivity.
Defined.

(** * C3 and C8: the financial figures *)

Section FigurasGenericas.
Context {F : Type} {PF : PyFloat F}.
Local Open Scope pyfloat_scope.


End FigurasGenericas.

(** In exact arithmetic the function always returns. *)
Lemma calcular_valores_financeiros_exact_total (g : Globals Qc) :
  exists v, calcular_valores_financeiros g = Ok v.
Proof. eexists. reflexivity. Qed.





(** * C6 and C7: the chart *)

Section AlturaGenerica.
Context {F : Type} {PF : PyFloat F}.
Local Open Scope pyfloat_scope.

Lemma ajustar_altura_visual_cases (valor valor_maximo : F) :
  ((valor ==? dec 0 0) = true /\ ajustar_altura_visual valor valor_maximo = dec 0 0)
  \/ ((valor ==? dec 0 0) = false
      /\ (valor <? valor_maximo * dec 5 2) = true
      /\ ajustar_altura_visual valor valor_maximo = valor_maximo * dec 5 2)
  \/ ((valor ==? dec 0 0) = false
      /\ (valor <? valor_maximo * dec 5 2) = false
      /\ ajustar_altura_visual valor valor_maximo = valor).
Proof.
  unfold ajustar_altura_visual.
  destruct (valor ==? dec 0 0); [now left|right].
  destruct (valor <? valor_maximo * dec 5 2); [left|right]; auto.
Qed.

End AlturaGenerica.

(** In exact arithmetic the drawn height of a non-zero lower segment is the
    larger of its value and the floor. *)
Lemma ajustar_altura_visual_exact (valor valor_maximo : Qc) :
  let piso := (valor_maximo * dec 5 2)%Qc in
  (valor = Q2Qc 0 -> ajustar_altura_visual valor valor_maximo = Q2Qc 0)
  /\ (valor <> Q2Qc 0 ->
      (piso <= ajustar_altura_visual valor valor_maximo)%Qc
      /\ (valor <= ajustar_altura_visual valor valor_maximo)%Qc
      /\ (ajustar_altura_visual valor valor_maximo = valor
          \/ ajustar_altura_visual valor valor_maximo = piso)).
Proof.
  cbn zeta. split.
  - intros ->. reflexivity.
  - intros Hnz.
    destruct (ajustar_altura_visual_cases valor valor_maximo)
      as [[Hz _]|[(_ & Hlt & ->)|(_ & Hlt & ->)]].
    + exfalso. apply Hnz. apply Qc_is_canon. cbn in Hz. now apply Qeq_bool_iff in Hz.
    + cbn in Hlt. apply negb_true_iff, Qle_bool_false in Hlt.
      repeat split; [apply Qcle_refl|apply Qclt_le_weak; exact Hlt|now right].
    + cbn in Hlt. apply negb_false_iff, Qle_bool_iff in Hlt.
      repeat split; [exact Hlt|apply Qcle_refl|now left].
Qed.







(** The computed bands at binary64: 120 and 250 (steps of 50) and 610 (seven
    ticks up to 700). *)
Example eixo_y_binary64_610 :
  eixo_y (F:=float) (dec 610 0)
  = Ok (dec 700 0,
        map (fun i => (dec (Z.of_nat i) 0 * (dec 700 0 / dec 6 0))%pf) (seq 0 7)).
Proof. vm_compute. reflexivity. Qed.

(** * C10 and C4: parsing and formatting amounts *)

(** * Counting a character *)

Lemma count_app (a : ascii) (s t : string) :
  Str.count a (s ++ t) = (Str.count a s + Str.count a t)%nat.
Proof. induction s as [|c s IH]; cbn; [reflexivity|]. rewrite IH. lia. Qed.

Lemma contains_count (a : ascii) (s : string) :
  Str.contains a s = true -> (1 <= Str.count a s)%nat.
Proof.
  induction s as [|c s IH]; cbn; [discriminate|].
  destruct (Ascii.eqb c a); cbn; [lia|]. intros H. specialize (IH H). lia.
Qed.

Lemma count_replace (a b : ascii) (s : string) :
  a <> b ->
  Str.count b (Str.replace a b s) = (Str.count b s + Str.count a s)%nat.
Proof.
  intros Hab. induction s as [|c s IH]; cbn; [reflexivity|].
  unfold Str.replace in IH. rewrite IH.
  destruct (Ascii.eqb_spec c a) as [->|Hca].
  - rewrite Ascii.eqb_refl. destruct (Ascii.eqb_spec a b); [contradiction|]. lia.
  - destruct (Ascii.eqb c b); lia.
Qed.

Lemma count_lstrip (p : ascii -> bool) (a : ascii) (s : string) :
  p a = false -> Str.count a (Str.lstrip p s) = Str.count a s.
Proof.
  intros Hp. induction s as [|c s IH]; cbn; [reflexivity|].
  destruct (p c) eqn:Hc; [|reflexivity].
  rewrite IH. destruct (Ascii.eqb_spec c a) as [->|]; [congruence|reflexivity].
Qed.

Lemma count_rstrip (p : ascii -> bool) (a : ascii) (s : string) :
  p a = false -> Str.count a (Str.rstrip p s) = Str.count a s.
Proof.
  intros Hp. induction s as [|c s IH]; cbn; [reflexivity|].
  destruct (p c) eqn:Hc; cbn.
  - destruct (Str.rstrip p s) eqn:Hr; cbn in *.
    + rewrite <- IH. destruct (Ascii.eqb_spec c a) as [->|]; [congruence|reflexivity].
    + rewrite <- IH. reflexivity.
  - now rewrite IH.
Qed.

Lemma count_strip_by (p : ascii -> bool) (a : ascii) (s : string) :
  p a = false -> Str.count a (Str.strip_by p s) = Str.count a s.
Proof.
  intros Hp. unfold Str.strip_by. now rewrite count_rstrip, count_lstrip.
Qed.

Lemma span_app (p : ascii -> bool) (s a b : string) :
  Str.span p s = (a, b) -> s = a ++ b.
Proof.
  revert a b. induction s as [|c s IH]; cbn; intros a b.
  - now intros [= <- <-].
  - destruct (p c).
    + destruct (Str.span p s) as [a' b']. intros [= <- <-]. cbn. now rewrite (IH a' b').
    + now intros [= <- <-].
Qed.

Lemma span_count (p : ascii -> bool) (x : ascii) (s a b : string) :
  p x = false -> Str.span p s = (a, b) -> Str.count x a = 0%nat.
Proof.
  intros Hp. revert a b. induction s as [|c s IH]; cbn; intros a b.
  - now intros [= <- <-].
  - destruct (p c) eqn:Hc.
    + destruct (Str.span p s) as [a' b']. intros [= <- <-]. cbn.
      rewrite (IH a' b' eq_refl).
      destruct (Ascii.eqb_spec c x) as [->|]; [congruence|reflexivity].
    + now intros [= <- <-].
Qed.

(** * A float literal has at most one point *)

Import PyFloatStr.

Lemma count_drop_underscores (a prev : ascii) (s u : string) :
  is_underscore a = false ->
  drop_underscores prev s = Some u -> Str.count a u = Str.count a s.
Proof.
  intros Ha. revert prev u. induction s as [|c s IH]; cbn; intros prev u.
  - destruct (is_underscore prev); [discriminate|]. now intros [= <-].
  - destruct (is_underscore c) eqn:Hc.
    + destruct (Str.is_digit prev); [|discriminate].
      intros H. rewrite (IH _ _ H).
      destruct (Ascii.eqb_spec c a) as [->|]; [congruence|reflexivity].
    + destruct (is_underscore prev && negb (Str.is_digit c)); [discriminate|].
      destruct (drop_underscores c s) as [u'|] eqn:Hu; [|discriminate].
      intros [= <-]. cbn. now rewrite (IH _ _ Hu).
Qed.

Lemma count_parse_sign (s r : string) (neg : bool) :
  parse_sign s = (neg, r) -> Str.count "." r = Str.count "." s.
Proof.
  unfold parse_sign. destruct s as [|c s]; [now intros [= <- <-]|].
  destruct (Ascii.eqb_spec c "-") as [->|Hm]; [now intros [= <- <-]|].
  destruct (Ascii.eqb_spec c "+") as [->|Hp]; [now intros [= <- <-]|].
  destruct c as [[] [] [] [] [] [] [] []]; try (now intros [= <- <-]); contradiction.
Qed.

Lemma lower_point (c : ascii) : Ascii.eqb (lower c) "." = Ascii.eqb c ".".
Proof. destruct c as [[] [] [] [] [] [] [] []]; reflexivity. Qed.

Lemma count_map_lower (s : string) :
  Str.count "." (Str.map lower s) = Str.count "." s.
Proof. induction s as [|c s IH]; cbn; [reflexivity|]. now rewrite lower_point, IH. Qed.

Lemma count_parse_exponent (s : string) (e : Z) :
  parse_exponent s = Some e -> Str.count "." s = 0%nat.
Proof.
  unfold parse_exponent. destruct s as [|c s]; [reflexivity|].
  destruct (Ascii.eqb (lower c) "e") eqn:Hc; [|discriminate].
  destruct (parse_sign s) as [neg r1] eqn:Hs.
  destruct (Str.span Str.is_digit r1) as [ds r2] eqn:Hd.
  destruct (negb (Str.is_empty ds) && Str.is_empty r2) eqn:Hb; [|discriminate].
  intros _. apply andb_true_iff in Hb as [_ Hb].
  destruct r2; [|discriminate].
  cbn. rewrite <- (count_parse_sign _ _ _ Hs), (span_app _ _ _ _ Hd), count_app.
  rewrite (span_count _ "." _ _ _ eq_refl Hd). cbn.
  destruct (Ascii.eqb_spec c ".") as [->|]; [discriminate Hc|reflexivity].
Qed.

Lemma count_parse_number (neg : bool) (s : string) (l : literal) :
  parse_number neg s = Some l -> (Str.count "." s <= 1)%nat.
Proof.
  unfold parse_number.
  destruct (Str.span Str.is_digit s) as [ip r1] eqn:Hi.
  rewrite (span_app _ _ _ _ Hi), count_app, (span_count _ "." _ _ _ eq_refl Hi).
  assert (Hcases :
    forall fp r2 x,
      (if Str.is_empty ip && Str.is_empty fp then None
       else match parse_exponent r2 with
            | Some e => Some (LitDec neg (digits_value 0 (ip ++ fp)) (String.length fp) e)
            | None => None
            end) = Some x ->
      Str.count "." r2 = 0%nat).
  { intros fp r2 x. destruct (Str.is_empty ip && Str.is_empty fp); [discriminate|].
    destruct (parse_exponent r2) eqn:He; [|discriminate].
    intros _. exact (count_parse_exponent _ _ He). }
  destruct r1 as [|c r].
  - intros _. cbn. lia.
  - destruct (Ascii.eqb_spec c ".") as [->|Hc].
    + destruct (Str.span Str.is_digit r) as [fp r2] eqn:Hf.
      intros H. apply Hcases in H.
      cbn. rewrite (span_app _ _ _ _ Hf), count_app, (span_count _ "." _ _ _ eq_refl Hf), H.
      lia.
    + assert (Hrest :
        (let '(fp, r2) := (EmptyString, String c r) in
         if Str.is_empty ip && Str.is_empty fp then None
         else match parse_exponent r2 with
              | Some e => Some (LitDec neg (digits_value 0 (ip ++ fp)) (String.length fp) e)
              | None => None
              end) = Some l -> (0 + Str.count "." (String c r) <= 1)%nat).
      { intros H. apply Hcases in H. lia. }
      destruct c as [[] [] [] [] [] [] [] []]; try exact Hrest; contradiction.
Qed.

Lemma count_parse_literal (u : string) (l : literal) :
  parse_literal u = Some l -> (Str.count "." u <= 1)%nat.
Proof.
  unfold parse_literal. destruct (parse_sign u) as [neg r] eqn:Hs.
  rewrite <- (count_parse_sign _ _ _ Hs), <- count_map_lower.
  destruct (String.eqb_spec (Str.map lower r) "inf") as [->|_]; [cbn; lia|].
  destruct (String.eqb_spec (Str.map lower r) "infinity") as [->|_]; [cbn; lia|].
  cbn [orb].
  destruct (String.eqb_spec (Str.map lower r) "nan") as [->|_]; [cbn; lia|].
  rewrite count_map_lower. apply count_parse_number.
Qed.

(** [float] accepts no text with two points. *)
Lemma float_of_str_two_points (s : string) :
  (2 <= Str.count "." s)%nat -> float_of_str s = Raise could_not_convert.
Proof.
  intros H. unfold float_of_str.
  destruct (drop_underscores _ _) as [u|] eqn:Hu; [|reflexivity].
  destruct (parse_literal u) as [l|] eqn:Hl; [|reflexivity].
  apply count_parse_literal in Hl.
  rewrite (count_drop_underscores "." _ _ _ eq_refl Hu) in Hl.
  rewrite (count_strip_by _ "." _ eq_refl) in Hl. lia.
Qed.

(** * C10 *)

(** C10. Whenever the text left after removing [R], [$] and whitespace has
    both a point and a comma (as in 1.234,56), [extrair_valor_monetario]
    raises [ValueError]: the comma becomes a second point, and [float]
    accepts at most one. *)
Theorem C10_ponto_e_virgula (valor_str : string) :
  let valor_limpo :=
    Str.filter (fun c => negb (Ascii.eqb c "R" || Ascii.eqb c "$" || Str.is_space c))
      valor_str in
  Str.contains "." valor_limpo = true ->
  Str.contains "," valor_limpo = true ->
  exists msg, extrair_valor_monetario valor_str = Raise (MkExn ValueError msg).
Proof.
  cbn zeta. intros Hp Hc. unfold extrair_valor_monetario. rewrite Hc.
  eexists. apply float_of_str_two_points.
  rewrite count_replace by discriminate.
  apply contains_count in Hp, Hc. lia.
Qed.

Lemma C10_ponto_e_virgula_witness :
  exists msg, extrair_valor_monetario "R$ 1.234,56" = Raise (MkExn ValueError msg).
Proof. apply (C10_ponto_e_virgula "R$ 1.234,56"); reflexivity. Defined.

(** * Replacing and splitting the formatted text *)

Lemma replace_app (a b : ascii) (s t : string) :
  Str.replace a b (s ++ t) = Str.replace a b s ++ Str.replace a b t.
Proof. unfold Str.replace. induction s as [|c s IH]; cbn; [reflexivity|]. now rewrite IH. Qed.

Lemma replace_absent (a b : ascii) (s : string) :
  Str.count a s = 0%nat -> Str.replace a b s = s.
Proof.
  unfold Str.replace. induction s as [|c s IH]; cbn; [reflexivity|].
  destruct (Ascii.eqb c a); [discriminate|]. intros H. now rewrite IH.
Qed.

Lemma count_rev_onto (a : ascii) (s acc : string) :
  Str.count a (Str.rev_onto s acc) = (Str.count a s + Str.count a acc)%nat.
Proof.
  revert acc. induction s as [|c s IH]; cbn; intros acc; [reflexivity|].
  rewrite IH. cbn. lia.
Qed.

Lemma count_rev (a : ascii) (s : string) : Str.count a (Str.rev s) = Str.count a s.
Proof. unfold Str.rev. rewrite count_rev_onto. cbn. lia. Qed.

Lemma replace_rev_onto (a b : ascii) (s acc : string) :
  Str.replace a b (Str.rev_onto s acc)
  = Str.rev_onto (Str.replace a b s) (Str.replace a b acc).
Proof.
  unfold Str.replace. revert acc. induction s as [|c s IH]; cbn; intros acc; [reflexivity|].
  now rewrite IH.
Qed.

Lemma replace_rev (a b : ascii) (s : string) :
  Str.replace a b (Str.rev s) = Str.rev (Str.replace a b s).
Proof. unfold Str.rev. now rewrite replace_rev_onto. Qed.

Lemma count_group_from_left (a sep : ascii) (k : nat) (s : string) :
  Ascii.eqb sep a = false ->
  Str.count a (Str.group_from_left sep k s) = Str.count a s.
Proof.
  intros Hs. revert k. induction s as [|c s IH]; intros k; cbn; [reflexivity|].
  destruct k; cbn; rewrite ?Hs, IH; reflexivity.
Qed.

Lemma replace_group_from_left (a b : ascii) (k : nat) (s : string) :
  Str.count a s = 0%nat ->
  Str.replace a b (Str.group_from_left a k s) = Str.group_from_left b k s.
Proof.
  unfold Str.replace. revert k. induction s as [|c s IH]; intros k; cbn; [reflexivity|].
  destruct (Ascii.eqb c a) eqn:Hc; [discriminate|]. cbn. intros H.
  destruct k; cbn; rewrite ?Ascii.eqb_refl, ?Hc, IH by exact H; reflexivity.
Qed.

Lemma count_group3 (a sep : ascii) (s : string) :
  Ascii.eqb sep a = false -> Str.count a (Str.group3 sep s) = Str.count a s.
Proof.
  intros Hs. unfold Str.group3.
  now rewrite count_rev, count_group_from_left, count_rev.
Qed.

Lemma replace_group3 (a b : ascii) (s : string) :
  Str.count a s = 0%nat -> Str.replace a b (Str.group3 a s) = Str.group3 b s.
Proof.
  intros H. unfold Str.group3.
  rewrite replace_rev, replace_group_from_left; [reflexivity|].
  now rewrite count_rev.
Qed.

(** * Digits *)

Lemma digit_is_digit (k : N) : (k < 10)%N -> Str.is_digit (Str.digit k) = true.
Proof.
  intros H.
  assert (Hk : (k = 0 \/ k = 1 \/ k = 2 \/ k = 3 \/ k = 4 \/ k = 5 \/ k = 6 \/ k = 7
               \/ k = 8 \/ k = 9)%N) by lia.
  repeat (destruct Hk as [->|Hk]; [reflexivity|]). subst. reflexivity.
Qed.

Lemma digit_neq (a : ascii) (k : N) :
  Str.is_digit a = false -> (k < 10)%N -> Ascii.eqb (Str.digit k) a = false.
Proof.
  intros Ha Hk. destruct (Ascii.eqb_spec (Str.digit k) a) as [<-|]; [|reflexivity].
  rewrite digit_is_digit in Ha by exact Hk. discriminate.
Qed.

Lemma count_digits_aux (a : ascii) (fuel : nat) (n : N) (acc : string) :
  Str.is_digit a = false ->
  Str.count a (Str.digits_aux fuel n acc) = Str.count a acc.
Proof.
  intros Ha. revert n acc. induction fuel as [|f IH]; intros n acc; cbn; [reflexivity|].
  assert (Hd : Ascii.eqb (Str.digit (n mod 10)) a = false)
    by (apply digit_neq; [exact Ha|apply N.mod_lt; discriminate]).
  destruct (n / 10 =? 0)%N; [|rewrite IH]; cbn; now rewrite Hd.
Qed.

Lemma count_digits (a : ascii) (n : N) :
  Str.is_digit a = false -> Str.count a (Str.digits n) = 0%nat.
Proof. intros Ha. unfold Str.digits. now rewrite count_digits_aux. Qed.

Lemma count_two_digits (a : ascii) (n : N) :
  Str.is_digit a = false -> (n < 100)%N -> Str.count a (PyFloatStr.two_digits n) = 0%nat.
Proof.
  intros Ha Hn. unfold PyFloatStr.two_digits. cbn.
  rewrite !digit_neq; try exact Ha; [reflexivity|apply N.mod_lt; discriminate|].
  apply N.Div0.div_lt_upper_bound. lia.
Qed.

(** * Splitting *)

Lemma append_assoc (s t u : string) : (s ++ t) ++ u = s ++ t ++ u.
Proof. induction s as [|c s IH]; cbn; [reflexivity|]. now rewrite IH. Qed.

Lemma split_absent (a : ascii) (s : string) :
  Str.count a s = 0%nat -> Str.split a s = [s].
Proof.
  induction s as [|c s IH]; cbn; [reflexivity|].
  destruct (Ascii.eqb c a); [discriminate|]. intros H. now rewrite IH.
Qed.

Lemma split_once (a : ascii) (s t : string) :
  Str.count a s = 0%nat -> Str.count a t = 0%nat ->
  Str.split a (s ++ String a t) = [s; t].
Proof.
  intros Hs Ht. induction s as [|c s IH]; cbn.
  - rewrite split_absent by exact Ht. now rewrite Ascii.eqb_refl.
  - cbn in Hs. destruct (Ascii.eqb c a); [discriminate|]. now rewrite IH.
Qed.

(** The three replacements and the split of [formatar_moeda], applied to
    Python's [,.2f] text of a sign, an integer part [a] and two decimals
    [b]. *)
Lemma partes_de_formatar_moeda (neg : bool) (a b : N) :
  (b < 100)%N ->
  let sinal := if neg then "-" else "" in
  Str.split ","
    (Str.replace "X" "." (Str.replace "." "," (Str.replace "," "X"
       (sinal ++ Str.group3 "," (Str.digits a) ++ String "." (PyFloatStr.two_digits b)))))
  = [sinal ++ Str.group3 "." (Str.digits a); PyFloatStr.two_digits b].
Proof.
  intros Hb sinal.
  assert (Hsinal : forall c, Ascii.eqb "-" c = false -> Str.count c sinal = 0%nat)
    by (intros c Hc; subst sinal; destruct neg; unfold Str.count; now rewrite ?Hc).
  assert (Hdd : forall c, Str.is_digit c = false ->
                          Str.count c (PyFloatStr.two_digits b) = 0%nat)
    by (intros; now apply count_two_digits).
  assert (Hds : forall c, Str.is_digit c = false -> Str.count c (Str.digits a) = 0%nat)
    by (intros; now apply count_digits).
  rewrite !replace_app.
  (* the sign has none of the three characters *)
  rewrite (replace_absent "," "X" sinal) by now apply Hsinal.
  rewrite (replace_absent "." "," sinal) by now apply Hsinal.
  rewrite (replace_absent "X" "." sinal) by now apply Hsinal.
  (* the separators of the integer part go from "," to "X" to "." *)
  rewrite (replace_group3 "," "X") by now apply Hds.
  rewrite (replace_absent "." "," (Str.group3 "X" _))
    by (rewrite count_group3 by reflexivity; now apply Hds).
  rewrite (replace_group3 "X" ".") by now apply Hds.
  (* the point becomes "," and the decimals stay *)
  change (Str.replace "," "X" (String "." (PyFloatStr.two_digits b)))
    with (String "." (Str.replace "," "X" (PyFloatStr.two_digits b))).
  rewrite (replace_absent "," "X" (PyFloatStr.two_digits b)) by now apply Hdd.
  change (Str.replace "." "," (String "." (PyFloatStr.two_digits b)))
    with (String "," (Str.replace "." "," (PyFloatStr.two_digits b))).
  rewrite (replace_absent "." "," (PyFloatStr.two_digits b)) by now apply Hdd.
  change (Str.replace "X" "." (String "," (PyFloatStr.two_digits b)))
    with (String "," (Str.replace "X" "." (PyFloatStr.two_digits b))).
  rewrite (replace_absent "X" "." (PyFloatStr.two_digits b)) by now apply Hdd.
  (* the split *)
  rewrite <- append_assoc. apply split_once.
  - rewrite count_app, Hsinal, count_group3, Hds; reflexivity.
  - now apply Hdd.
Qed.

Lemma float_of_str_raises_ValueError (s : string) (e : exn) :
  PyFloatStr.float_of_str s = Raise e -> exn_class e = ValueError.
Proof.
  unfold PyFloatStr.float_of_str.
  destruct (PyFloatStr.drop_underscores _ _) as [u|]; [|now intros [= <-]].
  destruct (PyFloatStr.parse_literal u); [discriminate|now intros [= <-]].
Qed.

Lemma formatar_moeda_finite (x : float) (n : Z) (d : positive) :
  B64.to_ratio x = Some (n, d) ->
  let cents := Z.to_N (Z_round_half_even (100 * Z.abs n) d) in
  formatar_moeda (VFloat x)
  = Ok ((if PrimFloat.get_sign x then "-" else "")
        ++ Str.group3 "." (Str.digits (cents / 100))
        ++ "," ++ PyFloatStr.two_digits (cents mod 100)).
Proof.
  intros Hx cents. unfold formatar_moeda, PyFloatStr.py_float. cbn [rbind].
  unfold PyFloatStr.format_2f. rewrite Hx. fold cents.
  rewrite (partes_de_formatar_moeda (PrimFloat.get_sign x) (cents / 100) (cents mod 100))
    by (apply N.mod_lt; discriminate).
  cbn [list_index nth_error rbind]. now rewrite append_assoc.
Qed.




(** NaN and the infinities are written without a point, and the index error
    of the missing second part is not among the exceptions the function
    catches. *)
Example formatar_moeda_nan :
  exists e, formatar_moeda (VFloat PrimFloat.nan) = Raise e /\ exn_class e = IndexError.
Proof. eexists. split; vm_compute; reflexivity. Qed.

(** * C5 and C9: the webhook *)

Section WebhookProofs.

Variable OUTPUT_DIR IMG_DIR : string.
Variable agora : Z.
Variable prepara_grafico : option exn.
Variable desenha_grafico : Grafico -> option exn.
Variable desenha_pdf : Documento -> option exn.
Variable grava_pdf : string -> option exn.
Variable cria_diretorio : option exn.
Variable existe : string -> bool.

Local Abbreviation gerar := (gerar_grafico IMG_DIR agora prepara_grafico desenha_grafico).
Local Abbreviation criar :=
  (criar_proposta_pdf OUTPUT_DIR IMG_DIR agora prepara_grafico desenha_grafico desenha_pdf
     grava_pdf).
Local Abbreviation processar :=
  (processar_proposta_webhook OUTPUT_DIR IMG_DIR agora prepara_grafico desenha_grafico
     desenha_pdf grava_pdf cria_diretorio existe).

(** A handler that returns makes the whole [try] return. *)
Lemma try_except_ret {A} (m : IO A) (h : exn -> A) (w : World) :
  exists a w', try_except m (fun e => ret (h e)) w = (Ok a, w').
Proof. unfold try_except, ret. destruct (m w) as [[a|e] w']; eauto. Qed.

Lemma processar_never_raises (nome_completo endereco valor_fatura : string) (w : World) :
  exists r w', processar nome_completo endereco valor_fatura w = (Ok r, w').
Proof. apply try_except_ret. Qed.

Lemma criar_never_raises (w : World) : exists o w', criar w = (Ok o, w').
Proof. apply (try_except_ret _ (fun _ => None)). Qed.

(** A failed input check is reported, and nothing else happens. *)
Lemma processar_validacao (nome_completo endereco valor_fatura : string) (w : World) (e : exn) :
  validar_entrada nome_completo endereco valor_fatura = Raise e ->
  processar nome_completo endereco valor_fatura w
  = (Ok (Falha ("Erro ao processar proposta: " ++ exn_str e)), w).
Proof.
  intros H. unfold processar, processar_proposta_webhook, try_except, bind, lift.
  rewrite H. reflexivity.
Qed.

(** When the chart cannot be produced, [criar_proposta_pdf] gives up and
    leaves the world as it was. *)
Lemma criar_sem_grafico (w : World) (nome_validado : string) (v : Valores float) (e : exn) :
  validar_nome_completo (NOME (globals w)) = Ok nome_validado ->
  calcular_valores_financeiros (globals w) = Ok v ->
  fst (gerar (total_sem_desconto v) (total_fatura_energia_a v) (valor_desconto v)
         (consumo_minimo_energisa v) (tax_ilu_pub v) (desconto v) w) = Raise e ->
  criar w = (Ok None, w).
Proof.
  intros Hn Hv Hg.
  unfold criar, criar_proposta_pdf, try_except, bind, get_globals, lift.
  rewrite Hn, Hv. fold gerar.
  revert Hg. unfold gerar, gerar_grafico, try_except, bind, chamada, lift, raise, ret, modify.
  destruct prepara_grafico; cbn; [reflexivity|].
  destruct (montar_grafico _ _ _ _ _ _) as [g|eg]; cbn; [|reflexivity].
  destruct (desenha_grafico g); cbn; [reflexivity|discriminate].
Qed.

(** Without a PDF path the webhook reports the failure. *)
Lemma processar_sem_pdf (nome_completo endereco valor_fatura : string) (w w1 : World)
      (p : Parametros float) :
  validar_entrada nome_completo endereco valor_fatura = Ok tt ->
  calcular_parametros_automaticos (Some (Str.strip nome_completo))
    (Some (Str.strip endereco)) (Some valor_fatura) = Ok p ->
  cria_diretorio = None ->
  criar (set_globals (globals_de p) w) = (Ok None, w1) ->
  processar nome_completo endereco valor_fatura w
  = (Ok (Falha "Erro ao processar proposta: Falha na criação do arquivo PDF"),
     set_globals (globals w) w1).
Proof.
  intros Hv Hp Hd Hc.
  unfold processar, processar_proposta_webhook, try_except, try_finally, bind, lift,
    get_globals, modify, chamada.
  rewrite Hv, Hp, Hd. cbn [ret]. fold criar. rewrite Hc. reflexivity.
Qed.

(** Success needs every step: the directory, the chart, the PDF canvas, the
    file and the final existence check. *)
Lemma processar_sucesso (nome_completo endereco valor_fatura : string) (w w' : World)
      (caminho message : string) (p : Parametros float) :
  processar nome_completo endereco valor_fatura w = (Ok (Sucesso caminho p message), w') ->
  validar_entrada nome_completo endereco valor_fatura = Ok tt
  /\ cria_diretorio = None
  /\ prepara_grafico = None
  /\ (exists g, desenha_grafico g = None)
  /\ (exists d, desenha_pdf d = None /\ d_caminho d = caminho)
  /\ grava_pdf caminho = None
  /\ existe caminho = true
  /\ pdfs w' = caminho :: pdfs w.
Proof.
  unfold processar, processar_proposta_webhook, try_except, try_finally, bind, lift,
    get_globals, modify, chamada, criar_proposta_pdf, gerar_grafico, try_except, bind,
    get_globals, lift, chamada, modify, ret, raise.
  destruct (validar_entrada _ _ _) as [[]|]; [|discriminate].
  destruct (calcular_parametros_automaticos _ _ _) as [p0|]; [|discriminate].
  destruct cria_diretorio; [discriminate|].
  cbn [globals set_globals pdfs graficos].
  destruct (validar_nome_completo _); [|discriminate].
  destruct (calcular_valores_financeiros _) as [v|]; [|discriminate].
  destruct prepara_grafico; [discriminate|].
  destruct (montar_grafico _ _ _ _ _ _) as [g|]; [|discriminate].
  destruct (desenha_grafico g) eqn:Hg; [discriminate|].
  cbn [globals set_globals pdfs graficos].
  destruct (formatar_documento v) as [[moedas inteiros]|]; [|discriminate].
  match goal with |- context [desenha_pdf ?d] => destruct (desenha_pdf d) eqn:Hd end;
    [discriminate|].
  match goal with |- context [grava_pdf ?c] => destruct (grava_pdf c) eqn:Hw end;
    [discriminate|].
  cbn [globals set_globals pdfs graficos].
  match goal with |- context [existe ?c] => destruct (existe c) eqn:He end;
    [|discriminate].
  intros [= <- <- <- <-]. cbn [pdfs set_globals].
  repeat split; eauto.
Qed.

Lemma try_except_ret_world {A} (m : IO A) (h : exn -> A) (w : World) :
  snd (try_except m (fun e => ret (h e)) w) = snd (m w).
Proof. unfold try_except, ret. destruct (m w) as [[a|e] w']; reflexivity. Qed.

Lemma try_finally_globals {A} (m : IO A) (g : Globals float) (w : World) :
  globals (snd (try_finally m (set_globals g) w)) = g.
Proof. unfold try_finally. destruct (m w) as [r w']. reflexivity. Qed.

Lemma bind_lift {A B} (r : result A) (k : A -> IO B) (w : World) :
  bind (lift r) k w = match r with Ok a => k a w | Raise e => (Raise e, w) end.
Proof. reflexivity. Qed.

Lemma bind_get_globals {B} (k : Globals float -> IO B) (w : World) :
  bind get_globals k w = k (globals w) w.
Proof. reflexivity. Qed.

(** The module-level variables come back. *)
Lemma processar_globals (nome_completo endereco valor_fatura : string) (w : World) :
  globals (snd (processar nome_completo endereco valor_fatura w)) = globals w.
Proof.
  unfold processar, processar_proposta_webhook.
  rewrite try_except_ret_world, bind_lift.
  destruct (validar_entrada _ _ _); [|reflexivity].
  rewrite bind_lift.
  destruct (calcular_parametros_automaticos _ _ _) as [p|]; [|reflexivity].
  rewrite bind_get_globals. apply try_finally_globals.
Qed.

Lemma validar_entrada_rejeita (nome_completo endereco valor_fatura : string) :
  (String.length (Str.strip nome_completo) < 3)%nat
  \/ (String.length (Str.strip endereco) < 10)%nat
  \/ (exists e, PyFloatStr.float_of_str valor_fatura = Raise e)
  \/ (exists x, PyFloatStr.float_of_str valor_fatura = Ok x /\ (x <=? dec 0 0)%pf = true) ->
  exists e,
    validar_entrada nome_completo endereco valor_fatura = Raise e
    /\ exn_class e = ValueError.
Proof.
  intros H. unfold validar_entrada.
  destruct (Str.is_empty nome_completo || _) eqn:Hn; [eauto|].
  destruct (Str.is_empty endereco || _) eqn:He; [eauto|].
  destruct (Str.is_empty valor_fatura); [eauto|].
  apply orb_false_iff in Hn as [_ Hn]. apply Nat.ltb_ge in Hn.
  apply orb_false_iff in He as [_ He]. apply Nat.ltb_ge in He.
  destruct H as [H|[H|[[e H]|(x & H & Hx)]]]; try lia.
  - rewrite H. cbn [rbind except_ValueError].
    rewrite (float_of_str_raises_ValueError _ _ H). eauto.
  - rewrite H. cbn [rbind]. rewrite Hx. cbn. eauto.
Qed.

(** C5. For all inputs and whatever the surroundings do,
    [processar_proposta_webhook] returns a response: it never raises.  A
    name shorter than 3 characters, an address shorter than 10, a bill that
    [float] rejects or that is not positive give the failure response and
    change nothing.  When [gerar_grafico] raises, no PDF is written and the
    response is the failure "Falha na criação do arquivo PDF".  The success
    response is given only when the directory, the chart, the PDF canvas,
    the file and the final existence check all succeeded, so every chart
    or document error ends in the failure response. *)
Theorem C5_processar_nunca_levanta
    (nome_completo endereco valor_fatura : string) (w : World) :
  (exists r w', processar nome_completo endereco valor_fatura w = (Ok r, w'))
  /\ ((String.length (Str.strip nome_completo) < 3)%nat
      \/ (String.length (Str.strip endereco) < 10)%nat
      \/ (exists e, PyFloatStr.float_of_str valor_fatura = Raise e)
      \/ (exists x, PyFloatStr.float_of_str valor_fatura = Ok x
                    /\ (x <=? dec 0 0)%pf = true) ->
      exists msg, processar nome_completo endereco valor_fatura w = (Ok (Falha msg), w))
  /\ (forall (p : Parametros float) (nome_validado : string) (v : Valores float) (e : exn),
        validar_entrada nome_completo endereco valor_fatura = Ok tt ->
        calcular_parametros_automaticos (Some (Str.strip nome_completo))
          (Some (Str.strip endereco)) (Some valor_fatura) = Ok p ->
        cria_diretorio = None ->
        validar_nome_completo (p_nome p) = Ok nome_validado ->
        calcular_valores_financeiros (globals_de p) = Ok v ->
        fst (gerar (total_sem_desconto v) (total_fatura_energia_a v) (valor_desconto v)
               (consumo_minimo_energisa v) (tax_ilu_pub v) (desconto v)
               (set_globals (globals_de p) w)) = Raise e ->
        processar nome_completo endereco valor_fatura w
        = (Ok (Falha "Erro ao processar proposta: Falha na criação do arquivo PDF"), w))
  /\ (forall (caminho message : string) (p : Parametros float) (w' : World),
        processar nome_completo endereco valor_fatura w
        = (Ok (Sucesso caminho p message), w') ->
        cria_diretorio = None
        /\ prepara_grafico = None
        /\ (exists g, desenha_grafico g = None)
        /\ (exists d, desenha_pdf d = None /\ d_caminho d = caminho)
        /\ grava_pdf caminho = None
        /\ existe caminho = true).
Proof.
  split; [apply processar_never_raises|]. split; [|split].
  - intros H. destruct (validar_entrada_rejeita _ _ _ H) as (e & He & _).
    eexists. apply processar_validacao. exact He.
  - intros p nv v e Hv Hp Hd Hn Hval Hg.
    rewrite (processar_sem_pdf _ _ _ w (set_globals (globals_de p) w) p Hv Hp Hd).
    + destruct w. reflexivity.
    + apply (criar_sem_grafico _ nv v e); assumption.
  - intros c m p w' H.
    apply processar_sucesso in H as (_ & H1 & H2 & H3 & H4 & H5 & H6 & _).
    exact (conj H1 (conj H2 (conj H3 (conj H4 (conj H5 H6))))).
Qed.

(** C9. Every call of [processar_proposta_webhook], whether it answers
    success or failure and whether or not it got as far as saving them,
    leaves [NOME], [ENDERECO], [CONSUMO], [TAXA_ILUMINACAO_PUBLICA] and
    [CONSUMO_MINIMO] with the values they had before the call. *)
Theorem C9_globals_restaurados
    (nome_completo endereco valor_fatura : string) (w : World) :
  let w' := snd (processar nome_completo endereco valor_fatura w) in
  NOME (globals w') = NOME (globals w)
  /\ ENDERECO (globals w') = ENDERECO (globals w)
  /\ CONSUMO (globals w') = CONSUMO (globals w)
  /\ TAXA_ILUMINACAO_PUBLICA (globals w') = TAXA_ILUMINACAO_PUBLICA (globals w)
  /\ CONSUMO_MINIMO (globals w') = CONSUMO_MINIMO (globals w).
Proof. cbn zeta. rewrite processar_globals. repeat split. Qed.

End WebhookProofs.

(** A run whose chart cannot be drawn: the answer is the failure, the
    module-level variables are back and no file was written. *)
Example processar_sem_grafico_run :
  let w := MkWorld (MkGlobals NOME_COMPLETO ENDERECO_COMPLETO 332 0x1.efec8f7553698p+5%float 50)
             [] [] in
  processar_proposta_webhook "/app/media" "/app/img" 1700000000 None
    (fun _ => Some (MkExn OSError "No space left on device")) (fun _ => None) (fun _ => None)
    None (fun _ => true)
    "Joao da Silva Santos" "Rua das Palmeiras, 456 - Centro - Campo Grande/MS" "550.75" w
  = (Ok (Falha "Erro ao processar proposta: Falha na criação do arquivo PDF"), w).
Proof. vm_compute. reflexivity. Qed.

(** The same run with a chart: the success response, one PDF and one chart
    image, and the module-level variables back. *)
Example processar_sucesso_run :
  let g := MkGlobals NOME_COMPLETO ENDERECO_COMPLETO 332 0x1.efec8f7553698p+5%float 50 in
  exists p,
    processar_proposta_webhook "/app/media" "/app/img" 1700000000 None
      (fun _ => None) (fun _ => None) (fun _ => None) None (fun _ => true)
      "Joao da Silva Santos" "Rua das Palmeiras, 456 - Centro - Campo Grande/MS" "550.75"
      (MkWorld g [] [])
    = (Ok (Sucesso "/app/media/simulacao_Joao_da_Silva_Santos.pdf" p
             "Proposta gerada com sucesso"),
       MkWorld g ["/app/media/simulacao_Joao_da_Silva_Santos.pdf"] ["/app/img/grafico.png"])
    /\ p_consumo p = 403%Z /\ p_consumo_minimo p = 100%Z.
Proof. eexists. split; [vm_compute; reflexivity|]. split; reflexivity. Qed.

(** A name of two characters: the failure response, and nothing changes. *)
Lemma C5_processar_nunca_levanta_witness :
  let w := MkWorld (MkGlobals NOME_COMPLETO ENDERECO_COMPLETO 332 0x1.efec8f7553698p+5%float 50)
             [] [] in
  exists msg,
    processar_proposta_webhook "/app/media" "/app/img" 1700000000 None
      (fun _ => None) (fun _ => None) (fun _ => None) None (fun _ => true)
      " Jo " "Rua das Palmeiras, 456 - Centro - Campo Grande/MS" "550.75" w
    = (Ok (Falha msg), w).
Proof.
  cbn zeta.
  apply (proj1 (proj2 (C5_processar_nunca_levanta "/app/media" "/app/img" 1700000000 None
                         (fun _ => None) (fun _ => None) (fun _ => None) None (fun _ => true)
                         " Jo " "Rua das Palmeiras, 456 - Centro - Campo Grande/MS" "550.75"
                         _))).
  left. vm_compute. lia.
Defined.

Lemma C9_globals_restaurados_witness :
  let g := MkGlobals NOME_COMPLETO ENDERECO_COMPLETO 332 0x1.efec8f7553698p+5%float 50 in
  CONSUMO
    (globals
       (snd (processar_proposta_webhook "/app/media" "/app/img" 1700000000 None
               (fun _ => None) (fun _ => None) (fun _ => None) None (fun _ => true)
               "Joao da Silva Santos" "Rua das Palmeiras, 456 - Centro - Campo Grande/MS"
               "550.75" (MkWorld g [] []))))
  = 332%Z.
Proof.
  cbn zeta.
  exact (proj1 (proj2 (proj2 (C9_globals_restaurados "/app/media" "/app/img" 1700000000 None
                         (fun _ => None) (fun _ => None) (fun _ => None) None (fun _ => true)
                         "Joao da Silva Santos"
                         "Rua das Palmeiras, 456 - Centro - Campo Grande/MS" "550.75" _)))).
Defined.

(** * Further properties of the code *)

(** * More on texts *)

Lemma filter_append (p : ascii -> bool) (s t : string) :
  Str.filter p (s ++ t) = Str.filter p s ++ Str.filter p t.
Proof.
  induction s as [|c s IH]; cbn; [reflexivity|].
  destruct (p c); cbn; now rewrite IH.
Qed.

Lemma filter_all (p : ascii -> bool) (s : string) :
  all_chars p s = true -> Str.filter p s = s.
Proof.
  induction s as [|c s IH]; cbn; [reflexivity|].
  destruct (p c); cbn; [|discriminate]. intros H. now rewrite IH.
Qed.

Lemma all_filter (p : ascii -> bool) (s : string) : all_chars p (Str.filter p s) = true.
Proof.
  induction s as [|c s IH]; cbn; [reflexivity|].
  destruct (p c) eqn:E; cbn; [now rewrite E|exact IH].
Qed.

Lemma all_chars_app (p : ascii -> bool) (s t : string) :
  all_chars p (s ++ t) = all_chars p s && all_chars p t.
Proof.
  induction s as [|c s IH]; cbn; [reflexivity|]. now rewrite IH, andb_assoc.
Qed.

Lemma all_chars_impl (p q : ascii -> bool) (s : string) :
  (forall c, p c = true -> q c = true) -> all_chars p s = true -> all_chars q s = true.
Proof.
  intros Hpq. induction s as [|c s IH]; cbn; [reflexivity|].
  intros H. apply andb_true_iff in H as [Hc Hs]. now rewrite (Hpq c Hc), IH.
Qed.

Lemma all_chars_count (p : ascii -> bool) (a : ascii) (s : string) :
  p a = false -> all_chars p s = true -> Str.count a s = 0%nat.
Proof.
  intros Ha. induction s as [|c s IH]; cbn; [reflexivity|].
  intros H. apply andb_true_iff in H as [Hc Hs].
  destruct (Ascii.eqb_spec c a) as [->|]; [congruence|]. now rewrite IH.
Qed.

Lemma filter_replace (p : ascii -> bool) (a b : ascii) (s : string) :
  p a = p b -> Str.filter p (Str.replace a b s) = Str.replace a b (Str.filter p s).
Proof.
  intros Hab. unfold Str.replace. induction s as [|c s IH]; cbn; [reflexivity|].
  destruct (Ascii.eqb_spec c a) as [->|Hc].
  - rewrite <- Hab. destruct (p a); cbn; rewrite ?Ascii.eqb_refl, IH; reflexivity.
  - destruct (p c); cbn; rewrite IH; [|reflexivity].
    destruct (Ascii.eqb_spec c a); [contradiction|reflexivity].
Qed.

Lemma contains_false_count (a : ascii) (s : string) :
  Str.contains a s = false <-> Str.count a s = 0%nat.
Proof.
  induction s as [|c s IH]; cbn; [tauto|].
  destruct (Ascii.eqb c a); cbn; [split; discriminate|exact IH].
Qed.

Lemma lstrip_filter (p keep : ascii -> bool) (s : string) :
  (forall c, p c = true -> keep c = false) ->
  Str.filter keep (Str.lstrip p s) = Str.filter keep s.
Proof.
  intros H. induction s as [|c s IH]; cbn; [reflexivity|].
  destruct (p c) eqn:E; [|reflexivity]. now rewrite (H c E).
Qed.

Lemma rstrip_filter (p keep : ascii -> bool) (s : string) :
  (forall c, p c = true -> keep c = false) ->
  Str.filter keep (Str.rstrip p s) = Str.filter keep s.
Proof.
  intros H. induction s as [|c s IH]; cbn; [reflexivity|].
  destruct (p c) eqn:E; cbn.
  - rewrite (H c E). destruct (Str.rstrip p s); cbn in *; [exact IH|].
    rewrite (H c E). exact IH.
  - now rewrite IH.
Qed.

Lemma strip_by_filter (p keep : ascii -> bool) (s : string) :
  (forall c, p c = true -> keep c = false) ->
  Str.filter keep (Str.strip_by p s) = Str.filter keep s.
Proof.
  intros H. unfold Str.strip_by. now rewrite rstrip_filter, lstrip_filter.
Qed.

Lemma lstrip_head (p : ascii -> bool) (s : string) :
  match Str.lstrip p s with
  | EmptyString => True
  | String c _ => p c = false
  end.
Proof.
  induction s as [|c s IH]; cbn; [exact I|].
  destruct (p c) eqn:E; [exact IH|exact E].
Qed.

Lemma rstrip_idem (p : ascii -> bool) (s : string) :
  Str.rstrip p (Str.rstrip p s) = Str.rstrip p s.
Proof.
  induction s as [|c s IH]; cbn; [reflexivity|].
  destruct (p c && Str.is_empty (Str.rstrip p s)) eqn:E; [reflexivity|].
  cbn. now rewrite IH, E.
Qed.

Lemma rstrip_head (p : ascii -> bool) (c : ascii) (s : string) :
  p c = false -> exists r, Str.rstrip p (String c s) = String c r.
Proof. intros H. cbn. rewrite H. cbn. eauto. Qed.

(** Stripping twice is stripping once. *)
Lemma strip_by_idem (p : ascii -> bool) (s : string) :
  Str.strip_by p (Str.strip_by p s) = Str.strip_by p s.
Proof.
  unfold Str.strip_by.
  pose proof (lstrip_head p s) as H.
  destruct (Str.lstrip p s) as [|c t]; [reflexivity|].
  destruct (rstrip_head p c t H) as [r Hr]. rewrite Hr.
  cbn [Str.lstrip]. rewrite H. rewrite <- Hr. apply rstrip_idem.
Qed.

(** The ends of a stripped text are not in the class stripped. *)
Lemma strip_by_first (p : ascii -> bool) (s : string) (c : ascii) :
  primeiro (Str.strip_by p s) = Some c -> p c = false.
Proof.
  unfold Str.strip_by. pose proof (lstrip_head p s) as H.
  destruct (Str.lstrip p s) as [|a t]; [discriminate|].
  destruct (rstrip_head p a t H) as [r ->]. now intros [= <-].
Qed.

Lemma rstrip_last (p : ascii -> bool) (s : string) (c : ascii) :
  ultimo (Str.rstrip p s) = Some c -> p c = false.
Proof.
  induction s as [|a s IH]; cbn; [discriminate|].
  destruct (p a) eqn:Ha; cbn.
  - destruct (Str.rstrip p s) as [|b r] eqn:E; cbn in *; [discriminate|exact IH].
  - destruct (Str.rstrip p s) as [|b r] eqn:E; cbn in *; [now intros [= <-]|exact IH].
Qed.

Lemma strip_by_last (p : ascii -> bool) (s : string) (c : ascii) :
  ultimo (Str.strip_by p s) = Some c -> p c = false.
Proof. apply rstrip_last. Qed.

(** * What [float] accepts, and [extrair_valor_monetario] *)

Import PyFloatStr.

Lemma digit_literal_char (c : ascii) : Str.is_digit c = true -> literal_char c = true.
Proof. intros H. unfold literal_char. now rewrite H. Qed.

Lemma literal_char_lower (c : ascii) : literal_char (lower c) = true -> literal_char c = true.
Proof. destruct c as [[] [] [] [] [] [] [] []]; vm_compute; intros H; exact H. Qed.

Lemma literal_char_kept (c : ascii) :
  literal_char c = true -> removivel c = false /\ Ascii.eqb c "," = false.
Proof. destruct c as [[] [] [] [] [] [] [] []]; vm_compute; intros H; auto; discriminate H. Qed.

Lemma float_space_removivel (c : ascii) : is_float_space c = true -> removivel c = true.
Proof. destruct c as [[] [] [] [] [] [] [] []]; vm_compute; intros H; auto. Qed.

Lemma all_chars_map_lower (s : string) :
  all_chars literal_char (Str.map lower s) = true -> all_chars literal_char s = true.
Proof.
  induction s as [|c s IH]; cbn; [reflexivity|].
  intros H. apply andb_true_iff in H as [Hc Hs].
  now rewrite (literal_char_lower c Hc), IH.
Qed.

Lemma span_all (p : ascii -> bool) (s a b : string) :
  Str.span p s = (a, b) -> all_chars p a = true.
Proof.
  revert a b. induction s as [|c s IH]; cbn; intros a b.
  - now intros [= <- <-].
  - destruct (p c) eqn:Hc.
    + destruct (Str.span p s) as [a' b']. intros [= <- <-]. cbn.
      now rewrite Hc, (IH a' b').
    + now intros [= <- <-].
Qed.

Lemma all_digits_literal (s : string) :
  all_chars Str.is_digit s = true -> all_chars literal_char s = true.
Proof. apply all_chars_impl. exact digit_literal_char. Qed.

Lemma parse_sign_all (s r : string) (neg : bool) :
  parse_sign s = (neg, r) -> all_chars literal_char r = true ->
  all_chars literal_char s = true.
Proof.
  unfold parse_sign. destruct s as [|c s]; [now intros [= <- <-]|].
  destruct (Ascii.eqb_spec c "-") as [->|Hm]; [intros [= <- <-]; now cbn|].
  destruct (Ascii.eqb_spec c "+") as [->|Hp]; [intros [= <- <-]; now cbn|].
  destruct c as [[] [] [] [] [] [] [] []]; try (now intros [= <- <-]); contradiction.
Qed.

Lemma parse_exponent_all (s : string) (e : Z) :
  parse_exponent s = Some e -> all_chars literal_char s = true.
Proof.
  unfold parse_exponent. destruct s as [|c s]; [reflexivity|].
  destruct (Ascii.eqb (lower c) "e") eqn:Hc; [|discriminate].
  destruct (parse_sign s) as [neg r1] eqn:Hs.
  destruct (Str.span Str.is_digit r1) as [ds r2] eqn:Hd.
  destruct (negb (Str.is_empty ds) && Str.is_empty r2) eqn:Hb; [|discriminate].
  intros _. apply andb_true_iff in Hb as [_ Hb]. destruct r2; [|discriminate].
  cbn. apply andb_true_iff. split.
  - apply literal_char_lower. apply Ascii.eqb_eq in Hc. now rewrite Hc.
  - apply (parse_sign_all _ _ _ Hs).
    rewrite (span_app _ _ _ _ Hd), all_chars_app. cbn. rewrite andb_true_r.
    apply all_digits_literal. exact (span_all _ _ _ _ Hd).
Qed.

Lemma parse_number_all (neg : bool) (s : string) (l : literal) :
  parse_number neg s = Some l -> all_chars literal_char s = true.
Proof.
  unfold parse_number.
  destruct (Str.span Str.is_digit s) as [ip r1] eqn:Hi.
  rewrite (span_app _ _ _ _ Hi), all_chars_app.
  rewrite (all_digits_literal _ (span_all _ _ _ _ Hi)). cbn [andb].
  assert (Hcases :
    forall fp r2 x,
      (if Str.is_empty ip && Str.is_empty fp then None
       else match parse_exponent r2 with
            | Some e => Some (LitDec neg (digits_value 0 (ip ++ fp)) (String.length fp) e)
            | None => None
            end) = Some x ->
      all_chars literal_char r2 = true).
  { intros fp r2 x. destruct (Str.is_empty ip && Str.is_empty fp); [discriminate|].
    destruct (parse_exponent r2) eqn:He; [|discriminate].
    intros _. exact (parse_exponent_all _ _ He). }
  destruct r1 as [|c r].
  - reflexivity.
  - destruct (Ascii.eqb_spec c ".") as [->|Hc].
    + destruct (Str.span Str.is_digit r) as [fp r2] eqn:Hf.
      intros H. apply Hcases in H.
      cbn. rewrite (span_app _ _ _ _ Hf), all_chars_app, H.
      now rewrite (all_digits_literal _ (span_all _ _ _ _ Hf)).
    + assert (Hrest :
        (let '(fp, r2) := (EmptyString, String c r) in
         if Str.is_empty ip && Str.is_empty fp then None
         else match parse_exponent r2 with
              | Some e => Some (LitDec neg (digits_value 0 (ip ++ fp)) (String.length fp) e)
              | None => None
              end) = Some l -> all_chars literal_char (String c r) = true).
      { intros H. now apply Hcases in H. }
      destruct c as [[] [] [] [] [] [] [] []]; try exact Hrest; contradiction.
Qed.

Lemma parse_literal_all (u : string) (l : literal) :
  parse_literal u = Some l -> all_chars literal_char u = true.
Proof.
  unfold parse_literal. destruct (parse_sign u) as [neg r] eqn:Hs.
  intros H. apply (parse_sign_all _ _ _ Hs). revert H.
  destruct (String.eqb_spec (Str.map lower r) "inf") as [E|_];
    [intros _; apply all_chars_map_lower; now rewrite E|].
  destruct (String.eqb_spec (Str.map lower r) "infinity") as [E|_];
    [intros _; apply all_chars_map_lower; now rewrite E|].
  cbn [orb].
  destruct (String.eqb_spec (Str.map lower r) "nan") as [E|_];
    [intros _; apply all_chars_map_lower; now rewrite E|].
  apply parse_number_all.
Qed.

Lemma drop_underscores_all (prev : ascii) (s u : string) :
  drop_underscores prev s = Some u ->
  all_chars literal_char u = true -> all_chars literal_char s = true.
Proof.
  revert prev u. induction s as [|c s IH]; cbn; intros prev u; [reflexivity|].
  destruct (is_underscore c) eqn:Hc.
  - destruct (Str.is_digit prev); [|discriminate]. intros H Hu.
    apply Ascii.eqb_eq in Hc. subst c. cbn. exact (IH _ _ H Hu).
  - destruct (is_underscore prev && negb (Str.is_digit c)); [discriminate|].
    destruct (drop_underscores c s) as [u'|] eqn:Hu'; [|discriminate].
    intros [= <-]. cbn. intros H. apply andb_true_iff in H as [H1 H2].
    now rewrite H1, (IH _ _ Hu' H2).
Qed.

(** A text [float] accepts is, once the spaces at its ends are gone, written
    with the characters of a literal only. *)
Lemma float_of_str_all (s : string) (x : float) :
  float_of_str s = Ok x -> all_chars literal_char (Str.strip_by is_float_space s) = true.
Proof.
  unfold float_of_str.
  destruct (drop_underscores _ _) as [u|] eqn:Hu; [|discriminate].
  destruct (parse_literal u) as [l|] eqn:Hl; [|discriminate].
  intros _. exact (drop_underscores_all _ _ _ Hu (parse_literal_all _ _ Hl)).
Qed.

Lemma float_of_str_strip (s : string) :
  float_of_str (Str.strip_by is_float_space s) = float_of_str s.
Proof. unfold float_of_str. now rewrite strip_by_idem. Qed.

Lemma float_of_str_no_comma (s : string) (x : float) :
  float_of_str s = Ok x -> Str.contains "," s = false.
Proof.
  intros H. apply float_of_str_all in H. apply contains_false_count.
  rewrite <- (count_strip_by is_float_space "," s eq_refl).
  apply (all_chars_count literal_char); [reflexivity|exact H].
Qed.

(** X1. The point and the comma are the same decimal mark to
    [extrair_valor_monetario]: writing every point of a text as a comma
    changes neither the number returned nor the error raised. *)
Theorem X1_virgula_ou_ponto (valor_str : string) :
  extrair_valor_monetario (Str.replace "." "," valor_str)
  = extrair_valor_monetario valor_str.
Proof.
  unfold extrair_valor_monetario.
  rewrite (filter_replace _ "." ",") by reflexivity.
  set (t := Str.filter _ valor_str).
  assert (Hcomp : Str.replace "," "." (Str.replace "." "," t) = Str.replace "," "." t).
  { unfold Str.replace. clear. induction t as [|c t IH]; cbn; [reflexivity|].
    rewrite IH. f_equal.
    destruct (Ascii.eqb_spec c ".") as [->|]; [reflexivity|].
    reflexivity. }
  destruct (Str.contains "," (Str.replace "." "," t)) eqn:E1.
  - rewrite Hcomp. destruct (Str.contains "," t) eqn:E2; [reflexivity|].
    apply contains_false_count in E2. now rewrite (replace_absent "," "." t E2).
  - apply contains_false_count in E1. rewrite count_replace in E1 by discriminate.
    assert (Hp : Str.count "." t = 0%nat) by lia.
    assert (Hc : Str.count "," t = 0%nat) by lia.
    rewrite (replace_absent "." "," t Hp).
    apply contains_false_count in Hc. now rewrite Hc.
Qed.

(** X2. An [R], a [$] or a blank anywhere in the text, inside the number
    too, is ignored by [extrair_valor_monetario]. *)
Theorem X2_removiveis_ignorados (antes depois : string) (c : ascii) :
  removivel c = true ->
  extrair_valor_monetario (antes ++ String c depois)
  = extrair_valor_monetario (antes ++ depois).
Proof.
  intros Hc. unfold extrair_valor_monetario.
  change (fun c0 : ascii => negb (Ascii.eqb c0 "R" || Ascii.eqb c0 "$" || Str.is_space c0))
    with (fun c0 => negb (removivel c0)).
  rewrite !filter_append. cbn [Str.filter]. now rewrite Hc.
Qed.

Lemma X2_removiveis_ignorados_witness :
  extrair_valor_monetario ("R$ 1" ++ String " " "234,5")
  = extrair_valor_monetario ("R$ 1" ++ "234,5").
Proof. apply X2_removiveis_ignorados. reflexivity. Defined.

(** A text that [float] accepts is read by [extrair_valor_monetario] as
    the same float. *)
Lemma extrair_valor_monetario_de_float (valor_str : string) (x : float) :
  float_of_str valor_str = Ok x -> extrair_valor_monetario valor_str = Ok x.
Proof.
  intros H. pose proof (float_of_str_all _ _ H) as Hall.
  unfold extrair_valor_monetario.
  change (fun c0 : ascii => negb (Ascii.eqb c0 "R" || Ascii.eqb c0 "$" || Str.is_space c0))
    with (fun c0 => negb (removivel c0)).
  rewrite <- (strip_by_filter is_float_space (fun c0 => negb (removivel c0)) valor_str)
    by (intros c Hc; now rewrite (float_space_removivel c Hc)).
  rewrite filter_all.
  2:{ revert Hall. apply all_chars_impl. intros c Hc.
      now rewrite (proj1 (literal_char_kept c Hc)). }
  replace (Str.contains "," (Str.strip_by is_float_space valor_str)) with false.
  - now rewrite float_of_str_strip.
  - symmetry. apply contains_false_count.
    apply (all_chars_count literal_char); [reflexivity|exact Hall].
Qed.

Example extrair_valor_monetario_de_float_run :
  PyFloatStr.float_of_str " 1_000.5e-1 " = Ok (dec 10005 2)
  /\ extrair_valor_monetario " 1_000.5e-1 " = Ok (dec 10005 2).
Proof. split; vm_compute; reflexivity. Qed.

(** * The webhook, step by step *)

Lemma set_globals_back (g : Globals float) (w : World) :
  set_globals (globals w) (set_globals g w) = w.
Proof. destruct w. reflexivity. Qed.

Lemma strip_length_not_empty (s : string) (n : nat) :
  (S n <= String.length (Str.strip s))%nat -> Str.is_empty s = false.
Proof. destruct s; [cbn; lia|reflexivity]. Qed.

(** What a passed input check says about the three texts. *)
Lemma validar_entrada_inv (nome_completo endereco valor_fatura : string) :
  validar_entrada nome_completo endereco valor_fatura = Ok tt ->
  (3 <= String.length (Str.strip nome_completo))%nat
  /\ (10 <= String.length (Str.strip endereco))%nat
  /\ exists x, PyFloatStr.float_of_str valor_fatura = Ok x /\ (x <=? dec 0 0)%pf = false.
Proof.
  unfold validar_entrada.
  destruct (Str.is_empty nome_completo || _) eqn:Hn; [discriminate|].
  destruct (Str.is_empty endereco || _) eqn:He; [discriminate|].
  destruct (Str.is_empty valor_fatura); [discriminate|].
  apply orb_false_iff in Hn as [_ Hn]. apply Nat.ltb_ge in Hn.
  apply orb_false_iff in He as [_ He]. apply Nat.ltb_ge in He.
  destruct (PyFloatStr.float_of_str valor_fatura) as [x|e] eqn:Hx; cbn [rbind].
  - destruct (x <=? dec 0 0)%pf eqn:Hle; cbn; [discriminate|]. eauto.
  - cbn. destruct (exn_class e); discriminate.
Qed.

(** The four messages of the input check. *)
Lemma validar_entrada_mensagens (nome_completo endereco valor_fatura : string) (e : exn) :
  validar_entrada nome_completo endereco valor_fatura = Raise e ->
  In e [MkExn ValueError "Nome completo deve ter pelo menos 3 caracteres";
        MkExn ValueError "Endereço deve ter pelo menos 10 caracteres";
        MkExn ValueError "Valor da fatura é obrigatório";
        MkExn ValueError "Valor da fatura deve ser um número válido"].
Proof.
  unfold validar_entrada.
  destruct (Str.is_empty nome_completo || _); [intros [= <-]; cbn; auto|].
  destruct (Str.is_empty endereco || _); [intros [= <-]; cbn; auto|].
  destruct (Str.is_empty valor_fatura); [intros [= <-]; cbn; auto|].
  destruct (PyFloatStr.float_of_str valor_fatura) as [x|e0] eqn:Hx; cbn [rbind].
  - destruct (x <=? dec 0 0)%pf; cbn; [intros [= <-]; auto 6|discriminate].
  - cbn. rewrite (float_of_str_raises_ValueError _ _ Hx). intros [= <-]. auto 6.
Qed.

(** A bill the check accepted is parsed again by
    [calcular_parametros_automaticos], to the same float. *)
Lemma calcular_parametros_de_float (nome endereco valor_fatura : string) (x : float) :
  Str.is_empty nome = false -> Str.is_empty endereco = false ->
  PyFloatStr.float_of_str valor_fatura = Ok x ->
  calcular_parametros_automaticos (Some nome) (Some endereco) (Some valor_fatura)
  = parametros_de_valor nome endereco x.
Proof.
  intros Hn He Hx. unfold calcular_parametros_automaticos, str_or.
  rewrite Hn, He.
  assert (Hv : Str.is_empty valor_fatura = false).
  { destruct valor_fatura; [|reflexivity]. vm_compute in Hx. discriminate Hx. }
  rewrite Hv, (extrair_valor_monetario_de_float _ _ Hx). reflexivity.
Qed.

(** [round] of a bill that is NaN or the positive infinity. *)
Lemma parametros_de_valor_nan (nome endereco : string) (x : float) :
  Prim2SF x = S754_nan ->
  parametros_de_valor nome endereco x
  = Raise (MkExn ValueError "cannot convert float NaN to integer").
Proof.
  intros Hx. unfold parametros_de_valor.
  change (py_round ((x - base_fee x) / TARIFA_ENERGISA)%pf)
    with (B64.to_int Z_round_half_even ((x - base_fee x) / TARIFA_ENERGISA)%float).
  unfold B64.to_int, B64.to_ratio, B64.cannot_convert, PrimFloat.is_nan.
  rewrite FloatAxioms.eqb_spec, FloatAxioms.div_spec, FloatAxioms.sub_spec, Hx. reflexivity.
Qed.

Lemma Prim2SF_base_fee (x : float) :
  exists m e, Prim2SF (base_fee x) = S754_finite false m e.
Proof.
  unfold base_fee.
  destruct (_ >? _)%pf; [do 2 eexists; vm_compute; reflexivity|].
  destruct (_ >? _)%pf; do 2 eexists; vm_compute; reflexivity.
Qed.

Lemma parametros_de_valor_inf (nome endereco : string) (x : float) :
  Prim2SF x = S754_infinity false ->
  parametros_de_valor nome endereco x
  = Raise (MkExn OverflowError "cannot convert float infinity to integer").
Proof.
  intros Hx. unfold parametros_de_valor.
  change (py_round ((x - base_fee x) / TARIFA_ENERGISA)%pf)
    with (B64.to_int Z_round_half_even ((x - base_fee x) / TARIFA_ENERGISA)%float).
  destruct (Prim2SF_base_fee x) as (m & e & Hf).
  unfold B64.to_int, B64.to_ratio, B64.cannot_convert, PrimFloat.is_nan.
  rewrite FloatAxioms.eqb_spec, FloatAxioms.div_spec, FloatAxioms.sub_spec, Hx, Hf. reflexivity.
Qed.

(** [round] rejects no other float: a finite one is rounded. *)
Lemma py_round_finite (y : float) (e : exn) :
  py_round y = Raise e ->
  e = MkExn ValueError "cannot convert float NaN to integer"
  \/ e = MkExn OverflowError "cannot convert float infinity to integer".
Proof.
  change (py_round y) with (B64.to_int Z_round_half_even y).
  unfold B64.to_int, B64.cannot_convert.
  destruct (B64.to_ratio y) as [[n d]|]; [discriminate|].
  destruct (PrimFloat.is_nan y); intros [= <-]; auto.
Qed.

Lemma parametros_de_valor_mensagens (nome endereco : string) (x : float) (e : exn) :
  parametros_de_valor nome endereco x = Raise e ->
  In e [MkExn ValueError "cannot convert float NaN to integer";
        MkExn OverflowError "cannot convert float infinity to integer";
        MkExn OverflowError "int too large to convert to float"].
Proof.
  unfold parametros_de_valor.
  destruct (py_round _) as [z|e0] eqn:Hr; cbn [rbind].
  - change (float_of_int z) with (B64.of_int z). unfold B64.of_int.
    destruct (binary_normalize _ _ _ _ _); cbn [rbind]; try discriminate.
    intros [= <-]. cbn. auto.
  - intros [= <-]. destruct (py_round_finite _ _ Hr) as [-> | ->]; cbn; auto.
Qed.

Lemma strip_length_not_empty' (s : string) (n : nat) :
  (S n <= String.length (Str.strip s))%nat -> Str.is_empty (Str.strip s) = false.
Proof. destruct (Str.strip s); [cbn; lia|reflexivity]. Qed.

(** The name and the address of the dictionary are the stripped texts. *)
Lemma parametros_webhook_inv (nome_completo endereco valor_fatura : string)
      (p : Parametros float) :
  validar_entrada nome_completo endereco valor_fatura = Ok tt ->
  calcular_parametros_automaticos (Some (Str.strip nome_completo))
    (Some (Str.strip endereco)) (Some valor_fatura) = Ok p ->
  exists x,
    PyFloatStr.float_of_str valor_fatura = Ok x
    /\ (x <=? dec 0 0)%pf = false
    /\ parametros_de_valor (Str.strip nome_completo) (Str.strip endereco) x = Ok p
    /\ p_nome p = Str.strip nome_completo
    /\ p_endereco p = Str.strip endereco
    /\ p_valor_fatura_original p = x.
Proof.
  intros Hv Hp. destruct (validar_entrada_inv _ _ _ Hv) as (Hn & He & x & Hx & Hpos).
  rewrite (calcular_parametros_de_float _ _ _ x) in Hp;
    [|exact (strip_length_not_empty' _ 2 Hn)|exact (strip_length_not_empty' _ 9 He)|exact Hx].
  destruct (parametros_de_valor_inv _ _ _ _ Hp) as (_ & _ & _ & _ & _ & HB & Hnome & Hend).
  exists x. auto 7.
Qed.

(** A bill that is not a positive number, below a name and an address
    that are long enough. *)
Lemma validar_entrada_valor_invalido (nome_completo endereco valor_fatura : string) :
  (3 <= String.length (Str.strip nome_completo))%nat ->
  (10 <= String.length (Str.strip endereco))%nat ->
  Str.is_empty valor_fatura = false ->
  (exists e, PyFloatStr.float_of_str valor_fatura = Raise e)
  \/ (exists x, PyFloatStr.float_of_str valor_fatura = Ok x /\ (x <=? dec 0 0)%pf = true) ->
  validar_entrada nome_completo endereco valor_fatura
  = Raise (MkExn ValueError "Valor da fatura deve ser um número válido").
Proof.
  intros Hn He Hv H. unfold validar_entrada.
  rewrite (strip_length_not_empty _ 2 Hn), (strip_length_not_empty _ 9 He), Hv.
  apply Nat.ltb_ge in Hn, He. rewrite Hn, He. cbn [orb].
  destruct H as [[e H]|(x & H & Hx)]; rewrite H; cbn [rbind].
  - cbn. now rewrite (float_of_str_raises_ValueError _ _ H).
  - rewrite Hx. reflexivity.
Qed.

Lemma validar_entrada_valor_valido (nome_completo endereco valor_fatura : string) (x : float) :
  (3 <= String.length (Str.strip nome_completo))%nat ->
  (10 <= String.length (Str.strip endereco))%nat ->
  PyFloatStr.float_of_str valor_fatura = Ok x -> (x <=? dec 0 0)%pf = false ->
  validar_entrada nome_completo endereco valor_fatura = Ok tt.
Proof.
  intros Hn He Hx Hpos. unfold validar_entrada.
  rewrite (strip_length_not_empty _ 2 Hn), (strip_length_not_empty _ 9 He).
  apply Nat.ltb_ge in Hn, He. rewrite Hn, He. cbn [orb].
  destruct valor_fatura; [vm_compute in Hx; discriminate Hx|].
  cbn [Str.is_empty]. rewrite Hx. cbn [rbind]. rewrite Hpos. reflexivity.
Qed.

Lemma contains_not_empty (a : ascii) (s : string) :
  Str.contains a s = true -> Str.is_empty s = false.
Proof. destruct s; [discriminate|reflexivity]. Qed.

Section WebhookExtras.

Variable OUTPUT_DIR IMG_DIR : string.
Variable agora : Z.
Variable prepara_grafico : option exn.
Variable desenha_grafico : Grafico -> option exn.
Variable desenha_pdf : Documento -> option exn.
Variable grava_pdf : string -> option exn.
Variable cria_diretorio : option exn.
Variable existe : string -> bool.

Local Abbreviation gerar := (gerar_grafico IMG_DIR agora prepara_grafico desenha_grafico).
Local Abbreviation criar :=
  (criar_proposta_pdf OUTPUT_DIR IMG_DIR agora prepara_grafico desenha_grafico desenha_pdf
     grava_pdf).
Local Abbreviation processar :=
  (processar_proposta_webhook OUTPUT_DIR IMG_DIR agora prepara_grafico desenha_grafico
     desenha_pdf grava_pdf cria_diretorio existe).
Local Abbreviation imagem := (IMG_DIR ++ "/grafico.png").

(** What a call of [gerar_grafico] leaves behind. *)
Lemma gerar_grafico_casos
    (sem_geracao com_geracao economia consumo_minimo_energisa tax_ilu_pub desconto : float)
    (w : World) :
  (exists e0,
     gerar sem_geracao com_geracao economia consumo_minimo_energisa tax_ilu_pub desconto w
     = (Raise (MkExn PlainException ("Erro ao gerar gráfico: " ++ exn_str e0)), w)
     /\ (prepara_grafico = Some e0
         \/ montar_grafico sem_geracao com_geracao economia consumo_minimo_energisa
              tax_ilu_pub desconto = Raise e0
         \/ exists g, desenha_grafico g = Some e0))
  \/ (gerar sem_geracao com_geracao economia consumo_minimo_energisa tax_ilu_pub desconto w
      = (Ok (imagem ++ "?t=" ++ PyFloatStr.str_of_int agora),
         MkWorld (globals w) (pdfs w) (imagem :: graficos w))
      /\ prepara_grafico = None
      /\ exists g, montar_grafico sem_geracao com_geracao economia consumo_minimo_energisa
                     tax_ilu_pub desconto = Ok g
                   /\ desenha_grafico g = None).
Proof.
  unfold gerar_grafico, try_except, bind, chamada, lift, raise, ret, modify.
  destruct prepara_grafico as [e|]; cbn; [left; eauto|].
  destruct (montar_grafico _ _ _ _ _ _) as [g|e]; cbn; [|left; eauto 6].
  destruct (desenha_grafico g) as [e|] eqn:Hg; cbn; [left; eauto 7|].
  right. eauto 6.
Qed.

(** What a call of [criar_proposta_pdf] leaves behind. *)
Lemma criar_proposta_pdf_casos (w : World) :
  (exists w', criar w = (Ok None, w')
     /\ globals w' = globals w /\ pdfs w' = pdfs w
     /\ (graficos w' = graficos w \/ graficos w' = imagem :: graficos w))
  \/ (let caminho :=
        OUTPUT_DIR ++ "/" ++ "simulacao_" ++ sanitizar_nome_arquivo (NOME (globals w)) ++ ".pdf" in
      criar w = (Ok (Some caminho),
                 MkWorld (globals w) (caminho :: pdfs w) (imagem :: graficos w))
      /\ (exists n, validar_nome_completo (NOME (globals w)) = Ok n)
      /\ prepara_grafico = None
      /\ (exists g, desenha_grafico g = None)
      /\ (exists d, desenha_pdf d = None /\ d_caminho d = caminho)
      /\ grava_pdf caminho = None).
Proof.
  destruct (criar w) as [r w'] eqn:H. revert H.
  unfold criar_proposta_pdf.
  unfold try_except at 1. unfold bind at 1. unfold get_globals at 1.
  unfold bind at 1. unfold lift at 1.
  destruct (validar_nome_completo _) as [n|e] eqn:Hn;
    [|intros [= <- <-]; left; exists w; auto].
  unfold bind at 1. unfold lift at 1.
  destruct (calcular_valores_financeiros _) as [v|e];
    [|intros [= <- <-]; left; exists w; auto].
  unfold bind at 1.
  destruct (gerar_grafico_casos (total_sem_desconto v) (total_fatura_energia_a v)
              (valor_desconto v) (consumo_minimo_energisa v) (tax_ilu_pub v) (desconto v) w)
    as [(e0 & -> & _) | (-> & Hp & g & _ & Hg)];
    [intros [= <- <-]; left; exists w; auto|].
  unfold bind at 1. unfold lift at 1.
  destruct (formatar_documento v) as [[moedas inteiros]|e];
    [|intros [= <- <-]; left; eexists; cbn; auto].
  unfold bind at 1. unfold chamada at 1.
  match goal with |- context [desenha_pdf ?d] => destruct (desenha_pdf d) eqn:Hd end;
    [intros [= <- <-]; left; eexists; cbn; auto|].
  unfold ret at 1. unfold bind at 1. unfold chamada at 1.
  match goal with |- context [grava_pdf ?c] => destruct (grava_pdf c) eqn:Hw end;
    [intros [= <- <-]; left; eexists; cbn; auto|].
  intros [= <- <-]. right. cbn. repeat split; eauto.
Qed.

(** [processar_proposta_webhook], unfolded once. *)
Lemma processar_eq (nome_completo endereco valor_fatura : string) (w : World) :
  processar nome_completo endereco valor_fatura w
  = let falha := fun (e : exn) (w' : World) =>
                   (Ok (Falha ("Erro ao processar proposta: " ++ exn_str e)), w') in
    match validar_entrada nome_completo endereco valor_fatura with
    | Raise e => falha e w
    | Ok _ =>
        match calcular_parametros_automaticos (Some (Str.strip nome_completo))
                (Some (Str.strip endereco)) (Some valor_fatura) with
        | Raise e => falha e w
        | Ok p =>
            match cria_diretorio with
            | Some e => falha e w
            | None =>
                match criar (set_globals (globals_de p) w) with
                | (Raise e, w1) => falha e (set_globals (globals w) w1)
                | (Ok None, w1) =>
                    falha (MkExn PlainException "Falha na criação do arquivo PDF")
                      (set_globals (globals w) w1)
                | (Ok (Some caminho), w1) =>
                    if existe caminho
                    then (Ok (Sucesso caminho p "Proposta gerada com sucesso"),
                          set_globals (globals w) w1)
                    else falha (MkExn PlainException "Arquivo PDF não foi criado corretamente")
                           (set_globals (globals w) w1)
                end
            end
        end
    end.
Proof.
  cbn zeta.
  unfold processar_proposta_webhook, try_except, try_finally, bind, lift, get_globals,
    modify, chamada.
  destruct (validar_entrada _ _ _) as [[]|e]; [|reflexivity].
  destruct (calcular_parametros_automaticos _ _ _) as [p|e]; [|reflexivity].
  destruct cria_diretorio as [e|]; [cbn; now rewrite set_globals_back|].
  cbn [ret]. fold criar.
  destruct (criar _) as [[[c|]|e] w1]; cbn; [|reflexivity|reflexivity].
  destruct (existe c); reflexivity.
Qed.

(** The six ways a call of [processar_proposta_webhook] can go. *)
Lemma processar_casos (nome_completo endereco valor_fatura : string) (w : World) :
  let prefixo := "Erro ao processar proposta: " in
  (exists e, validar_entrada nome_completo endereco valor_fatura = Raise e
     /\ processar nome_completo endereco valor_fatura w = (Ok (Falha (prefixo ++ exn_str e)), w))
  \/ (validar_entrada nome_completo endereco valor_fatura = Ok tt
      /\ ((exists e,
             calcular_parametros_automaticos (Some (Str.strip nome_completo))
               (Some (Str.strip endereco)) (Some valor_fatura) = Raise e
             /\ processar nome_completo endereco valor_fatura w
                = (Ok (Falha (prefixo ++ exn_str e)), w))
          \/ exists p,
               calcular_parametros_automaticos (Some (Str.strip nome_completo))
                 (Some (Str.strip endereco)) (Some valor_fatura) = Ok p
               /\ ((exists e, cria_diretorio = Some e
                      /\ processar nome_completo endereco valor_fatura w
                         = (Ok (Falha (prefixo ++ exn_str e)), w))
                   \/ (cria_diretorio = None
                       /\ exists o w1,
                            criar (set_globals (globals_de p) w) = (Ok o, w1)
                            /\ processar nome_completo endereco valor_fatura w
                               = (Ok match o with
                                     | None => Falha (prefixo ++ "Falha na criação do arquivo PDF")
                                     | Some caminho =>
                                         if existe caminho
                                         then Sucesso caminho p "Proposta gerada com sucesso"
                                         else Falha (prefixo
                                                     ++ "Arquivo PDF não foi criado corretamente")
                                     end,
                                  set_globals (globals w) w1))))).
Proof.
  cbn zeta. rewrite processar_eq. cbn zeta.
  destruct (validar_entrada _ _ _) as [[]|e]; [right; split; [reflexivity|]|left; eauto].
  destruct (calcular_parametros_automaticos _ _ _) as [p|e];
    [right; exists p; split; [reflexivity|]|left; eauto].
  destruct cria_diretorio as [e|]; [left; eauto|right; split; [reflexivity|]].
  destruct (criar_proposta_pdf_casos (set_globals (globals_de p) w))
    as [(w1 & Hc & _) | (Hc & _)].
  - exists None, w1. rewrite Hc. split; reflexivity.
  - cbn zeta in Hc. eexists (Some _), _. rewrite Hc. split; [reflexivity|].
    destruct (existe _); reflexivity.
Qed.

Lemma criar_nome_invalido (w : World) (e : exn) :
  validar_nome_completo (NOME (globals w)) = Raise e -> criar w = (Ok None, w).
Proof.
  intros H. unfold criar_proposta_pdf, try_except, bind, get_globals, lift.
  rewrite H. reflexivity.
Qed.

(** X3. The webhook derives the parameters from the float it checked:
    when the input check passes, the bill text is one [float] reads as some
    [x] that is not [<= 0], [extrair_valor_monetario] reads the same [x]
    from it, and the dictionary is the one computed from [x] with the
    stripped name and address. *)
Theorem X3_valor_validado_e_usado (nome_completo endereco valor_fatura : string) :
  validar_entrada nome_completo endereco valor_fatura = Ok tt ->
  exists x,
    PyFloatStr.float_of_str valor_fatura = Ok x
    /\ (x <=? dec 0 0)%pf = false
    /\ extrair_valor_monetario valor_fatura = Ok x
    /\ calcular_parametros_automaticos (Some (Str.strip nome_completo))
         (Some (Str.strip endereco)) (Some valor_fatura)
       = parametros_de_valor (Str.strip nome_completo) (Str.strip endereco) x.
Proof.
  intros Hv. destruct (validar_entrada_inv _ _ _ Hv) as (Hn & He & x & Hx & Hpos).
  exists x. repeat split; try assumption.
  - exact (extrair_valor_monetario_de_float _ _ Hx).
  - apply calcular_parametros_de_float;
      [exact (strip_length_not_empty' _ 2 Hn)|exact (strip_length_not_empty' _ 9 He)|exact Hx].
Qed.

(** X4. A bill written with a comma never passes the webhook, although
    [extrair_valor_monetario] would read it: with a name and an address
    that are long enough, the answer is the failure "Valor da fatura deve
    ser um número válido" and nothing changes. *)
Theorem X4_virgula_rejeitada (nome_completo endereco valor_fatura : string) (w : World) :
  (3 <= String.length (Str.strip nome_completo))%nat ->
  (10 <= String.length (Str.strip endereco))%nat ->
  Str.contains "," valor_fatura = true ->
  processar nome_completo endereco valor_fatura w
  = (Ok (Falha "Erro ao processar proposta: Valor da fatura deve ser um número válido"), w).
Proof.
  intros Hn He Hc. rewrite processar_eq. cbn zeta.
  rewrite (validar_entrada_valor_invalido _ _ _ Hn He (contains_not_empty _ _ Hc)).
  - reflexivity.
  - left. destruct (PyFloatStr.float_of_str valor_fatura) as [x|e] eqn:Hx; [|eauto].
    apply float_of_str_no_comma in Hx. congruence.
Qed.

(** X5. A bill that is a number but not a positive one is reported with
    the message of a bill that is no number: the [ValueError] raised with
    "Valor da fatura deve ser maior que zero" is caught by the [except]
    clause around it. *)
Theorem X5_valor_nao_positivo (nome_completo endereco valor_fatura : string) (x : float)
    (w : World) :
  (3 <= String.length (Str.strip nome_completo))%nat ->
  (10 <= String.length (Str.strip endereco))%nat ->
  PyFloatStr.float_of_str valor_fatura = Ok x ->
  (x <=? dec 0 0)%pf = true ->
  processar nome_completo endereco valor_fatura w
  = (Ok (Falha "Erro ao processar proposta: Valor da fatura deve ser um número válido"), w).
Proof.
  intros Hn He Hx Hle. rewrite processar_eq. cbn zeta.
  rewrite (validar_entrada_valor_invalido _ _ _ Hn He); [reflexivity| |eauto].
  destruct valor_fatura; [vm_compute in Hx; discriminate Hx|reflexivity].
Qed.

(** X6. A bill that [float] reads as NaN or as the positive infinity
    passes the input check, since neither is [<= 0]; the call then fails
    in [round], and the answer carries the message of [round]; nothing
    changes. *)
Theorem X6_valor_nao_finito (nome_completo endereco valor_fatura : string) (x : float)
    (w : World) :
  (3 <= String.length (Str.strip nome_completo))%nat ->
  (10 <= String.length (Str.strip endereco))%nat ->
  PyFloatStr.float_of_str valor_fatura = Ok x ->
  (Prim2SF x = S754_nan ->
   validar_entrada nome_completo endereco valor_fatura = Ok tt
   /\ processar nome_completo endereco valor_fatura w
      = (Ok (Falha "Erro ao processar proposta: cannot convert float NaN to integer"), w))
  /\ (Prim2SF x = S754_infinity false ->
      validar_entrada nome_completo endereco valor_fatura = Ok tt
      /\ processar nome_completo endereco valor_fatura w
         = (Ok (Falha "Erro ao processar proposta: cannot convert float infinity to integer"),
            w)).
Proof.
  intros Hn He Hx.
  assert (Hcalc :
    calcular_parametros_automaticos (Some (Str.strip nome_completo))
      (Some (Str.strip endereco)) (Some valor_fatura)
    = parametros_de_valor (Str.strip nome_completo) (Str.strip endereco) x).
  { apply calcular_parametros_de_float;
      [exact (strip_length_not_empty' _ 2 Hn)|exact (strip_length_not_empty' _ 9 He)|exact Hx]. }
  split; intros Hsf.
  - assert (Hv : validar_entrada nome_completo endereco valor_fatura = Ok tt).
    { apply (validar_entrada_valor_valido _ _ _ x Hn He Hx).
      change ((x <=? dec 0 0)%float = false). rewrite FloatAxioms.leb_spec, Hsf. reflexivity. }
    split; [exact Hv|].
    rewrite processar_eq. cbn zeta.
    rewrite Hv, Hcalc, (parametros_de_valor_nan _ _ _ Hsf). reflexivity.
  - assert (Hv : validar_entrada nome_completo endereco valor_fatura = Ok tt).
    { apply (validar_entrada_valor_valido _ _ _ x Hn He Hx).
      change ((x <=? dec 0 0)%float = false). rewrite FloatAxioms.leb_spec, Hsf. reflexivity. }
    split; [exact Hv|].
    rewrite processar_eq. cbn zeta.
    rewrite Hv, Hcalc, (parametros_de_valor_inf _ _ _ Hsf). reflexivity.
Qed.

(** X7. The name is checked twice, by two different rules.  A name that
    passes the check of the webhook (three characters) and fails
    [validar_nome_completo] (more than 100 characters, or no letter) is
    found out inside [criar_proposta_pdf] only: the answer is the failure
    "Falha na criação do arquivo PDF", the reason is lost, and neither a
    chart nor a PDF is produced. *)
Theorem X7_nome_invalido (nome_completo endereco valor_fatura : string)
    (p : Parametros float) (e : exn) (w : World) :
  validar_entrada nome_completo endereco valor_fatura = Ok tt ->
  calcular_parametros_automaticos (Some (Str.strip nome_completo))
    (Some (Str.strip endereco)) (Some valor_fatura) = Ok p ->
  cria_diretorio = None ->
  validar_nome_completo (Str.strip nome_completo) = Raise e ->
  processar nome_completo endereco valor_fatura w
  = (Ok (Falha "Erro ao processar proposta: Falha na criação do arquivo PDF"), w).
Proof.
  intros Hv Hp Hd Hn. rewrite processar_eq. cbn zeta. rewrite Hv, Hp, Hd.
  destruct (parametros_webhook_inv _ _ _ _ Hv Hp) as (_ & _ & _ & _ & Hnome & _).
  rewrite (criar_nome_invalido _ e).
  - now rewrite set_globals_back.
  - cbn. now rewrite Hnome.
Qed.

(** X8. The success response, in full: the path is [OUTPUT_DIR], a slash,
    [simulacao_], the sanitized stripped name and [.pdf]; the message is
    fixed; the dictionary is the one derived from the float the bill text
    denotes, with the stripped name and address; and the call has written
    exactly that PDF and the chart image, and nothing else has changed. *)
Theorem X8_resposta_de_sucesso (nome_completo endereco valor_fatura : string) (w w' : World)
    (caminho message : string) (p : Parametros float) :
  processar nome_completo endereco valor_fatura w = (Ok (Sucesso caminho p message), w') ->
  caminho = OUTPUT_DIR ++ "/" ++ "simulacao_"
            ++ sanitizar_nome_arquivo (Str.strip nome_completo) ++ ".pdf"
  /\ message = "Proposta gerada com sucesso"
  /\ (exists x, PyFloatStr.float_of_str valor_fatura = Ok x
                /\ parametros_de_valor (Str.strip nome_completo) (Str.strip endereco) x = Ok p)
  /\ (exists n, validar_nome_completo (Str.strip nome_completo) = Ok n)
  /\ w' = MkWorld (globals w) (caminho :: pdfs w) (imagem :: graficos w).
Proof.
  rewrite processar_eq. cbn zeta.
  destruct (validar_entrada _ _ _) as [[]|] eqn:Hv; [|discriminate].
  destruct (calcular_parametros_automaticos _ _ _) as [p0|] eqn:Hp; [|discriminate].
  destruct cria_diretorio; [discriminate|].
  destruct (parametros_webhook_inv _ _ _ _ Hv Hp) as (x & Hx & _ & Hpar & Hnome & _).
  destruct (criar_proposta_pdf_casos (set_globals (globals_de p0) w))
    as [(w1 & -> & _) | (-> & (n & Hn) & _)]; [discriminate|].
  cbn [globals set_globals globals_de NOME pdfs graficos] in *.
  rewrite Hnome in *.
  destruct (existe _); [|discriminate].
  intros [= <- <- <- <-]. repeat split; eauto.
Qed.




End WebhookExtras.

Lemma X3_valor_validado_e_usado_witness :
  exists x,
    PyFloatStr.float_of_str " 550.75" = Ok x
    /\ (x <=? dec 0 0)%pf = false
    /\ extrair_valor_monetario " 550.75" = Ok x
    /\ calcular_parametros_automaticos (Some (Str.strip " Ana Lima "))
         (Some (Str.strip "Rua das Palmeiras, 456")) (Some " 550.75")
       = parametros_de_valor (Str.strip " Ana Lima ") (Str.strip "Rua das Palmeiras, 456") x.
Proof.
  apply (X3_valor_validado_e_usado " Ana Lima " "Rua das Palmeiras, 456" " 550.75").
  vm_compute. reflexivity.
Defined.

Lemma X4_virgula_rejeitada_witness :
  let w := MkWorld (MkGlobals NOME_COMPLETO ENDERECO_COMPLETO 332 0x1.efec8f7553698p+5%float 50)
             [] [] in
  processar_proposta_webhook "/app/media" "/app/img" 1700000000 None
    (fun _ => None) (fun _ => None) (fun _ => None) None (fun _ => true)
    "Ana Lima" "Rua das Palmeiras, 456" "550,75" w
  = (Ok (Falha "Erro ao processar proposta: Valor da fatura deve ser um número válido"), w).
Proof.
  cbn zeta. apply X4_virgula_rejeitada; [vm_compute; lia|vm_compute; lia|reflexivity].
Defined.

Lemma X5_valor_nao_positivo_witness :
  let w := MkWorld (MkGlobals NOME_COMPLETO ENDERECO_COMPLETO 332 0x1.efec8f7553698p+5%float 50)
             [] [] in
  processar_proposta_webhook "/app/media" "/app/img" 1700000000 None
    (fun _ => None) (fun _ => None) (fun _ => None) None (fun _ => true)
    "Ana Lima" "Rua das Palmeiras, 456" "-10.5" w
  = (Ok (Falha "Erro ao processar proposta: Valor da fatura deve ser um número válido"), w).
Proof.
  cbn zeta. apply (X5_valor_nao_positivo _ _ _ _ _ _ _ _ _ _ _ _ (-10.5)%float);
    [vm_compute; lia|vm_compute; lia|vm_compute; reflexivity|vm_compute; reflexivity].
Defined.

Lemma X6_valor_nao_finito_witness :
  let w := MkWorld (MkGlobals NOME_COMPLETO ENDERECO_COMPLETO 332 0x1.efec8f7553698p+5%float 50)
             [] [] in
  processar_proposta_webhook "/app/media" "/app/img" 1700000000 None
    (fun _ => None) (fun _ => None) (fun _ => None) None (fun _ => true)
    "Ana Lima" "Rua das Palmeiras, 456" "1e999" w
  = (Ok (Falha "Erro ao processar proposta: cannot convert float infinity to integer"), w).
Proof.
  cbn zeta.
  apply (X6_valor_nao_finito "/app/media" "/app/img" 1700000000 None
           (fun _ => None) (fun _ => None) (fun _ => None) None (fun _ => true)
           "Ana Lima" "Rua das Palmeiras, 456" "1e999" infinity);
    [vm_compute; lia|vm_compute; lia|vm_compute; reflexivity|reflexivity].
Defined.

Lemma X7_nome_invalido_witness :
  let w := MkWorld (MkGlobals NOME_COMPLETO ENDERECO_COMPLETO 332 0x1.efec8f7553698p+5%float 50)
             [] [] in
  processar_proposta_webhook "/app/media" "/app/img" 1700000000 None
    (fun _ => None) (fun _ => None) (fun _ => None) None (fun _ => true)
    "12345" "Rua das Palmeiras, 456" "550.75" w
  = (Ok (Falha "Erro ao processar proposta: Falha na criação do arquivo PDF"), w).
Proof.
  cbn zeta.
  eapply (X7_nome_invalido "/app/media" "/app/img" 1700000000 None
           (fun _ => None) (fun _ => None) (fun _ => None) None (fun _ => true)
           "12345" "Rua das Palmeiras, 456" "550.75");
    [vm_compute; reflexivity|vm_compute; reflexivity|reflexivity|vm_compute; reflexivity].
Defined.

Lemma X8_resposta_de_sucesso_witness :
  "/app/media/simulacao_Joao_da_Silva_Santos.pdf"
  = "/app/media" ++ "/" ++ "simulacao_"
    ++ sanitizar_nome_arquivo (Str.strip " Joao da  Silva Santos ") ++ ".pdf".
Proof.
  pose (g := MkGlobals NOME_COMPLETO ENDERECO_COMPLETO 332 0x1.efec8f7553698p+5%float 50).
  refine (proj1 (X8_resposta_de_sucesso "/app/media" "/app/img" 1700000000 None
                   (fun _ => None) (fun _ => None) (fun _ => None) None (fun _ => true)
                   " Joao da  Silva Santos " "Rua das Palmeiras, 456 - Centro" "550.75"
                   (MkWorld g [] [])
                   (MkWorld g ["/app/media/simulacao_Joao_da_Silva_Santos.pdf"]
                      ["/app/img/grafico.png"])
                   "/app/media/simulacao_Joao_da_Silva_Santos.pdf"
                   "Proposta gerada com sucesso"
                   (MkParametros "Joao da  Silva Santos" "Rua das Palmeiras, 456 - Centro" 403
                      (PrimFloat.sub 550.75 (PrimFloat.mul 403 TARIFA_ENERGISA)) 100 550.75%float) _)).
  vm_compute. reflexivity.
Defined.



(** * File names and customer names *)

Lemma all_chars_map (q : ascii -> bool) (f : ascii -> ascii) (s : string) :
  all_chars q (Str.map f s) = all_chars (fun c => q (f c)) s.
Proof. induction s as [|c s IH]; cbn; [reflexivity|]. now rewrite IH. Qed.

Lemma lstrip_suffix (p : ascii -> bool) (s : string) : exists t, s = t ++ Str.lstrip p s.
Proof.
  induction s as [|c s [t IH]]; cbn; [now exists EmptyString|].
  destruct (p c).
  - exists (String c t). cbn. now rewrite <- IH.
  - now exists EmptyString.
Qed.

Lemma rstrip_prefix (p : ascii -> bool) (s : string) : exists t, s = Str.rstrip p s ++ t.
Proof.
  induction s as [|c s [t IH]]; cbn; [now exists EmptyString|].
  destruct (p c && Str.is_empty (Str.rstrip p s)).
  - now exists (String c s).
  - exists t. cbn. now rewrite <- IH.
Qed.

Lemma take_prefix (n : nat) (s : string) : exists t, s = Str.take n s ++ t.
Proof.
  revert s. induction n as [|n IH]; intros [|c s]; cbn; eauto.
  destruct (IH s) as [t Ht]. exists t. now rewrite <- Ht.
Qed.

Lemma take_length (n : nat) (s : string) :
  String.length (Str.take n s) = Nat.min n (String.length s).
Proof. revert s. induction n as [|n IH]; intros [|c s]; cbn; auto. Qed.

Lemma take_all_length (n : nat) (s : string) :
  (String.length s <= n)%nat -> Str.take n s = s.
Proof.
  revert s. induction n as [|n IH]; intros [|c s]; cbn; try reflexivity; try lia.
  intros H. rewrite IH; [reflexivity|lia].
Qed.

Lemma all_chars_prefix (q : ascii -> bool) (a b : string) :
  all_chars q (a ++ b) = true -> all_chars q a = true.
Proof. rewrite all_chars_app. intros H. now apply andb_true_iff in H. Qed.

Lemma all_chars_suffix (q : ascii -> bool) (a b : string) :
  all_chars q (a ++ b) = true -> all_chars q b = true.
Proof. rewrite all_chars_app. intros H. now apply andb_true_iff in H. Qed.

Lemma strip_by_all (p q : ascii -> bool) (s : string) :
  all_chars q s = true -> all_chars q (Str.strip_by p s) = true.
Proof.
  intros H. unfold Str.strip_by.
  destruct (lstrip_suffix p s) as [t Ht]. rewrite Ht in H. apply all_chars_suffix in H.
  destruct (rstrip_prefix p (Str.lstrip p s)) as [u Hu]. rewrite Hu in H.
  now apply all_chars_prefix in H.
Qed.

Lemma take_all (q : ascii -> bool) (n : nat) (s : string) :
  all_chars q s = true -> all_chars q (Str.take n s) = true.
Proof.
  intros H. destruct (take_prefix n s) as [t Ht]. rewrite Ht in H.
  now apply all_chars_prefix in H.
Qed.

Lemma sub_runs_from_all (p q r : ascii -> bool) (b : ascii) (in_run : bool) (s : string) :
  q b = true -> (forall c, r c = true -> p c = false -> q c = true) ->
  all_chars r s = true -> all_chars q (Str.sub_runs_from p b in_run s) = true.
Proof.
  intros Hb Hq. revert in_run. induction s as [|c s IH]; intros in_run; cbn; [reflexivity|].
  intros H. apply andb_true_iff in H as [Hc Hs].
  destruct (p c) eqn:Hp.
  - destruct in_run; cbn; [|rewrite Hb]; now apply IH.
  - cbn. now rewrite (Hq c Hc Hp), IH.
Qed.

(** No two underscores side by side: tails, prefixes and suffixes. *)
Lemma sem_sublinhado_duplo_tail (c : ascii) (s : string) :
  sem_sublinhado_duplo (String c s) = true -> sem_sublinhado_duplo s = true.
Proof. destruct s; cbn; [reflexivity|]. intros H. now apply andb_true_iff in H. Qed.

Lemma sem_sublinhado_duplo_suffix (a b : string) :
  sem_sublinhado_duplo (a ++ b) = true -> sem_sublinhado_duplo b = true.
Proof.
  induction a as [|c a IH]; [auto|]. intros H. apply IH.
  exact (sem_sublinhado_duplo_tail c _ H).
Qed.

Lemma sem_sublinhado_duplo_prefix (a b : string) :
  sem_sublinhado_duplo (a ++ b) = true -> sem_sublinhado_duplo a = true.
Proof.
  induction a as [|c a IH]; [reflexivity|].
  destruct a as [|d a]; [reflexivity|].
  cbn [append sem_sublinhado_duplo] in *. intros H.
  apply andb_true_iff in H as [H1 H2]. rewrite H1. now apply IH.
Qed.

Lemma sub_runs_sem_sublinhado_duplo (in_run : bool) (s : string) :
  let t := Str.sub_runs_from (Ascii.eqb "_") "_" in_run s in
  sem_sublinhado_duplo t = true
  /\ (in_run = true -> primeiro t <> Some "_"%char).
Proof.
  revert in_run. induction s as [|c s IH]; intros in_run; cbn zeta; cbn [Str.sub_runs_from].
  - split; [reflexivity|discriminate].
  - destruct (Ascii.eqb_spec "_" c) as [<-|Hc].
    + destruct (IH true) as [H1 H2]. cbn zeta in H1, H2.
      destruct in_run; [split; [exact H1|exact H2]|].
      split; [|discriminate].
      destruct (Str.sub_runs_from _ _ true s) as [|d r] eqn:E; [reflexivity|].
      change (negb (Ascii.eqb "_" "_" && Ascii.eqb d "_")
              && sem_sublinhado_duplo (String d r) = true).
      rewrite H1.
      destruct (Ascii.eqb_spec d "_") as [->|]; [now destruct (H2 eq_refl)|reflexivity].
    + destruct (IH false) as [H1 _]. cbn zeta in H1. split.
      * destruct (Str.sub_runs_from _ _ false s) as [|d r] eqn:E; [reflexivity|].
        change (negb (Ascii.eqb c "_" && Ascii.eqb d "_")
                && sem_sublinhado_duplo (String d r) = true).
        rewrite H1.
        destruct (Ascii.eqb_spec c "_") as [->|]; [contradiction|reflexivity].
      * intros _ [= H]. now apply Hc.
Qed.

Lemma primeiro_take (n : nat) (s : string) : primeiro (Str.take (S n) s) = primeiro s.
Proof. destruct s; reflexivity. Qed.

Lemma sublinhado_limpo : limpo "_" = true.
Proof. reflexivity. Qed.

Section Sanitizar.

(** The name before the cut at 50 characters. *)
Local Abbreviation inteiro nome :=
  (Str.strip_by (Ascii.eqb "_")
     (Str.sub_runs (Ascii.eqb "_") "_"
        (Str.sub_runs Str.is_space "_"
           (Str.strip
              (Str.map (fun c => if caractere_invalido c then "_"%char else c) nome))))).

Lemma sanitizar_nome_arquivo_eq (nome : string) :
  sanitizar_nome_arquivo nome
  = if (50 <? String.length (inteiro nome))%nat then Str.take 50 (inteiro nome)
    else inteiro nome.
Proof. reflexivity. Qed.

Lemma inteiro_limpo (nome : string) : all_chars limpo (inteiro nome) = true.
Proof.
  apply strip_by_all.
  apply (sub_runs_from_all _ _ limpo); [reflexivity|auto|].
  apply (sub_runs_from_all _ _ (fun c => negb (caractere_invalido c))); [reflexivity| |].
  - intros c H1 H2. unfold limpo. now rewrite H1, H2.
  - apply strip_by_all. rewrite all_chars_map.
    clear. induction nome as [|c s IH]; [reflexivity|].
    cbn [all_chars]. rewrite IH.
    destruct (caractere_invalido c) eqn:E; [reflexivity|now rewrite E].
Qed.

Lemma inteiro_sem_sublinhado_duplo (nome : string) :
  sem_sublinhado_duplo (inteiro nome) = true.
Proof.
  unfold Str.strip_by.
  match goal with |- context [Str.lstrip ?p ?s] =>
    destruct (rstrip_prefix p (Str.lstrip p s)) as [u Hu];
    destruct (lstrip_suffix p s) as [t Ht];
    pose proof (proj1 (sub_runs_sem_sublinhado_duplo false
                         (Str.sub_runs Str.is_space "_"
                            (Str.strip (Str.map (fun c => if caractere_invalido c
                                                          then "_"%char else c) nome)))))
      as H
  end.
  cbn zeta in H. unfold Str.sub_runs in Ht at 1. rewrite Ht in H.
  apply sem_sublinhado_duplo_suffix in H. rewrite Hu in H.
  exact (sem_sublinhado_duplo_prefix _ _ H).
Qed.

(** X12. The file name [sanitizar_nome_arquivo] returns, for every name:
    at most 50 characters; none of the characters of the forbidden class
    and no whitespace; no two underscores side by side; no underscore in
    front.  An underscore at the end is left only by the cut: it can end
    a name of exactly 50 characters, and no shorter one. *)
Theorem X12_sanitizar_nome_arquivo (nome : string) :
  let s := sanitizar_nome_arquivo nome in
  (String.length s <= 50)%nat
  /\ all_chars limpo s = true
  /\ sem_sublinhado_duplo s = true
  /\ primeiro s <> Some "_"%char
  /\ ((String.length s < 50)%nat -> ultimo s <> Some "_"%char).
Proof.
  cbn zeta. rewrite sanitizar_nome_arquivo_eq.
  pose proof (inteiro_limpo nome) as Hl.
  pose proof (inteiro_sem_sublinhado_duplo nome) as Hs.
  assert (Hp : primeiro (inteiro nome) <> Some "_"%char).
  { intros H. apply strip_by_first in H. discriminate H. }
  assert (Hu : ultimo (inteiro nome) <> Some "_"%char).
  { intros H. apply strip_by_last in H. discriminate H. }
  destruct (Nat.ltb_spec 50 (String.length (inteiro nome))) as [Hlen|Hlen].
  - repeat split.
    + rewrite take_length. lia.
    + now apply take_all.
    + destruct (take_prefix 50 (inteiro nome)) as [t Ht]. rewrite Ht in Hs.
      exact (sem_sublinhado_duplo_prefix _ _ Hs).
    + now rewrite primeiro_take.
    + rewrite take_length. lia.
  - repeat split; auto.
Qed.

Lemma map_limpo (s : string) :
  all_chars limpo s = true ->
  Str.map (fun c => if caractere_invalido c then "_"%char else c) s = s.
Proof.
  induction s as [|c s IH]; cbn [Str.map all_chars]; [reflexivity|]. intros H.
  apply andb_true_iff in H as [Hc Hs]. rewrite (IH Hs).
  unfold limpo in Hc. destruct (caractere_invalido c); [discriminate|reflexivity].
Qed.

Lemma lstrip_primeiro (p : ascii -> bool) (s : string) :
  (forall c, primeiro s = Some c -> p c = false) -> Str.lstrip p s = s.
Proof. destruct s as [|c s]; cbn; [reflexivity|]. intros H. now rewrite (H c eq_refl). Qed.

Lemma rstrip_ultimo (p : ascii -> bool) (s : string) :
  (forall c, ultimo s = Some c -> p c = false) -> Str.rstrip p s = s.
Proof.
  induction s as [|c s IH]; cbn [Str.rstrip]; [reflexivity|]. intros H.
  destruct s as [|d s].
  - cbn. now rewrite (H c eq_refl).
  - rewrite IH by (intros a Ha; apply H; exact Ha).
    cbn. now rewrite andb_false_r.
Qed.

Lemma all_chars_primeiro (q : ascii -> bool) (s : string) (c : ascii) :
  all_chars q s = true -> primeiro s = Some c -> q c = true.
Proof. destruct s; cbn; [discriminate|]. intros H [= <-]. now apply andb_true_iff in H. Qed.

Lemma all_chars_ultimo (q : ascii -> bool) (s : string) (c : ascii) :
  all_chars q s = true -> ultimo s = Some c -> q c = true.
Proof.
  induction s as [|a s IH]; [discriminate|]. intros H.
  apply andb_true_iff in H as [Ha Hs]. destruct s as [|d s]; [now intros [= <-]|].
  intros Hu. apply IH; assumption.
Qed.

Lemma strip_by_limpo (p : ascii -> bool) (s : string) :
  (forall c, primeiro s = Some c -> p c = false) ->
  (forall c, ultimo s = Some c -> p c = false) ->
  Str.strip_by p s = s.
Proof.
  intros Hp Hu. unfold Str.strip_by. rewrite lstrip_primeiro by exact Hp.
  now apply rstrip_ultimo.
Qed.

Lemma sub_runs_from_ausente (p : ascii -> bool) (b : ascii) (in_run : bool) (s : string) :
  all_chars (fun c => negb (p c)) s = true -> Str.sub_runs_from p b in_run s = s.
Proof.
  revert in_run. induction s as [|c s IH]; intros in_run; cbn; [reflexivity|]. intros H.
  apply andb_true_iff in H as [Hc Hs]. apply negb_true_iff in Hc. rewrite Hc.
  now rewrite IH.
Qed.

Lemma sub_runs_from_sublinhado (in_run : bool) (s : string) :
  sem_sublinhado_duplo s = true ->
  (in_run = true -> primeiro s <> Some "_"%char) ->
  Str.sub_runs_from (Ascii.eqb "_") "_" in_run s = s.
Proof.
  revert in_run. induction s as [|c s IH]; intros in_run Hs Hp; cbn [Str.sub_runs_from];
    [reflexivity|].
  destruct (Ascii.eqb_spec "_" c) as [<-|Hc].
  - destruct in_run; [now destruct (Hp eq_refl)|].
    rewrite IH; [reflexivity|exact (sem_sublinhado_duplo_tail _ _ Hs)|].
    intros _. destruct s as [|d s]; [discriminate|].
    cbn [sem_sublinhado_duplo] in Hs. apply andb_true_iff in Hs as [Hd _].
    cbn. intros [= ->]. discriminate Hd.
  - rewrite IH; [reflexivity|exact (sem_sublinhado_duplo_tail _ _ Hs)|discriminate].
Qed.

(** A name that already has the form of a file name is returned as it
    is. *)
Lemma sanitizar_nome_arquivo_fixo (s : string) :
  (String.length s <= 50)%nat ->
  all_chars limpo s = true ->
  sem_sublinhado_duplo s = true ->
  primeiro s <> Some "_"%char ->
  ultimo s <> Some "_"%char ->
  sanitizar_nome_arquivo s = s.
Proof.
  intros Hlen Hl Hs Hp Hu. rewrite sanitizar_nome_arquivo_eq.
  assert (Hesp : forall c, limpo c = true -> Str.is_space c = false).
  { intros c Hc. unfold limpo in Hc. apply andb_true_iff in Hc as [_ Hc].
    now apply negb_true_iff in Hc. }
  assert (Hin : inteiro s = s).
  { rewrite (map_limpo s Hl).
    unfold Str.strip. rewrite (strip_by_limpo Str.is_space s).
    2:{ intros c Hc. apply Hesp. exact (all_chars_primeiro _ _ _ Hl Hc). }
    2:{ intros c Hc. apply Hesp. exact (all_chars_ultimo _ _ _ Hl Hc). }
    unfold Str.sub_runs. rewrite (sub_runs_from_ausente Str.is_space "_" false s).
    2:{ revert Hl. apply all_chars_impl. intros c Hc. now rewrite (Hesp c Hc). }
    rewrite sub_runs_from_sublinhado by (try assumption; discriminate).
    apply strip_by_limpo.
    - intros c Hc. destruct (Ascii.eqb_spec "_" c) as [<-|]; [contradiction|reflexivity].
    - intros c Hc. destruct (Ascii.eqb_spec "_" c) as [<-|]; [contradiction|reflexivity]. }
  rewrite Hin. apply Nat.ltb_ge in Hlen. now rewrite Hlen.
Qed.

(** X13. Sanitizing twice is sanitizing once, for every name whose file
    name has fewer than 50 characters: such a result has the form of a file
    name and no underscore at its end, and [sanitizar_nome_arquivo] returns
    every such text as it is.  (A result of 50 characters can end in an
    underscore, which a second pass removes.) *)
Theorem X13_sanitizar_duas_vezes (nome : string) :
  (String.length (sanitizar_nome_arquivo nome) < 50)%nat ->
  sanitizar_nome_arquivo (sanitizar_nome_arquivo nome) = sanitizar_nome_arquivo nome.
Proof.
  rewrite (sanitizar_nome_arquivo_eq nome).
  destruct (Nat.ltb_spec 50 (String.length (inteiro nome))) as [Hlen|Hlen].
  - rewrite take_length. lia.
  - intros _. apply sanitizar_nome_arquivo_fixo.
    + exact Hlen.
    + apply inteiro_limpo.
    + apply inteiro_sem_sublinhado_duplo.
    + intros H. apply strip_by_first in H. discriminate H.
    + intros H. apply strip_by_last in H. discriminate H.
Qed.

End Sanitizar.

Example sanitizar_nome_arquivo_cortado :
  let nome := "Maria Aparecida de Oliveira Nascimento dos Santos e Silva" in
  sanitizar_nome_arquivo nome = "Maria_Aparecida_de_Oliveira_Nascimento_dos_Santos_"
  /\ sanitizar_nome_arquivo (sanitizar_nome_arquivo nome)
     = "Maria_Aparecida_de_Oliveira_Nascimento_dos_Santos".
Proof. split; vm_compute; reflexivity. Qed.

Lemma X13_sanitizar_duas_vezes_witness :
  sanitizar_nome_arquivo (sanitizar_nome_arquivo " Ana / Lima__Souza ")
  = sanitizar_nome_arquivo " Ana / Lima__Souza ".
Proof. apply X13_sanitizar_duas_vezes. vm_compute. lia. Defined.

Lemma letra_limpa (c : ascii) :
  letra c = true ->
  caractere_invalido c = false /\ Str.is_space c = false /\ Ascii.eqb "_" c = false.
Proof. destruct c as [[] [] [] [] [] [] [] []]; vm_compute; intros H; auto; discriminate H. Qed.

Lemma filter_map_fora (keep : ascii -> bool) (f : ascii -> ascii) (s : string) :
  (forall c, keep c = true -> f c = c) -> (forall c, keep (f c) = true -> keep c = true) ->
  Str.filter keep (Str.map f s) = Str.filter keep s.
Proof.
  intros H1 H2. induction s as [|c s IH]; cbn [Str.map Str.filter]; [reflexivity|].
  rewrite IH. destruct (keep c) eqn:Hc.
  - now rewrite (H1 c Hc), Hc.
  - destruct (keep (f c)) eqn:Hf; [|reflexivity]. now rewrite (H2 c Hf) in Hc.
Qed.

Lemma sub_runs_from_filter (p keep : ascii -> bool) (b : ascii) (in_run : bool) (s : string) :
  keep b = false -> (forall c, p c = true -> keep c = false) ->
  Str.filter keep (Str.sub_runs_from p b in_run s) = Str.filter keep s.
Proof.
  intros Hb Hp. revert in_run.
  induction s as [|c s IH]; intros in_run; cbn [Str.sub_runs_from Str.filter]; [reflexivity|].
  destruct (p c) eqn:Hc.
  - rewrite (Hp c Hc). destruct in_run; [apply IH|].
    cbn [Str.filter]. rewrite Hb. apply IH.
  - cbn [Str.filter]. now rewrite IH.
Qed.

Lemma tem_letra_eq (s : string) : tem_letra s = negb (Str.is_empty (Str.filter letra s)).
Proof. reflexivity. Qed.

(** Before the cut, sanitizing keeps every letter, in order. *)
Lemma letras_de_sanitizar (nome : string) :
  Str.filter letra
    (Str.strip_by (Ascii.eqb "_")
       (Str.sub_runs (Ascii.eqb "_") "_"
          (Str.sub_runs Str.is_space "_"
             (Str.strip
                (Str.map (fun c => if caractere_invalido c then "_"%char else c) nome)))))
  = Str.filter letra nome.
Proof.
  rewrite strip_by_filter.
  2:{ intros c Hc. destruct (letra c) eqn:E; [|reflexivity].
      destruct (letra_limpa c E) as (_ & _ & H). congruence. }
  unfold Str.sub_runs. rewrite sub_runs_from_filter; [|reflexivity|].
  2:{ intros c Hc. destruct (letra c) eqn:E; [|reflexivity].
      destruct (letra_limpa c E) as (_ & _ & H). congruence. }
  rewrite sub_runs_from_filter; [|reflexivity|].
  2:{ intros c Hc. destruct (letra c) eqn:E; [|reflexivity].
      destruct (letra_limpa c E) as (_ & H & _). congruence. }
  unfold Str.strip. rewrite strip_by_filter.
  2:{ intros c Hc. destruct (letra c) eqn:E; [|reflexivity].
      destruct (letra_limpa c E) as (_ & H & _). congruence. }
  apply filter_map_fora.
  - intros c Hc. destruct (letra_limpa c Hc) as (H & _). now rewrite H.
  - intros c. destruct (caractere_invalido c); [discriminate|auto].
Qed.

Lemma filter_strip_tem_letra (s : string) : tem_letra (Str.strip s) = tem_letra s.
Proof.
  rewrite !tem_letra_eq. unfold Str.strip. rewrite strip_by_filter; [reflexivity|].
  intros c Hc. destruct (letra c) eqn:E; [|reflexivity].
  destruct (letra_limpa c E) as (_ & H & _). congruence.
Qed.

(** What [validar_nome_completo] accepts. *)
Lemma validar_nome_completo_inv (nome n : string) :
  validar_nome_completo nome = Ok n ->
  n = Str.strip nome
  /\ (3 <= String.length n <= 100)%nat
  /\ tem_letra n = true.
Proof.
  unfold validar_nome_completo.
  destruct (Str.is_empty nome); [discriminate|].
  destruct (Nat.ltb_spec (String.length (Str.strip nome)) 3); [discriminate|].
  destruct (Nat.ltb_spec 100 (String.length (Str.strip nome))); [discriminate|].
  destruct (tem_letra (Str.strip nome)) eqn:E; [|discriminate].
  intros [= <-]. auto.
Qed.

(** X14. A name [validar_nome_completo] accepts never gives an empty file
    name: its letters survive [sanitizar_nome_arquivo], so the PDF of a
    validated name is never called [simulacao_.pdf]. *)
Theorem X14_nome_de_arquivo_nao_vazio (nome n : string) :
  validar_nome_completo nome = Ok n ->
  Str.is_empty (sanitizar_nome_arquivo nome) = false.
Proof.
  intros H. apply validar_nome_completo_inv in H as (-> & _ & Hl).
  rewrite filter_strip_tem_letra, tem_letra_eq, <- letras_de_sanitizar in Hl.
  apply negb_true_iff in Hl.
  unfold sanitizar_nome_arquivo.
  match goal with |- context [Str.take 50 ?t] => destruct t as [|c r] end;
    [discriminate Hl|].
  destruct (50 <? _)%nat; reflexivity.
Qed.

Lemma X14_nome_de_arquivo_nao_vazio_witness :
  Str.is_empty (sanitizar_nome_arquivo " ?? a ?? ") = false.
Proof. apply (X14_nome_de_arquivo_nao_vazio _ "?? a ??"). vm_compute. reflexivity. Defined.

(** X15. [validar_nome_completo] fails with a [ValueError] only; what it
    returns is the name without the whitespace at its ends, and validating
    that again returns it unchanged.  Every name it accepts also passes
    the name check of the webhook. *)
Theorem X15_validar_nome_completo (nome : string) :
  match validar_nome_completo nome with
  | Raise e => exn_class e = ValueError
  | Ok n =>
      n = Str.strip nome
      /\ validar_nome_completo n = Ok n
      /\ (Str.is_empty nome || (String.length (Str.strip nome) <? 3)%nat) = false
  end.
Proof.
  destruct (validar_nome_completo nome) as [n|e] eqn:H.
  - pose proof (validar_nome_completo_inv _ _ H) as (-> & Hlen & Hl).
    split; [reflexivity|]. split.
    + assert (Hidem : Str.strip (Str.strip nome) = Str.strip nome)
        by apply strip_by_idem.
      unfold validar_nome_completo. rewrite Hidem.
      rewrite (strip_length_not_empty' nome 2) by lia.
      destruct (Nat.ltb_spec (String.length (Str.strip nome)) 3); [lia|].
      destruct (Nat.ltb_spec 100 (String.length (Str.strip nome))); [lia|].
      now rewrite Hl.
    + destruct nome; [discriminate H|]. cbn [Str.is_empty orb].
      apply Nat.ltb_ge. lia.
  - revert H. unfold validar_nome_completo.
    destruct (Str.is_empty nome); [now intros [= <-]|].
    destruct (_ <? _)%nat; [now intros [= <-]|].
    destruct (_ <? _)%nat; [now intros [= <-]|].
    destruct (negb _); [now intros [= <-]|discriminate].
Qed.

From Stdlib Require Import Lqa.

Local Close Scope string_scope.

(** * The figures in exact arithmetic *)

(** [round] against an even integer: the ties at [k - 1/2] and [k + 1/2]
    both go to [k]. *)
Lemma Z_round_half_even_gt (n : Z) (d : positive) (k : Z) :
  Z.even k = true ->
  (k < Z_round_half_even n d <-> (2 * k + 1) * Zpos d < 2 * n).
Proof.
  intros Hk. unfold Z_round_half_even.
  pose proof (Z.div_mod n (Zpos d) ltac:(lia)) as Hn.
  pose proof (Z.mod_pos_bound n (Zpos d) ltac:(lia)) as Hr.
  set (q := n / Zpos d) in *. set (r := n mod Zpos d) in *.
  assert (Hq : Z.even q = true -> q <> k + 1 /\ q <> k - 1).
  { intros He. split; intros ->.
    - rewrite Z.even_add in He. rewrite Hk in He. discriminate He.
    - rewrite Z.even_sub in He. rewrite Hk in He. discriminate He. }
  assert (Hq' : Z.even q = false -> q <> k).
  { intros He ->. congruence. }
  destruct (Z.compare_spec (2 * r) (Zpos d)) as [H|H|H];
    [destruct (Z.even q) eqn:He; [specialize (Hq eq_refl)|specialize (Hq' eq_refl)]| |];
    split; intros Hlt; nia.
Qed.

Lemma Z_round_half_even_lt (n : Z) (d : positive) (k : Z) :
  Z.even k = true ->
  (Z_round_half_even n d < k <-> 2 * n < (2 * k - 1) * Zpos d).
Proof.
  intros Hk. unfold Z_round_half_even.
  pose proof (Z.div_mod n (Zpos d) ltac:(lia)) as Hn.
  pose proof (Z.mod_pos_bound n (Zpos d) ltac:(lia)) as Hr.
  set (q := n / Zpos d) in *. set (r := n mod Zpos d) in *.
  assert (Hq : Z.even q = true -> q <> k - 1).
  { intros He ->. rewrite Z.even_sub in He. rewrite Hk in He. discriminate He. }
  assert (Hq' : Z.even q = false -> q <> k).
  { intros He ->. congruence. }
  destruct (Z.compare_spec (2 * r) (Zpos d)) as [H|H|H];
    [destruct (Z.even q) eqn:He; [specialize (Hq eq_refl)|specialize (Hq' eq_refl)]| |];
    split; intros Hlt; nia.
Qed.

Lemma this_TARIFA_ENERGISA : this (TARIFA_ENERGISA (F := Qc)) = 1138131 # 1000000.
Proof. reflexivity. Qed.

(** Where the estimate [(B - fee) / 1.138131] lies, in terms of [B]. *)
Lemma estimativa_gt (B fee : Qc) (k : Z) :
  let x := ((B - fee) / TARIFA_ENERGISA)%Qc in
  (2 * k + 1) * Zpos (Qden x) < 2 * Qnum x
  <-> (this fee + ((2 * k + 1) # 2) * (1138131 # 1000000) < this B)%Q.
Proof.
  cbn zeta. set (x := ((B - fee) / TARIFA_ENERGISA)%Qc).
  assert (Hx : (this x == (this B - this fee) * (1000000 # 1138131))%Q).
  { unfold x. rewrite this_div, this_minus, this_TARIFA_ENERGISA. reflexivity. }
  assert (H : (2 * k + 1) * Zpos (Qden x) < 2 * Qnum x <-> ((2 * k + 1) # 2 < this x)%Q).
  { unfold Qlt. cbn [Qnum Qden]. lia. }
  rewrite H, Hx. split; intros H1; lra.
Qed.

Lemma estimativa_lt (B fee : Qc) (k : Z) :
  let x := ((B - fee) / TARIFA_ENERGISA)%Qc in
  2 * Qnum x < (2 * k - 1) * Zpos (Qden x)
  <-> (this B < this fee + ((2 * k - 1) # 2) * (1138131 # 1000000))%Q.
Proof.
  cbn zeta. set (x := ((B - fee) / TARIFA_ENERGISA)%Qc).
  assert (Hx : (this x == (this B - this fee) * (1000000 # 1138131))%Q).
  { unfold x. rewrite this_div, this_minus, this_TARIFA_ENERGISA. reflexivity. }
  assert (H : 2 * Qnum x < (2 * k - 1) * Zpos (Qden x) <-> (this x < (2 * k - 1) # 2)%Q).
  { unfold Qlt. cbn [Qnum Qden]. lia. }
  rewrite H, Hx. split; intros H1; lra.
Qed.

Lemma this_mult (x y : Qc) : (this (x * y)%Qc == this x * this y)%Q.
Proof. unfold Qcmult, Q2Qc. cbn [this]. apply Qred_correct. Qed.

Lemma this_Q2Qc (q : Q) : (this (Q2Qc q) == q)%Q.
Proof. apply Qred_correct. Qed.

(** The sign of one fifth of the tariff times a difference of integers. *)
Lemma desconto_positivo (c m : Z) :
  (0 < Q2Qc (1 # 5) * TARIFA_ENERGISA * (Qc_of_Z c - Qc_of_Z m))%Qc <-> m < c.
Proof.
  unfold Qclt.
  rewrite !this_mult, this_minus, !Qc_of_Z_this, this_TARIFA_ENERGISA, (this_Q2Qc (1 # 5)).
  change (this 0%Qc) with 0%Q. rewrite (Zlt_Qlt m c).
  split; intros H; lra.
Qed.

Lemma valor_desconto_exato (g : Globals Qc) (v : Valores Qc) :
  calcular_valores_financeiros g = Ok v ->
  valor_desconto v
  = (Q2Qc (1 # 5) * TARIFA_ENERGISA * (Qc_of_Z (CONSUMO g) - Qc_of_Z (CONSUMO_MINIMO g)))%Qc.
Proof.
  intros [= <-]. cbn [valor_desconto].
  replace (Q2Qc (1 # pow10 0) - Q2Qc (200 # pow10 1) / Q2Qc (100 # pow10 0))%Qc
    with (1 - Q2Qc (1 # 5))%Qc by (apply Qc_is_canon; reflexivity).
  change (TARIFA_ENERGISA (F := Qc)) with (Q2Qc (1138131 # pow10 6)). ring.
Qed.


(** The band of a bill, in exact arithmetic. *)
Lemma faixa_exata (B : Qc) :
  ((this B <= 300)%Q /\ tier B = 30 /\ this (base_fee B) = 429 # 10)
  \/ ((300 < this B)%Q /\ (this B <= 500)%Q /\ tier B = 50 /\ this (base_fee B) = 6167 # 100)
  \/ ((500 < this B)%Q /\ tier B = 100 /\ this (base_fee B) = 9251 # 100).
Proof.
  unfold tier, base_fee. cbn [fleb fltb Exact].
  change (this (dec (F := Qc) 300 0)) with (300 # 1).
  change (this (dec (F := Qc) 500 0)) with (500 # 1).
  destruct (Qle_bool (this B) (300 # 1)) eqn:H3.
  - apply Qle_bool_iff in H3.
    assert (H5 : Qle_bool (this B) (500 # 1) = true) by (apply Qle_bool_iff; lra).
    rewrite H5. cbn. left. repeat split; lra.
  - apply Qle_bool_false in H3.
    destruct (Qle_bool (this B) (500 # 1)) eqn:H5.
    + apply Qle_bool_iff in H5. cbn. right. left. repeat split; lra.
    + apply Qle_bool_false in H5. cbn. right. right. repeat split; lra.
Qed.


Local Open Scope string_scope.

(** The same at binary64, through the webhook: a bill of 10 passes the
    checks, and the proposal is produced for -29 kWh and a negative
    saving. *)
Example conta_pequena_binary64 :
  let g := MkGlobals NOME_COMPLETO ENDERECO_COMPLETO 332 0x1.efec8f7553698p+5%float 50 in
  exists p v w',
    processar_proposta_webhook "/app/media" "/app/img" 1700000000 None
      (fun _ => None) (fun _ => None) (fun _ => None) None (fun _ => true)
      "Ana Lima" "Rua das Palmeiras, 456" "10" (MkWorld g [] [])
    = (Ok (Sucesso "/app/media/simulacao_Ana_Lima.pdf" p "Proposta gerada com sucesso"), w')
    /\ p_consumo p = -29
    /\ p_consumo_minimo p = 30
    /\ calcular_valores_financeiros (globals_de p) = Ok v
    /\ (valor_desconto v <? dec 0 0)%pf = true.
Proof.
  cbn zeta. eexists. eexists. eexists.
  split; [vm_compute; reflexivity|].
  split; [reflexivity|]. split; [reflexivity|].
  split; vm_compute; reflexivity.
Qed.

(** * The validators of [app.py] in front of the webhook *)

Lemma filter_not_empty (p : ascii -> bool) (s : string) :
  Str.is_empty (Str.filter p s) = false -> Str.is_empty s = false.
Proof. destruct s; [discriminate|reflexivity]. Qed.

Section ValidadoresProofs.

Variable str_float : float -> string.

Local Abbreviation validate_valor := (validate_valor_fatura str_float).

(** X18. [validate_valor_fatura] reads the digits, points and commas of
    the text and nothing else: any other character, anywhere, changes
    neither the result nor the error, as long as something else is left of
    the text.  The minus sign is such a character, so a negative amount is
    taken for the positive one; so are the letters of an exponent. *)
Theorem X18_validate_valor_fatura_ignora (antes depois : string) (c : ascii) :
  mantido c = false ->
  Str.is_empty (antes ++ depois) = false ->
  validate_valor (antes ++ String c depois) = validate_valor (antes ++ depois).
Proof.
  intros Hc Hne. unfold validate_valor_fatura. rewrite Hne.
  replace (Str.is_empty (antes ++ String c depois)) with false
    by (destruct antes; reflexivity).
  rewrite !filter_append. cbn [Str.filter]. rewrite Hc. reflexivity.
Qed.

(** X19. What [validate_valor_fatura] returns and raises.  A result is
    the text [str] gives for a float [x] that [float] read from the kept
    characters (commas as points), with neither [x <= 0] nor
    [x > 99999.99].  An error is a [ValueError] with one of three messages:
    the messages "Valor da fatura deve ser maior que zero" and "Valor da
    fatura muito alto" are raised inside the [try] and replaced by "Valor
    da fatura deve ser um número válido". *)
Theorem X19_validate_valor_fatura (v : string) :
  match validate_valor v with
  | Ok s =>
      exists x,
        s = str_float x
        /\ PyFloatStr.float_of_str (Str.replace "," "." (Str.filter mantido v)) = Ok x
        /\ (x <=? dec 0 0)%pf = false
        /\ (x >? dec 9999999 2)%pf = false
  | Raise e =>
      In e [MkExn ValueError "Valor da fatura é obrigatório";
            MkExn ValueError "Valor da fatura deve conter números";
            MkExn ValueError "Valor da fatura deve ser um número válido"]
  end.
Proof.
  unfold validate_valor_fatura.
  destruct (Str.is_empty v); [cbn; auto|].
  destruct (Str.is_empty (Str.filter mantido v)); [cbn; auto|].
  assert (Hr : (if Str.contains "," (Str.filter mantido v)
                then Str.replace "," "." (Str.filter mantido v)
                else Str.filter mantido v)
               = Str.replace "," "." (Str.filter mantido v)).
  { destruct (Str.contains "," (Str.filter mantido v)) eqn:E; [reflexivity|].
    apply contains_false_count in E. now rewrite (replace_absent "," "." _ E). }
  cbn zeta. rewrite Hr.
  destruct (PyFloatStr.float_of_str _) as [x|e] eqn:Hx; cbn [rbind].
  - destruct (x <=? dec 0 0)%pf eqn:H0; [cbn; auto|].
    destruct (x >? dec 9999999 2)%pf eqn:H9; [cbn; auto|].
    cbn. exists x. auto.
  - cbn. rewrite (float_of_str_raises_ValueError _ _ Hx). cbn. auto.
Qed.

(** X20. The webhook after the validators.  The name and the address the
    validators return are stripped texts that pass the checks of
    [processar_proposta_webhook], which strips them again without changing
    them.  The bill they return is [str(x)] for a float [x] that is not
    [<= 0]; where that text reads back as [x], the webhook accepts the
    three texts and derives its parameters from [x]. *)
Theorem X20_validadores_e_webhook (nome endereco valor n e s : string) :
  validate_nome_completo nome = Ok n ->
  validate_endereco endereco = Ok e ->
  validate_valor valor = Ok s ->
  Str.strip n = n /\ Str.strip e = e
  /\ (3 <= String.length n)%nat /\ (10 <= String.length e)%nat
  /\ exists x,
       s = str_float x
       /\ (PyFloatStr.float_of_str s = Ok x ->
           validar_entrada n e s = Ok tt
           /\ calcular_parametros_automaticos (Some (Str.strip n)) (Some (Str.strip e)) (Some s)
              = parametros_de_valor n e x).
Proof.
  unfold validate_nome_completo, validate_endereco.
  destruct (Str.is_empty nome || _) eqn:Hn; [discriminate|]. intros [= <-].
  destruct (Str.is_empty endereco || _) eqn:He; [discriminate|]. intros [= <-].
  apply orb_false_iff in Hn as [_ Hn]. apply Nat.ltb_ge in Hn.
  apply orb_false_iff in He as [_ He]. apply Nat.ltb_ge in He.
  assert (Hidem : forall t, Str.strip (Str.strip t) = Str.strip t)
    by (intros t; apply strip_by_idem).
  intros Hv. rewrite !Hidem. do 4 (split; [reflexivity || assumption|]).
  revert Hv. unfold validate_valor_fatura.
  destruct (Str.is_empty valor); [discriminate|].
  destruct (Str.is_empty (Str.filter mantido valor)); [discriminate|].
  cbn zeta. destruct (PyFloatStr.float_of_str _) as [x|e0]; cbn [rbind].
  2:{ cbn. destruct (exn_class e0); discriminate. }
  destruct (x <=? dec 0 0)%pf eqn:H0; [discriminate|].
  destruct (x >? dec 9999999 2)%pf; [discriminate|].
  cbn. intros [= <-]. exists x. split; [reflexivity|]. intros Hx. split.
  - apply (validar_entrada_valor_valido _ _ _ x); rewrite ?Hidem; assumption.
  - apply calcular_parametros_de_float;
      [exact (strip_length_not_empty' _ 2 Hn)|exact (strip_length_not_empty' _ 9 He)|exact Hx].
Qed.

End ValidadoresProofs.

Lemma X18_validate_valor_fatura_ignora_witness :
  validate_valor_fatura (fun _ => "550.75") ("" ++ String "-" "550,75")
  = validate_valor_fatura (fun _ => "550.75") ("" ++ "550,75").
Proof. apply X18_validate_valor_fatura_ignora; reflexivity. Defined.

Lemma X20_validadores_e_webhook_witness :
  Str.strip "Ana Lima" = "Ana Lima" /\ Str.strip "Rua das Palmeiras, 456" = "Rua das Palmeiras, 456"
  /\ (3 <= String.length "Ana Lima")%nat /\ (10 <= String.length "Rua das Palmeiras, 456")%nat
  /\ exists x,
       "550.75" = (fun _ : float => "550.75") x
       /\ (PyFloatStr.float_of_str "550.75" = Ok x ->
           validar_entrada "Ana Lima" "Rua das Palmeiras, 456" "550.75" = Ok tt
           /\ calcular_parametros_automaticos (Some (Str.strip "Ana Lima"))
                (Some (Str.strip "Rua das Palmeiras, 456")) (Some "550.75")
              = parametros_de_valor "Ana Lima" "Rua das Palmeiras, 456" x).
Proof.
  apply (X20_validadores_e_webhook (fun _ => "550.75") "  Ana Lima " "Rua das Palmeiras, 456 "
           "R$ 550,75"); vm_compute; reflexivity.
Defined.

(** * [main] *)

Section MainProofs.

Variable OUTPUT_DIR IMG_DIR : string.
Variable agora : Z.
Variable prepara_grafico : option exn.
Variable desenha_grafico : Grafico -> option exn.
Variable desenha_pdf : Documento -> option exn.
Variable grava_pdf : string -> option exn.
Variable cria_diretorio : option exn.


End MainProofs.

(** * Amounts that are not finite, and the segments of the chart *)

(** X22. [formatar_moeda] formats every finite float and raises for the
    three others: NaN and the two infinities are written by Python without
    a decimal point, the list of parts has one element, and the
    [IndexError] of the second index is not among the errors the function
    catches. *)
Theorem X22_formatar_moeda_erros (x : float) :
  match B64.to_ratio x with
  | Some _ => exists s, formatar_moeda (VFloat x) = Ok s
  | None => formatar_moeda (VFloat x) = Raise (MkExn IndexError "list index out of range")
  end.
Proof.
  destruct (B64.to_ratio x) as [[n d]|] eqn:Hx.
  - eexists. exact (formatar_moeda_finite x n d Hx).
  - unfold formatar_moeda, PyFloatStr.py_float. cbn [rbind].
    unfold PyFloatStr.format_2f. rewrite Hx.
    destruct (PrimFloat.is_nan x); [reflexivity|].
    destruct (PrimFloat.get_sign x); reflexivity.
Qed.


Local Close Scope string_scope.

(** * The derived parameters as functions of the bill *)

(** [round] against an odd integer: the tie at [k - 1/2] goes down, to the
    even [k - 1]. *)
Lemma Z_round_half_even_lt_odd (n : Z) (d : positive) (k : Z) :
  Z.even k = false ->
  (Z_round_half_even n d < k <-> 2 * n <= (2 * k - 1) * Zpos d).
Proof.
  intros Hk.
  assert (He : Z.even (k - 1) = true).
  { rewrite Z.even_sub, Hk. reflexivity. }
  pose proof (Z_round_half_even_gt n d (k - 1) He) as H. lia.
Qed.

Lemma estimativa_le (B fee : Qc) (k : Z) :
  let x := ((B - fee) / TARIFA_ENERGISA)%Qc in
  2 * Qnum x <= (2 * k - 1) * Zpos (Qden x)
  <-> (this B <= this fee + ((2 * k - 1) # 2) * (1138131 # 1000000))%Q.
Proof.
  cbn zeta. set (x := ((B - fee) / TARIFA_ENERGISA)%Qc).
  assert (Hx : (this x == (this B - this fee) * (1000000 # 1138131))%Q).
  { unfold x. rewrite this_div, this_minus, this_TARIFA_ENERGISA. reflexivity. }
  assert (H : 2 * Qnum x <= (2 * k - 1) * Zpos (Qden x) <-> (this x <= (2 * k - 1) # 2)%Q).
  { unfold Qle. cbn [Qnum Qden]. lia. }
  rewrite H, Hx. split; intros H1; lra.
Qed.


(** [round] is monotone. *)
Lemma py_round_exact_mono (x y : Qc) :
  (x <= y)%Qc ->
  Z_round_half_even (Qnum x) (Qden x) <= Z_round_half_even (Qnum y) (Qden y).
Proof.
  intros Hxy.
  destruct (py_round_exact_near x _ eq_refl) as [_ Hx].
  destruct (py_round_exact_near y _ eq_refl) as [Hy _].
  set (a := Z_round_half_even (Qnum x) (Qden x)) in *.
  set (b := Z_round_half_even (Qnum y) (Qden y)) in *.
  destruct (Z_lt_le_dec b a) as [Hlt|]; [exfalso|assumption].
  assert (Hab : (inject_Z b + 1 <= inject_Z a)%Q).
  { change 1%Q with (inject_Z 1). rewrite <- inject_Z_plus, <- Zle_Qle. lia. }
  unfold Qcle in *.
  rewrite this_plus, this_half, Qc_of_Z_this in Hx.
  rewrite this_minus, this_half, Qc_of_Z_this in Hy.
  assert (Heq : x = y) by (apply Qc_is_canon; lra).
  subst y. subst a b. lia.
Qed.

Lemma consumo_exato (nome endereco : string) (B : Qc) (p : Parametros Qc) :
  parametros_de_valor nome endereco B = Ok p ->
  p_consumo p = Z_round_half_even (Qnum ((B - base_fee B) / TARIFA_ENERGISA)%Qc)
                  (Qden ((B - base_fee B) / TARIFA_ENERGISA)%Qc)
  /\ p_consumo_minimo p = tier B.
Proof.
  intros H.
  assert (E : Ok p = parametros_de_valor nome endereco B) by (symmetry; exact H).
  unfold parametros_de_valor in E. cbn [py_round float_of_int Exact rbind] in E.
  apply (f_equal (fun r => match r with Ok q => Some q | Raise _ => None end)) in E.
  injection E as ->. split; reflexivity.
Qed.


Local Open Scope string_scope.

(** The drop at binary64: 226 kWh for a bill of 300 and 209 kWh for a bill
    of 300.01. *)
Example consumo_nas_faixas_binary64 :
  exists p p',
    calcular_parametros_automaticos None None (Some "300") = Ok p
    /\ calcular_parametros_automaticos None None (Some "300.01") = Ok p'
    /\ p_consumo p = 226 /\ p_consumo p' = 209.
Proof. do 2 eexists. repeat (split; [vm_compute; reflexivity|]). reflexivity. Qed.

(** * The labels of the axis, and the names of the files *)

(** X26. The labels of the tick lines are the tick values cut to whole
    reais by [int].  In the band of the fixed ticks 0, 66.5, 133, 200.5,
    267, 333.5, 400 the lines at 66.5, 200.5 and 333.5 are labelled
    R$ 66,00, R$ 200,00 and R$ 333,00; in the band of the ticks 0, 100, ...,
    600 every label is the value of its line. *)
Theorem X26_rotulos_do_eixo (max_value : float) :
  ((max_value <? dec 300 0)%pf = false -> (max_value <? dec 400 0)%pf = true ->
   ('(y_max, y_ticks) <- eixo_y max_value ;; result_map add_value_line y_ticks)%py
   = Ok [(dec 0 0, "R$ 0,00"); (dec 6650 2, "R$ 66,00"); (dec 13300 2, "R$ 133,00");
         (dec 20050 2, "R$ 200,00"); (dec 26700 2, "R$ 267,00");
         (dec 33350 2, "R$ 333,00"); (dec 40000 2, "R$ 400,00")])
  /\ ((max_value <? dec 300 0)%pf = false -> (max_value <? dec 400 0)%pf = false ->
      (max_value <? dec 600 0)%pf = true ->
      ('(y_max, y_ticks) <- eixo_y max_value ;; result_map add_value_line y_ticks)%py
      = Ok [(dec 0 0, "R$ 0,00"); (dec 10000 2, "R$ 100,00"); (dec 20000 2, "R$ 200,00");
            (dec 30000 2, "R$ 300,00"); (dec 40000 2, "R$ 400,00");
            (dec 50000 2, "R$ 500,00"); (dec 60000 2, "R$ 600,00")]).
Proof.
  split.
  - intros H3 H4. unfold eixo_y. rewrite H3, H4. vm_compute. reflexivity.
  - intros H3 H4 H6. unfold eixo_y. rewrite H3, H4, H6. vm_compute. reflexivity.
Qed.

Section MesmoArquivo.

Variable OUTPUT_DIR IMG_DIR : string.
Variable agora agora' : Z.
Variable prepara_grafico prepara_grafico' : option exn.
Variable desenha_grafico desenha_grafico' : Grafico -> option exn.
Variable desenha_pdf desenha_pdf' : Documento -> option exn.
Variable grava_pdf grava_pdf' : string -> option exn.
Variable cria_diretorio cria_diretorio' : option exn.
Variable existe existe' : string -> bool.

Lemma processar_sucesso_caminho
    (ag : Z) (pg : option exn) (dg : Grafico -> option exn) (dp : Documento -> option exn)
    (gp : string -> option exn) (cd : option exn) (ex : string -> bool)
    (nome_completo endereco valor_fatura : string) (w w' : World)
    (caminho message : string) (p : Parametros float) :
  processar_proposta_webhook OUTPUT_DIR IMG_DIR ag pg dg dp gp cd ex
    nome_completo endereco valor_fatura w = (Ok (Sucesso caminho p message), w') ->
  caminho = OUTPUT_DIR ++ "/" ++ "simulacao_"
            ++ sanitizar_nome_arquivo (Str.strip nome_completo) ++ ".pdf"
  /\ pdfs w' = caminho :: pdfs w
  /\ graficos w' = (IMG_DIR ++ "/grafico.png") :: graficos w.
Proof.
  rewrite processar_eq. cbn zeta.
  destruct (validar_entrada _ _ _) as [[]|] eqn:Hv; [|discriminate].
  destruct (calcular_parametros_automaticos _ _ _) as [p0|] eqn:Hp; [|discriminate].
  destruct cd; [discriminate|].
  destruct (parametros_webhook_inv _ _ _ _ Hv Hp) as (_ & _ & _ & _ & Hnome & _).
  destruct (criar_proposta_pdf_casos OUTPUT_DIR IMG_DIR ag pg dg dp gp
              (set_globals (globals_de p0) w)) as [(w1 & -> & _) | (-> & _)]; [discriminate|].
  cbn [globals set_globals globals_de NOME pdfs graficos] in *.
  rewrite Hnome in *.
  destruct (ex _); [|discriminate].
  intros [= <- <- <- <-]. repeat split.
Qed.

(** X27. The files of a successful call are named after the customer's
    name only.  Two successful calls, whatever their addresses, bills,
    times and surroundings, write the same PDF path whenever the two names
    have the same sanitized form (a slash and a blank both become an
    underscore), and they always write the same chart image: the later call
    replaces the files of the earlier one. *)
Theorem X27_mesmo_arquivo
    (nome1 endereco1 valor1 nome2 endereco2 valor2 : string) (w1 w1' w2 w2' : World)
    (caminho1 caminho2 m1 m2 : string) (p1 p2 : Parametros float) :
  processar_proposta_webhook OUTPUT_DIR IMG_DIR agora prepara_grafico desenha_grafico
    desenha_pdf grava_pdf cria_diretorio existe nome1 endereco1 valor1 w1
  = (Ok (Sucesso caminho1 p1 m1), w1') ->
  processar_proposta_webhook OUTPUT_DIR IMG_DIR agora' prepara_grafico' desenha_grafico'
    desenha_pdf' grava_pdf' cria_diretorio' existe' nome2 endereco2 valor2 w2
  = (Ok (Sucesso caminho2 p2 m2), w2') ->
  (sanitizar_nome_arquivo (Str.strip nome1) = sanitizar_nome_arquivo (Str.strip nome2) ->
   caminho1 = caminho2)
  /\ hd_error (graficos w1') = hd_error (graficos w2').
Proof.
  intros H1 H2.
  apply processar_sucesso_caminho in H1 as (-> & _ & ->).
  apply processar_sucesso_caminho in H2 as (-> & _ & ->).
  split; [intros ->; reflexivity|reflexivity].
Qed.

End MesmoArquivo.

Lemma X27_mesmo_arquivo_witness :
  "/app/media/simulacao_Ana_Lima.pdf" = "/app/media/simulacao_Ana_Lima.pdf".
Proof.
  pose (g := MkGlobals NOME_COMPLETO ENDERECO_COMPLETO 332 0x1.efec8f7553698p+5%float 50).
  refine (proj1 (X27_mesmo_arquivo "/app/media" "/app/img" 1700000000 1700000060 None None
                   (fun _ => None) (fun _ => None) (fun _ => None) (fun _ => None)
                   (fun _ => None) (fun _ => None) None None (fun _ => true) (fun _ => true)
                   "Ana/Lima" "Rua das Palmeiras, 456" "550.75"
                   "Ana Lima" "Avenida Brasil, 1000" "120"
                   (MkWorld g [] [])
                   (MkWorld g ["/app/media/simulacao_Ana_Lima.pdf"] ["/app/img/grafico.png"])
                   (MkWorld g ["/app/media/simulacao_Ana_Lima.pdf"] ["/app/img/grafico.png"])
                   (MkWorld g ["/app/media/simulacao_Ana_Lima.pdf";
                               "/app/media/simulacao_Ana_Lima.pdf"]
                      ["/app/img/grafico.png"; "/app/img/grafico.png"])
                   "/app/media/simulacao_Ana_Lima.pdf" "/app/media/simulacao_Ana_Lima.pdf"
                   "Proposta gerada com sucesso" "Proposta gerada com sucesso"
                   (MkParametros "Ana/Lima" "Rua das Palmeiras, 456" 403
                      (PrimFloat.sub 550.75 (PrimFloat.mul 403 TARIFA_ENERGISA)) 100
                      550.75%float)
                   (MkParametros "Ana Lima" "Avenida Brasil, 1000" 68
                      (PrimFloat.sub 120 (PrimFloat.mul 68 TARIFA_ENERGISA)) 30 120%float)
                   _ _) _).
  - vm_compute. reflexivity.
  - vm_compute. reflexivity.
  - vm_compute. reflexivity.
Defined.
